(** * Retrieval-and-session engine of the conversational RAG service

    A shallow embedding of the vector index store
    ([app/rag/vector_store.py]), the retriever ([app/rag/retriever.py]),
    the conversation memory manager ([app/memory/conversation.py]) and the
    helpers they call ([app/utils.py], [app/config.py]), followed by the
    properties established about them.

    Conventions.
    - Python [float] values are idealised as rationals ([Q]); [0.3] is
      [3/10].  Truthiness of a float is "different from zero".
    - Python [str] is [string]; [len] is [String.length].
    - A [dict] used as a map is a [gmap]; a [dict] whose order matters is a
      list.
    - A method that can raise returns a [Result]; a method working on the
      singleton's attributes threads the attributes explicitly. *)

From Stdlib Require Import QArith Qminmax DecimalString DecimalNat.
From stdpp Require Import gmap strings list fin_maps sorting.

Local Open Scope string_scope.
Local Open Scope list_scope.
Local Open Scope Z_scope.

(* ===================================================================== *)
(** * Python primitives used by the source *)
(* ===================================================================== *)

Module Py.

(** The newline character of the string literals of the source. *)
Definition nl : string := String (Ascii.ascii_of_nat 10) EmptyString.

(** [l[start:]] on a list, for any integer [start]. *)
Definition slice_from {A} (start : Z) (l : list A) : list A :=
  if start <? 0
  then drop (Z.to_nat (Z.max 0 (Z.of_nat (length l) + start))) l
  else drop (Z.to_nat start) l.

(** [s[:stop]] on a string, for any integer [stop]. *)
Definition str_slice_to (stop : Z) (s : string) : string :=
  if stop <? 0
  then String.substring 0 (Z.to_nat (Z.max 0 (Z.of_nat (String.length s) + stop))) s
  else String.substring 0 (Z.to_nat stop) s.

(** [sep.join(parts)]. *)
Definition join (sep : string) (parts : list string) : string :=
  String.concat sep parts.

(** [str(i)] for a non-negative integer. *)
Definition str_of_nat (i : nat) : string :=
  NilZero.string_of_uint (Nat.to_uint i).

(** Truthiness of a float ([0.0] is falsy). *)
Definition truthy_float (x : Q) : bool := negb (Qnum x =? 0).

(** Truthiness of an int ([0] is falsy). *)
Definition truthy_nat (n : nat) : bool := negb (Nat.eqb n 0).

(** [x or d] on an optional float: [None] and [0.0] give [d]. *)
Definition float_or (x : option Q) (d : Q) : Q :=
  match x with
  | Some v => if truthy_float v then v else d
  | None => d
  end.

(** [k or d] on an optional count: [None] and [0] give [d]. *)
Definition nat_or (k : option nat) (d : nat) : nat :=
  match k with
  | Some v => if truthy_nat v then v else d
  | None => d
  end.

(** [max(a, b)] of two floats: the first argument unless the second is
    strictly greater. *)
Definition max (a b : Q) : Q := if Qle_bool b a then a else b.

(** The values found in the metadata dicts of chunks ([Dict[str, Any]]):
    strings and integers. *)
Inductive value : Type :=
| VStr (s : string)
| VInt (z : Z).

#[global] Instance value_eq_dec : EqDecision value.
Proof. solve_decision. Defined.

(** Exceptions that reach the callers of the modelled methods. *)
Inductive exn : Type :=
| IndexError
| ValueError
| OSError
| AssertionError.

Inductive Result (A : Type) : Type :=
| Return (a : A)
| Raise (e : exn).
Arguments Return {A} a.
Arguments Raise {A} e.

(** Whether [str.strip()] removes the character: the whitespace among the
    code points below 256. *)
Definition is_space (c : Ascii.ascii) : bool :=
  bool_decide (Ascii.nat_of_ascii c
               ∈ [9; 10; 11; 12; 13; 28; 29; 30; 31; 32; 133; 160]%nat).

(** [s.lstrip()]. *)
Fixpoint lstrip (s : string) : string :=
  match s with
  | EmptyString => EmptyString
  | String c rest => if is_space c then lstrip rest else s
  end.

(** [s.rstrip()]. *)
Fixpoint rstrip (s : string) : string :=
  match s with
  | EmptyString => EmptyString
  | String c rest =>
      match rstrip rest with
      | EmptyString => if is_space c then EmptyString else String c EmptyString
      | rest' => String c rest'
      end
  end.

(** [s.strip()]. *)
Definition strip (s : string) : string := rstrip (lstrip s).

(** [s.split()]: the maximal runs of characters that are not whitespace;
    [word] is the run read so far. *)
Fixpoint split_from (word : string) (s : string) : list string :=
  match s with
  | EmptyString =>
      match word with
      | EmptyString => []
      | _ => [word]
      end
  | String c rest =>
      if is_space c
      then match word with
           | EmptyString => split_from EmptyString rest
           | _ => word :: split_from EmptyString rest
           end
      else split_from (word +:+ String c EmptyString) rest
  end.

Definition split (s : string) : list string := split_from EmptyString s.

(** [s.replace(old, new)] for a pattern [old] of one character. *)
Fixpoint replace_char (old : Ascii.ascii) (new : string) (s : string)
  : string :=
  match s with
  | EmptyString => EmptyString
  | String c rest =>
      if Ascii.eqb c old
      then new +:+ replace_char old new rest
      else String c (replace_char old new rest)
  end.

(** [format(i, "04d")] for a non-negative integer: at least four digits,
    padded with zeros on the left. *)
Definition format_04d (i : nat) : string :=
  String.string_of_list_ascii
    (repeat (Ascii.ascii_of_nat 48) (4 - String.length (str_of_nat i)))
  +:+ str_of_nat i.


End Py.

(* ===================================================================== *)
(** * [app/utils.py] *)
(* ===================================================================== *)

Module utils.

(** [truncate_text(text, max_length=500, suffix="...")]. *)
Definition truncate_text (text : string) (max_length : Z) (suffix : string)
  : string :=
  if Z.of_nat (String.length text) <=? max_length
  then text
  else Py.str_slice_to (max_length - Z.of_nat (String.length suffix)) text
       +:+ suffix.

Definition default_suffix : string := "...".

(** The characters [sanitize_filename] replaces:
    less-than, greater-than, colon, double quote, slash, backslash, bar,
    question mark and star. *)
Definition unsafe_chars : list Ascii.ascii :=
  map Ascii.ascii_of_nat [60; 62; 58; 34; 47; 92; 124; 63; 42]%nat.

(** [sanitize_filename]. *)
Definition sanitize_filename (filename : string) : string :=
  Py.strip
    (foldl (fun filename char => Py.replace_char char "_" filename)
           filename unsafe_chars).

(** [generate_chunk_id]. *)
Definition generate_chunk_id (document_id : string) (chunk_index : nat)
  : string :=
  document_id +:+ "_chunk_" +:+ Py.format_04d chunk_index.

(** [generate_document_id]; [uuid_hex] is the [hex] of the [uuid4] drawn by
    the call. *)
Definition generate_document_id (filename : string)
    (content_hash : option string) (uuid_hex : string) : string :=
  match content_hash with
  | Some (String c h) =>
      "doc_" +:+ Py.str_slice_to 8 (String c h) +:+ "_"
      +:+ Py.str_slice_to 8 uuid_hex
  | _ => "doc_" +:+ uuid_hex
  end.


End utils.

(* ===================================================================== *)
(** * [app/config.py] *)
(* ===================================================================== *)

Module config.

(** The two retrieval options of [Settings] read by the engine. *)
Record Settings : Type := {
  retrieval_top_k : nat;
  retrieval_score_threshold : Q
}.

(** The field defaults of [Settings]. *)
Definition default_settings : Settings :=
  {| retrieval_top_k := 5; retrieval_score_threshold := 3 # 10 |}.

End config.

(* ===================================================================== *)
(** * [app/memory/conversation.py] *)
(* ===================================================================== *)

Module conversation.

(** The ["role"] entry of a message dict. *)
Inductive Role : Type := user | assistant.

#[global] Instance Role_eq_dec : EqDecision Role.
Proof. solve_decision. Defined.

(** A message dict [{"role": ..., "content": ...}]. *)
Record Message : Type := { role : Role; content : string }.

#[global] Instance Message_eq_dec : EqDecision Message.
Proof. solve_decision. Defined.

(** [self._histories]. *)
Abbreviation Histories := (gmap string (list Message)).

(** A fresh manager ([__init__]). *)
Definition init : Histories := ∅.

(** [get_history]: the history of the session, created empty when the
    session is unseen.  (The caller gets the stored list itself; what a
    caller does to it is not an operation of the manager.) *)
Definition get_history (session_id : string) (h : Histories)
  : list Message * Histories :=
  let h := match h !! session_id with
           | None => <[session_id := []]> h
           | Some _ => h
           end in
  (h !!! session_id, h).

Definition render (msg : Message) : string :=
  (if decide (role msg = user) then "Human" else "Assistant")
  +:+ ": " +:+ content msg.

(** [get_recent_context(session_id, n_turns=3)]. *)
Definition get_recent_context (session_id : string) (n_turns : Z)
    (h : Histories) : string * Histories :=
  let '(history, h) := get_history session_id h in
  match history with
  | [] => ("", h)
  | _ =>
      let recent := Py.slice_from (- (n_turns * 2)) history in
      (Py.join Py.nl (map render recent), h)
  end.

(** [list.append] on the history stored under [session_id]. *)
Definition append (session_id : string) (msg : Message) (h : Histories)
  : Histories :=
  alter (fun l => l ++ [msg]) session_id h.

(** [add_turn]. *)
Definition add_turn (session_id user_message assistant_message : string)
    (h : Histories) : Histories :=
  let h := match h !! session_id with
           | None => <[session_id := []]> h
           | Some _ => h
           end in
  let h := append session_id {| role := user; content := user_message |} h in
  let h := append session_id
             {| role := assistant; content := assistant_message |} h in
  if (20 <? length (h !!! session_id))%nat
  then <[session_id := Py.slice_from (-20) (h !!! session_id)]> h
  else h.

(** [clear_session]. *)
Definition clear_session (session_id : string) (h : Histories)
  : bool * Histories :=
  let existed := bool_decide (is_Some (h !! session_id)) in
  (existed, if existed then delete session_id h else h).

(** [clear_all]. *)
Definition clear_all (h : Histories) : nat * Histories :=
  (size h, ∅).

(** [list_sessions]; the order of the keys of the dict is not kept. *)
Definition list_sessions (h : Histories) : list string * Histories :=
  (map fst (map_to_list h), h).

(** The operations of the manager, as calls. *)
Inductive op : Type :=
| GetHistory (session_id : string)
| GetRecentContext (session_id : string) (n_turns : Z)
| AddTurn (session_id user_message assistant_message : string)
| ClearSession (session_id : string)
| ClearAll
| ListSessions.

(** The manager after a call. *)
Definition exec (o : op) (h : Histories) : Histories :=
  match o with
  | GetHistory s => (get_history s h).2
  | GetRecentContext s n => (get_recent_context s n h).2
  | AddTurn s u a => add_turn s u a h
  | ClearSession s => (clear_session s h).2
  | ClearAll => (clear_all h).2
  | ListSessions => (list_sessions h).2
  end.

Definition run (ops : list op) (h : Histories) : Histories :=
  foldl (fun h o => exec o h) h ops.

(** The messages of a sequence of turns, oldest first. *)
Definition messages_of (turns : list (string * string)) : list Message :=
  flat_map (fun t => [ {| role := user; content := t.1 |};
                       {| role := assistant; content := t.2 |} ]) turns.

(** [add_turn] once per turn, in order. *)
Definition add_turns (session_id : string) (turns : list (string * string))
    (h : Histories) : Histories :=
  foldl (fun h t => add_turn session_id t.1 t.2 h) h turns.

(** The shape a history has: user and assistant messages in turn, user
    first. *)
Fixpoint alternating (l : list Message) : bool :=
  match l with
  | [] => true
  | [_] => false
  | u :: a :: rest =>
      bool_decide (role u = user) && bool_decide (role a = assistant)
      && alternating rest
  end.

Definition history_ok (l : list Message) : Prop :=
  Nat.Even (length l) ∧ (length l ≤ 20)%nat ∧ alternating l = true.

Definition histories_ok (h : Histories) : Prop :=
  ∀ session_id l, h !! session_id = Some l → history_ok l.

End conversation.

(* ===================================================================== *)
(** * [app/rag/vector_store.py] *)
(* ===================================================================== *)

Module vector_store.

(** The metadata dict of a chunk, with the keys the ingestion path
    ([app/api/ingest.py]) writes; [None] is an absent key. *)
Record ChunkMeta : Type := {
  meta_document_id : option string;
  meta_chunk_id : option string;
  meta_chunk_index : option Z;
  meta_filename : option string;
  meta_file_type : option string
}.

(** [langchain_core.documents.Document]. *)
Record Document : Type := {
  page_content : string;
  metadata : ChunkMeta
}.

(** [DocumentMetadata] of [app/schemas/document.py]. *)
Record DocumentMetadata : Type := {
  document_id : string;
  filename : string;
  file_type : string;
  file_size : nat;
  chunk_count : nat;
  created_at : string;
  content_hash : option string;
  status : string
}.

(** ** The index library

    The LangChain [FAISS] wrapper over a flat L2 index is an external
    library.  It is modelled by what the store relies on: a docstore of
    documents under unique generated ids ([uuid4], here drawn from a
    counter), kept in insertion order together with their embedding
    vectors; a search that returns the [k] nearest documents with their
    squared Euclidean distance, nearest first and equidistant ones in
    insertion order, and that asserts [k > 0]; construction and extension
    that refuse an empty batch; deletion by docstore id. *)

Record Entry : Type := {
  entry_id : nat;
  entry_doc : Document;
  entry_vec : list Q
}.

Record FAISS : Type := {
  entries : list Entry;
  next_id : nat
}.

Definition distance_le (a b : Document * Q) : Prop := (a.2 <= b.2)%Q.

#[global] Instance distance_le_dec : RelDecision distance_le.
Proof.
  intros a b. unfold distance_le.
  destruct (Qle_bool a.2 b.2) eqn:E.
  - left. by apply Qle_bool_iff.
  - right. intros H. apply Qle_bool_iff in H. congruence.
Defined.

Definition l2_distance (u v : list Q) : Q :=
  foldr Qplus 0%Q (zip_with (fun x y => ((x - y) * (x - y))%Q) u v).

(** What a file holds: the value written to it, or the remains of a
    write that was cut short, which cannot be decoded. *)
Inductive Content (A : Type) : Type :=
| holds (a : A)
| cut_short.
Arguments holds {A} a.
Arguments cut_short {A}.

Section WithEmbeddings.

(** The embedding model ([EmbeddingService.embeddings]). *)
Variable embed : string → list Q.

Definition new_entries (first_id : nat) (documents : list Document)
  : list Entry :=
  imap (fun i d => {| entry_id := first_id + i;
                      entry_doc := d;
                      entry_vec := embed (page_content d) |}) documents.

Definition faiss_append (documents : list Document) (f : FAISS) : FAISS :=
  {| entries := entries f ++ new_entries (next_id f) documents;
     next_id := next_id f + length documents |}.

(** [FAISS.from_documents]: an empty batch has no first vector to take
    the dimension from. *)
Definition from_documents (documents : list Document) : Py.Result FAISS :=
  match documents with
  | [] => Py.Raise Py.IndexError
  | _ => Py.Return (faiss_append documents {| entries := []; next_id := 0 |})
  end.

(** [FAISS.add_documents]: an empty batch is not a matrix of vectors. *)
Definition faiss_add_documents (documents : list Document) (f : FAISS)
  : Py.Result FAISS :=
  match documents with
  | [] => Py.Raise Py.ValueError
  | _ => Py.Return (faiss_append documents f)
  end.

(** [FAISS.delete(ids)]: ids unknown to the index are an error. *)
Definition faiss_delete (ids : list nat) (f : FAISS) : Py.Result FAISS :=
  if forallb (fun i => bool_decide (i ∈ map entry_id (entries f))) ids
  then Py.Return
         {| entries := filter (fun e => entry_id e ∉ ids) (entries f);
            next_id := next_id f |}
  else Py.Raise Py.ValueError.

(** The hit [hit] put into a list of hits that is in ascending order of
    distance: before the first hit that is not nearer. *)
Fixpoint insert_hit (hit : Document * Q) (sorted : list (Document * Q))
  : list (Document * Q) :=
  match sorted with
  | [] => [hit]
  | hit' :: rest =>
      if Qle_bool hit.2 hit'.2
      then hit :: sorted
      else hit' :: insert_hit hit rest
  end.

(** The hits in ascending order of distance, those at the same distance
    in the order of the list. *)
Definition nearest_first (hits : list (Document * Q))
  : list (Document * Q) :=
  foldr insert_hit [] hits.

(** The [k] documents of the index nearest to the query, with their
    distances. *)
Definition nearest (f : FAISS) (query : string) (k : nat)
  : list (Document * Q) :=
  let q := embed query in
  take k (nearest_first
            (map (fun e => (entry_doc e, l2_distance q (entry_vec e)))
                 (entries f))).

(** [FAISS.similarity_search_with_score(query, k=k)]: the index asserts
    [k > 0]. *)
Definition similarity_search_with_score (f : FAISS) (query : string)
    (k : nat) : Py.Result (list (Document * Q)) :=
  if (k =? 0)%nat
  then Py.Raise Py.AssertionError
  else Py.Return (nearest f query k).

(** ** The service *)

(** The attributes of the singleton. *)
Record VectorStoreService : Type := {
  _vector_store : option FAISS;
  _document_metadata : gmap string DocumentMetadata
}.

(** The files under [_store_path]: the files of the index ([index.faiss]
    with [index.pkl]) and [metadata.json]; [None] is a file that does not
    exist. *)
Record Disk : Type := {
  index_file : option (Content FAISS);
  metadata_file : option (Content (gmap string DocumentMetadata))
}.

(** The error-level records the store writes to the logger. *)
Inductive ErrorRecord : Type :=
| Failed_to_save_metadata
| Failed_to_save_vector_store.

(** What a call works on: the singleton, its files and the error log. *)
Record World : Type := {
  self : VectorStoreService;
  files : Disk;
  error_log : list ErrorRecord
}.

(** Whether the file system lets each kind of access of one call
    succeed, and how a write that fails leaves its file: as it was, when
    the write fails before the file is opened, or cut short, when it
    fails later ([save_local] writes [index.faiss] and then [index.pkl];
    [metadata.json] is opened with mode ["w"] before it is written). *)
Record IO : Type := {
  save_local_ok : bool;
  write_metadata_ok : bool;
  unlink_ok : bool;
  save_local_cut_short : bool;
  write_metadata_cut_short : bool
}.

Definition io_ok : IO :=
  {| save_local_ok := true; write_metadata_ok := true; unlink_ok := true;
     save_local_cut_short := false; write_metadata_cut_short := false |}.

Definition set_vector_store (v : option FAISS) (w : World) : World :=
  {| self := {| _vector_store := v;
                _document_metadata := _document_metadata (self w) |};
     files := files w; error_log := error_log w |}.

Definition set_document_metadata (m : gmap string DocumentMetadata)
    (w : World) : World :=
  {| self := {| _vector_store := _vector_store (self w);
                _document_metadata := m |};
     files := files w; error_log := error_log w |}.

Definition set_files (d : Disk) (w : World) : World :=
  {| self := self w; files := d; error_log := error_log w |}.

Definition log_error (r : ErrorRecord) (w : World) : World :=
  {| self := self w; files := files w; error_log := error_log w ++ [r] |}.

(** [_create_new_store], on a directory without files. *)
Definition init : World :=
  {| self := {| _vector_store := None; _document_metadata := ∅ |};
     files := {| index_file := None; metadata_file := None |};
     error_log := [] |}.

(** The write of [metadata.json] in [_save_metadata]: what it leaves of
    the file. *)
Definition write_metadata (io : IO) (w : World) : World :=
  if write_metadata_ok io
  then set_files {| index_file := index_file (files w);
                    metadata_file :=
                      Some (holds (_document_metadata (self w))) |} w
  else if write_metadata_cut_short io
  then set_files {| index_file := index_file (files w);
                    metadata_file := Some cut_short |} w
  else w.

(** [_save_metadata]. *)
Definition _save_metadata (io : IO) (w : World) : World :=
  let w := write_metadata io w in
  if write_metadata_ok io
  then w
  else log_error Failed_to_save_metadata w.

(** [FAISS.save_local] of the index [f]: what it leaves of the files of
    the index. *)
Definition save_local (io : IO) (f : FAISS) (w : World) : World :=
  if save_local_ok io
  then set_files {| index_file := Some (holds f);
                    metadata_file := metadata_file (files w) |} w
  else if save_local_cut_short io
  then set_files {| index_file := Some cut_short;
                    metadata_file := metadata_file (files w) |} w
  else w.

(** [_save_store]. *)
Definition _save_store (io : IO) (w : World) : World :=
  match _vector_store (self w) with
  | Some f =>
      let w := save_local io f w in
      if save_local_ok io
      then _save_metadata io w
      else log_error Failed_to_save_vector_store w
  | None => w
  end.

Definition chunk_id_or_default (i : nat) (meta : ChunkMeta) : string :=
  default ("chunk_" +:+ Py.str_of_nat i) (meta_chunk_id meta).

(** [add_documents]. *)
Definition add_documents (io : IO) (texts : list string)
    (metadatas : list ChunkMeta) (document_metadata : DocumentMetadata)
    (w : World) : Py.Result (list string) * World :=
  let documents := zip_with Build_Document texts metadatas in
  let grown :=
    match _vector_store (self w) with
    | None => from_documents documents
    | Some f => faiss_add_documents documents f
    end in
  match grown with
  | Py.Raise e => (Py.Raise e, w)
  | Py.Return f =>
      let w := set_vector_store (Some f) w in
      let w := set_document_metadata
                 (<[document_id document_metadata := document_metadata]>
                    (_document_metadata (self w))) w in
      let w := _save_store io w in
      let chunk_ids := imap chunk_id_or_default metadatas in
      (Py.Return chunk_ids, w)
  end.

(** The chunk is tagged with the document: the test
    [doc.metadata.get("document_id") == document_id]. *)
Definition tagged (document_id : string) (d : Document) : bool :=
  bool_decide (meta_document_id (metadata d) = Some document_id).

(** The docstore ids collected by the loop of [delete_document]. *)
Definition docs_to_delete (document_id : string) (f : FAISS) : list nat :=
  map entry_id
      (filter (fun e => tagged document_id (entry_doc e) = true) (entries f)).

(** [delete_document]. *)
Definition delete_document (io : IO) (document_id : string) (w : World)
  : Py.Result bool * World :=
  match _document_metadata (self w) !! document_id with
  | None => (Py.Return false, w)
  | Some _ =>
      let deleted :=
        match _vector_store (self w) with
        | Some f =>
            match docs_to_delete document_id f with
            | [] => Py.Return (Some f)
            | ids =>
                match faiss_delete ids f with
                | Py.Return f' => Py.Return (Some f')
                | Py.Raise e => Py.Raise e
                end
            end
        | None => Py.Return None
        end in
      match deleted with
      | Py.Raise e => (Py.Raise e, w)
      | Py.Return v =>
          let w := set_vector_store v w in
          let w := set_document_metadata
                     (delete document_id (_document_metadata (self w))) w in
          let w := _save_store io w in
          (Py.Return true, w)
      end
  end.

(** The loop of [similarity_search] over the hits of the index. *)
Fixpoint filter_results (threshold : Q) (results : list (Document * Q))
  : list (Document * Q) :=
  match results with
  | [] => []
  | (doc, distance) :: rest =>
      let similarity := (1 / (1 + distance))%Q in
      if Qle_bool threshold similarity
      then (doc, similarity) :: filter_results threshold rest
      else filter_results threshold rest
  end.

(** [similarity_search(query, k=5, score_threshold=None)], with the
    exception of the index that escapes it. *)
Definition similarity_search_call (settings : config.Settings)
    (query : string) (k : nat) (score_threshold : option Q) (w : World)
  : Py.Result (list (Document * Q)) :=
  match _vector_store (self w) with
  | None => Py.Return []
  | Some f =>
      let threshold :=
        Py.float_or score_threshold
                    (config.retrieval_score_threshold settings) in
      match similarity_search_with_score f query k with
      | Py.Raise e => Py.Raise e
      | Py.Return results => Py.Return (filter_results threshold results)
      end
  end.

(** The list [similarity_search(query, k=5, score_threshold=None)]
    returns; it is empty for the call that returns none, a call with
    [k = 0] on an initialized index, where the index raises
    ([similarity_search_call]). *)
Definition similarity_search (settings : config.Settings) (query : string)
    (k : nat) (score_threshold : option Q) (w : World)
  : list (Document * Q) :=
  match _vector_store (self w) with
  | None => []
  | Some f =>
      let threshold :=
        Py.float_or score_threshold
                    (config.retrieval_score_threshold settings) in
      let results := nearest f query k in
      filter_results threshold results
  end.

(** [get_all_documents]; a dict lists its values in key order here. *)
Definition get_all_documents (w : World) : list DocumentMetadata :=
  map snd (map_to_list (_document_metadata (self w))).

(** [get_document]. *)
Definition get_document (document_id : string) (w : World)
  : option DocumentMetadata :=
  _document_metadata (self w) !! document_id.

(** [clear]: the attributes are reset before the files are removed; when
    a file cannot be removed the files are kept as they were. *)
Definition clear (io : IO) (w : World) : Py.Result unit * World :=
  let w := set_vector_store None w in
  let w := set_document_metadata ∅ w in
  if unlink_ok io
  then (Py.Return tt,
        set_files {| index_file := None; metadata_file := None |} w)
  else (Py.Raise Py.OSError, w).

(** The chunks stored in the index. *)
Definition chunks (w : World) : list Entry :=
  match _vector_store (self w) with
  | None => []
  | Some f => entries f
  end.

(** The number of stored chunks tagged with [document_id]. *)
Definition stored_chunk_count (document_id : string) (w : World) : nat :=
  length (filter (fun e => tagged document_id (entry_doc e) = true)
                 (chunks w)).

End WithEmbeddings.

End vector_store.

(* ===================================================================== *)
(** * [app/rag/retriever.py] *)
(* ===================================================================== *)

Module retriever.
Import vector_store.

(** [SourceReference] of [app/schemas/response.py]. *)
Record SourceReference : Type := {
  document : string;
  chunk_id : string;
  content_preview : option string
}.

Record RetrievalResult : Type := {
  context : string;
  sources : list SourceReference;
  has_relevant_content : bool;
  top_score : Q
}.

(** The separator of the context parts. *)
Definition separator : string :=
  Py.nl +:+ Py.nl +:+ "---" +:+ Py.nl +:+ Py.nl.

(** The source reference built for a hit. *)
Definition source_of (doc : Document) : SourceReference :=
  {| document := default "Unknown" (meta_filename (metadata doc));
     chunk_id := default "unknown" (meta_chunk_id (metadata doc));
     content_preview :=
       Some (utils.truncate_text (page_content doc) 150 utils.default_suffix) |}.

(** One round of the loop of [retrieve] over the hits. *)
Definition collect (acc : list string * list SourceReference * Q)
    (hit : Document * Q) : list string * list SourceReference * Q :=
  let '(context_parts, sources, top_score) := acc in
  let '(doc, score) := hit in
  (context_parts ++ [page_content doc],
   sources ++ [source_of doc],
   Py.max top_score score).

(** What [retrieve] makes of the hits of the search. *)
Definition build_result (results : list (Document * Q)) : RetrievalResult :=
  match results with
  | [] =>
      {| context := ""; sources := [];
         has_relevant_content := false; top_score := 0%Q |}
  | _ =>
      let '(context_parts, sources, top_score) :=
        foldl collect ([], [], 0%Q) results in
      {| context := Py.join separator context_parts;
         sources := sources;
         has_relevant_content := true;
         top_score := top_score |}
  end.

Section WithEmbeddings.
Variable embed : string → list Q.

(** [retrieve(query, k=None, score_threshold=None)]. *)
Definition retrieve (settings : config.Settings) (query : string)
    (k : option nat) (score_threshold : option Q) (w : World)
  : RetrievalResult :=
  let k := Py.nat_or k (config.retrieval_top_k settings) in
  let score_threshold :=
    Py.float_or score_threshold
                (config.retrieval_score_threshold settings) in
  let results :=
    similarity_search embed settings query k (Some score_threshold) w in
  build_result results.

(** [retrieve_with_history(query, conversation_context, k=None)]. *)
Definition retrieve_with_history (settings : config.Settings)
    (query conversation_context : string) (k : option nat) (w : World)
  : RetrievalResult :=
  let enhanced_query :=
    match conversation_context with
    | EmptyString => query
    | _ => "Context: " +:+ conversation_context
           +:+ Py.nl +:+ Py.nl +:+ "Question: " +:+ query
    end in
  retrieve settings enhanced_query k None w.

End WithEmbeddings.

End retriever.

(* ===================================================================== *)
(** * The store under several threads *)
(* ===================================================================== *)

(** The methods of [VectorStoreService] again, cut into the steps between
    which another thread can run.  A step is one statement of the method
    (a test, an assignment, a call into the index library or the file
    system); the local variables of the method live in the continuation. *)

Module threads.
Import vector_store.

(** What the threads share: the singleton with its files, and the class
    attributes [_lock] (held or not) and [_instance] (created or not). *)
Record Shared : Type := {
  world : World;
  lock_held : bool;
  instance_created : bool
}.

Definition set_world (w : World) (s : Shared) : Shared :=
  {| world := w; lock_held := lock_held s;
     instance_created := instance_created s |}.

Definition set_lock (b : bool) (s : Shared) : Shared :=
  {| world := world s; lock_held := b;
     instance_created := instance_created s |}.

Definition set_instance (b : bool) (s : Shared) : Shared :=
  {| world := world s; lock_held := lock_held s; instance_created := b |}.

(** A thread: finished, or about to take a step.  [act] is the effect of
    the step on the shared state ([None] when the step has to wait);
    [next] is the rest of the thread, chosen from the state the step
    found. *)
Inductive Thread : Type :=
| Done
| Step (act : Shared → option Shared) (next : Shared → Thread).

(** A step that only reads. *)
Definition skip (s : Shared) : option Shared := Some s.

(** A step that changes the singleton or its files. *)
Definition update (f : World → World) (s : Shared) : option Shared :=
  Some (set_world (f (world s)) s).

(** [with cls._lock]: entering waits while the lock is held. *)
Definition acquire (s : Shared) : option Shared :=
  if lock_held s then None else Some (set_lock true s).

Definition release (s : Shared) : option Shared :=
  Some (set_lock false s).

(** One step of thread [i], if it has one and need not wait. *)
Definition step (i : nat) (ts : list Thread) (s : Shared)
  : Shared * list Thread :=
  match ts !! i with
  | Some (Step act next) =>
      match act s with
      | Some s' => (s', <[i := next s]> ts)
      | None => (s, ts)
      end
  | _ => (s, ts)
  end.

(** The threads run in the order the schedule gives. *)
Fixpoint run (schedule : list nat) (ts : list Thread) (s : Shared)
  : Shared * list Thread :=
  match schedule with
  | [] => (s, ts)
  | i :: schedule => let '(s', ts') := step i ts s in run schedule ts' s'
  end.

(** A thread run on its own until it finishes or has to wait. *)
Fixpoint finish (t : Thread) (s : Shared) : Shared :=
  match t with
  | Done => s
  | Step act next =>
      match act s with
      | Some s' => finish (next s) s'
      | None => s
      end
  end.

(** [__new__] (lines 29-36). *)
Definition new_thread : Thread :=
  (* if cls._instance is None: *)
  Step skip (fun s =>
    if instance_created s then Done
    else
      (* with cls._lock: *)
      Step acquire (fun _ =>
        (* if cls._instance is None: *)
        Step skip (fun s =>
          if instance_created s then Step release (fun _ => Done)
          else
            (* cls._instance = super().__new__(cls) *)
            Step (fun s => Some (set_instance true s)) (fun _ =>
              Step release (fun _ => Done))))).

Section WithEmbeddings.
Variable embed : string → list Q.

(** [_save_store] (lines 110-118), then [k]. *)
Definition _save_store_thread (io : IO) (k : Thread) : Thread :=
  (* if self._vector_store is not None: self._vector_store.save_local(..) *)
  Step (update (fun w =>
          match _vector_store (self w) with
          | Some f =>
              let w := save_local io f w in
              if save_local_ok io
              then w
              else log_error Failed_to_save_vector_store w
          | None => w
          end))
       (fun s =>
          match _vector_store (self (world s)) with
          | Some _ =>
              if save_local_ok io
              then (* self._save_metadata() *)
                   Step (update (_save_metadata io)) (fun _ => k)
              else k
          | None => k
          end).

(** [add_documents] (lines 120-160). *)
Definition add_documents_thread (io : IO) (texts : list string)
    (metadatas : list ChunkMeta) (document_metadata : DocumentMetadata)
  : Thread :=
  let documents := zip_with Build_Document texts metadatas in
  (* self._document_metadata[document_id] = document_metadata *)
  let record :=
    Step (update (fun w =>
            set_document_metadata
              (<[document_id document_metadata := document_metadata]>
                 (_document_metadata (self w))) w))
         (fun _ => _save_store_thread io Done) in
  (* if self._vector_store is None: *)
  Step skip (fun s =>
    match _vector_store (self (world s)) with
    | None =>
        (* self._vector_store = FAISS.from_documents(documents, ..) *)
        match from_documents embed documents with
        | Py.Return f =>
            Step (update (set_vector_store (Some f))) (fun _ => record)
        | Py.Raise _ => Done
        end
    | Some _ =>
        (* self._vector_store.add_documents(documents) *)
        Step (update (fun w =>
                match _vector_store (self w) with
                | Some f =>
                    match faiss_add_documents embed documents f with
                    | Py.Return f' => set_vector_store (Some f') w
                    | Py.Raise _ => w
                    end
                | None => w
                end))
             (fun s =>
                match _vector_store (self (world s)) with
                | Some f =>
                    match faiss_add_documents embed documents f with
                    | Py.Return _ => record
                    | Py.Raise _ => Done
                    end
                | None => Done
                end)
    end).

(** [delete_document] (lines 162-196). *)
Definition delete_document_thread (io : IO) (document_id : string)
  : Thread :=
  (* del self._document_metadata[document_id] *)
  let remove :=
    Step (update (fun w =>
            set_document_metadata
              (delete document_id (_document_metadata (self w))) w))
         (fun s =>
            match _document_metadata (self (world s)) !! document_id with
            | Some _ => _save_store_thread io Done
            | None => Done
            end) in
  (* if document_id not in self._document_metadata: return False *)
  Step skip (fun s =>
    match _document_metadata (self (world s)) !! document_id with
    | None => Done
    | Some _ =>
        (* if self._vector_store is not None: collect docs_to_delete *)
        Step skip (fun s =>
          match _vector_store (self (world s)) with
          | None => remove
          | Some f =>
              match docs_to_delete document_id f with
              | [] => remove
              | ids =>
                  (* self._vector_store.delete(docs_to_delete) *)
                  Step (update (fun w =>
                          match _vector_store (self w) with
                          | Some f' =>
                              match faiss_delete ids f' with
                              | Py.Return f'' =>
                                  set_vector_store (Some f'') w
                              | Py.Raise _ => w
                              end
                          | None => w
                          end))
                       (fun s =>
                          match _vector_store (self (world s)) with
                          | Some f' =>
                              match faiss_delete ids f' with
                              | Py.Return _ => remove
                              | Py.Raise _ => Done
                              end
                          | None => Done
                          end)
              end
          end)
    end).

(** [clear] (lines 250-260). *)
Definition clear_thread (io : IO) : Thread :=
  (* self._vector_store = None *)
  Step (update (set_vector_store None)) (fun _ =>
    (* self._document_metadata = {} *)
    Step (update (set_document_metadata ∅)) (fun _ =>
      (* for file in self._store_path.glob("*"): file.unlink() *)
      Step (update (fun w =>
              if unlink_ok io
              then set_files {| index_file := None;
                                metadata_file := None |} w
              else w))
           (fun _ => Done))).

(** A call of a mutating operation. *)
Inductive call : Type :=
| Add (io : IO) (texts : list string) (metadatas : list ChunkMeta)
      (document_metadata : DocumentMetadata)
| Delete (io : IO) (document_id : string)
| Clear (io : IO).

(** The thread that makes the call. *)
Definition thread_of (c : call) : Thread :=
  match c with
  | Add io texts metadatas dm => add_documents_thread io texts metadatas dm
  | Delete io document_id => delete_document_thread io document_id
  | Clear io => clear_thread io
  end.

(** The store after the call, made with no other thread around. *)
Definition method_of (c : call) (w : World) : World :=
  match c with
  | Add io texts metadatas dm =>
      (add_documents embed io texts metadatas dm w).2
  | Delete io document_id => (delete_document io document_id w).2
  | Clear io => (clear io w).2
  end.

End WithEmbeddings.

(** A thread whose steps neither look at the lock nor change it. *)
Inductive lock_oblivious : Thread → Prop :=
| oblivious_done : lock_oblivious Done
| oblivious_step act next :
    (∀ s b, act (set_lock b s) = set_lock b <$> act s) →
    (∀ s b, next (set_lock b s) = next s) →
    (∀ s, lock_oblivious (next s)) →
    lock_oblivious (Step act next).

End threads.

(* ===================================================================== *)
(** * [app/rag/vector_store.py]: loading the store *)
(* ===================================================================== *)

Module startup.
Import vector_store.

(** Whether the file system lets each kind of read of one start of the
    process succeed: a file that cannot be read or decoded, like the
    remains of a write cut short, makes the corresponding load raise. *)
Record LoadIO : Type := {
  load_local_ok : bool;
  read_metadata_ok : bool
}.

Definition load_ok : LoadIO :=
  {| load_local_ok := true; read_metadata_ok := true |}.

(** [_create_new_store]. *)
Definition _create_new_store : VectorStoreService :=
  {| _vector_store := None; _document_metadata := ∅ |}.

(** [_load_metadata], on the metadata map [m] the singleton has so far. *)
Definition _load_metadata (io : LoadIO) (d : Disk)
    (m : gmap string DocumentMetadata) : gmap string DocumentMetadata :=
  match metadata_file d with
  | Some (holds m') => if read_metadata_ok io then m' else ∅
  | Some cut_short => ∅
  | None => m
  end.

(** [_load_store], as [_initialize] calls it: on a singleton whose index
    is [None] and whose metadata map is empty.  (The records it writes to
    the log are not kept.) *)
Definition _load_store (io : LoadIO) (d : Disk) : VectorStoreService :=
  match index_file d with
  | Some (holds f) =>
      if load_local_ok io
      then {| _vector_store := Some f;
              _document_metadata := _load_metadata io d ∅ |}
      else _create_new_store
  | Some cut_short => _create_new_store
  | None => _create_new_store
  end.

(** [_initialize] in a new process, over the files the last one left. *)
Definition _initialize (io : LoadIO) (d : Disk) : World :=
  {| self := _load_store io d; files := d; error_log := [] |}.

End startup.

(* ===================================================================== *)
(** * [app/api/documents.py] *)
(* ===================================================================== *)

Module documents_api.

(** What an endpoint does: it returns a response, raises an
    [HTTPException], or lets another exception escape. *)
Inductive Http (A : Type) : Type :=
| Ok (a : A)
| HTTPException (status_code : nat) (detail : string)
| Unhandled (e : Py.exn).
Arguments Ok {A} a.
Arguments HTTPException {A} status_code detail.
Arguments Unhandled {A} e.

(** [DocumentListResponse]. *)
Record DocumentListResponse : Type := {
  documents : list vector_store.DocumentMetadata;
  total_count : nat
}.

(** [DocumentDeleteResponse]. *)
Record DocumentDeleteResponse : Type := {
  document_id : string;
  message : string;
  success : bool
}.

(** The dict [delete_all_documents] returns. *)
Record DeleteAllResponse : Type := {
  deleted_message : string;
  deleted_count : nat
}.

(** [list_documents]. *)
Definition list_documents (w : vector_store.World) : DocumentListResponse :=
  let documents := vector_store.get_all_documents w in
  {| documents := documents; total_count := length documents |}.

(** [get_document]. *)
Definition get_document (document_id : string) (w : vector_store.World)
  : Http vector_store.DocumentMetadata :=
  match vector_store.get_document document_id w with
  | None => HTTPException 404 ("Document not found: " +:+ document_id)
  | Some document => Ok document
  end.

(** [delete_document]. *)
Definition delete_document (io : vector_store.IO) (document_id : string)
    (w : vector_store.World)
  : Http DocumentDeleteResponse * vector_store.World :=
  match vector_store.get_document document_id w with
  | None => (HTTPException 404 ("Document not found: " +:+ document_id), w)
  | Some document =>
      match vector_store.delete_document io document_id w with
      | (Py.Raise e, w) => (Unhandled e, w)
      | (Py.Return false, w) =>
          (HTTPException 500 ("Failed to delete document: " +:+ document_id),
           w)
      | (Py.Return true, w) =>
          (Ok {| document_id := document_id;
                 message := "Document '" +:+ vector_store.filename document
                            +:+ "' deleted successfully";
                 success := true |}, w)
      end
  end.

(** [delete_all_documents]. *)
Definition delete_all_documents (io : vector_store.IO)
    (w : vector_store.World) : Http DeleteAllResponse * vector_store.World :=
  let documents := vector_store.get_all_documents w in
  let count := length documents in
  match vector_store.clear io w with
  | (Py.Raise e, w) => (Unhandled e, w)
  | (Py.Return _, w) =>
      (Ok {| deleted_message := "Deleted " +:+ Py.str_of_nat count
                                +:+ " documents";
             deleted_count := count |}, w)
  end.

End documents_api.

(* ===================================================================== *)
(** * [app/api/ingest.py] *)
(* ===================================================================== *)

Module ingest_api.
Import documents_api.

(** The uploaded file: its name, if any, and its bytes. *)
Record UploadFile : Type := {
  upload_filename : option string;
  upload_content : string
}.

(** The upload options of [Settings]. *)
Record UploadSettings : Type := {
  allowed_extensions : list string;
  max_file_size : nat
}.

(** [DocumentUploadResponse]. *)
Record DocumentUploadResponse : Type := {
  document_id : string;
  filename : string;
  chunk_count : nat;
  message : string;
  success : bool
}.

(** One entry of the [errors] list of [ingest_batch]. *)
Record BatchError : Type := {
  error_filename : option string;
  error : string
}.

(** The dict [ingest_batch] returns. *)
Record BatchResponse : Type := {
  success_count : nat;
  error_count : nat;
  results : list DocumentUploadResponse;
  errors : list BatchError
}.

Section WithCollaborators.

(** The embedding model. *)
Variable embed : string → list Q.

(** The libraries the module calls: [pathlib] behind
    [get_file_extension], [hashlib] behind [compute_file_hash], the
    decoders of the three file types, and the text splitter. *)
Variable get_file_extension : string → string.
Variable compute_file_hash : string → string.
Variable extract_text_from_txt : string → string.
Variable extract_text_from_pdf : string → Http string.
Variable extract_text_from_docx : string → Http string.
Variable split_text : string → list string.

(** [extract_text]. *)
Definition extract_text (content file_type : string) : Http string :=
  if String.eqb file_type "txt" then Ok (extract_text_from_txt content)
  else if String.eqb file_type "pdf" then extract_text_from_pdf content
  else if String.eqb file_type "docx" then extract_text_from_docx content
  else HTTPException 400 ("Unsupported file type: " +:+ file_type).

(** [chunk_text]: the chunks with their indexes. *)
Definition chunk_text (text : string) : list (string * nat) :=
  imap (fun i chunk => (chunk, i)) (split_text text).

(** [", ".join] of the allowed extensions, as the detail of the error
    shows them. *)
Definition show_extensions (l : list string) : string :=
  "[" +:+ Py.join ", " (map (fun e => "'" +:+ e +:+ "'") l) +:+ "]".

(** [ingest_document]; [uuid_hex] and [now] are the [uuid4] and the clock
    reading the call draws. *)
Definition ingest_document (io : vector_store.IO) (settings : UploadSettings)
    (file : UploadFile) (uuid_hex now : string) (w : vector_store.World)
  : Http DocumentUploadResponse * vector_store.World :=
  match upload_filename file with
  | None | Some EmptyString => (HTTPException 400 "No filename provided", w)
  | Some file_name =>
      let file_type := get_file_extension file_name in
      if negb (bool_decide (file_type ∈ allowed_extensions settings))
      then (HTTPException 400
              ("Unsupported file type: " +:+ file_type +:+ ". Allowed: "
               +:+ show_extensions (allowed_extensions settings)), w)
      else
        let content := upload_content file in
        if (max_file_size settings <? String.length content)%nat
        then (HTTPException 400
                ("File too large. Maximum size: "
                 +:+ Py.str_of_nat (max_file_size settings / (1024 * 1024))
                 +:+ "MB"), w)
        else if (String.length content =? 0)%nat
        then (HTTPException 400 "Empty file", w)
        else
          let content_hash := compute_file_hash content in
          let document_id :=
            utils.generate_document_id file_name (Some content_hash)
                                       uuid_hex in
          match extract_text content file_type with
          | HTTPException status detail => (HTTPException status detail, w)
          | Unhandled e => (Unhandled e, w)
          | Ok text =>
              match Py.strip text with
              | EmptyString =>
                  (HTTPException 400 "No text content extracted from file", w)
              | _ =>
                  match chunk_text text with
                  | [] =>
                      (HTTPException 400
                         "Failed to create chunks from document", w)
                  | chunks =>
                      let texts := map fst chunks in
                      let metadatas :=
                        map (fun chunk =>
                               {| vector_store.meta_document_id :=
                                    Some document_id;
                                  vector_store.meta_chunk_id :=
                                    Some (utils.generate_chunk_id document_id
                                            chunk.2);
                                  vector_store.meta_chunk_index :=
                                    Some (Z.of_nat chunk.2);
                                  vector_store.meta_filename :=
                                    Some (utils.sanitize_filename file_name);
                                  vector_store.meta_file_type :=
                                    Some file_type |}) chunks in
                      let doc_metadata :=
                        {| vector_store.document_id := document_id;
                           vector_store.filename :=
                             utils.sanitize_filename file_name;
                           vector_store.file_type := file_type;
                           vector_store.file_size := String.length content;
                           vector_store.chunk_count := length chunks;
                           vector_store.created_at := now;
                           vector_store.content_hash := Some content_hash;
                           vector_store.status := "indexed" |} in
                      match vector_store.add_documents embed io texts
                              metadatas doc_metadata w with
                      | (Py.Raise e, w) => (Unhandled e, w)
                      | (Py.Return _, w) =>
                          (Ok {| document_id := document_id;
                                 filename := file_name;
                                 chunk_count := length chunks;
                                 message :=
                                   "Document '" +:+ file_name
                                   +:+ "' uploaded and indexed successfully with "
                                   +:+ Py.str_of_nat (length chunks)
                                   +:+ " chunks";
                                 success := true |}, w)
                      end
                  end
              end
          end
  end.

(** [str(e)] of an exception that is not an [HTTPException]. *)
Variable exn_message : Py.exn → string.

(** The loop of [ingest_batch] from the file at position [i] on; [io],
    [uuid_hex] and [now] give, for the file at each position, what the
    file system allows during its call, and the [uuid4] and the clock
    reading the call draws. *)
Fixpoint ingest_loop (io : nat → vector_store.IO) (settings : UploadSettings)
    (uuid_hex now : nat → string) (i : nat) (files : list UploadFile)
    (results : list DocumentUploadResponse) (errors : list BatchError)
    (w : vector_store.World) : BatchResponse * vector_store.World :=
  match files with
  | [] =>
      ({| success_count := length results;
          error_count := length errors;
          results := results;
          errors := errors |}, w)
  | file :: files =>
      match ingest_document (io i) settings file (uuid_hex i) (now i) w with
      | (Ok result, w) =>
          ingest_loop io settings uuid_hex now (S i) files
            (results ++ [result]) errors w
      | (HTTPException _ detail, w) =>
          ingest_loop io settings uuid_hex now (S i) files results
            (errors ++ [ {| error_filename := upload_filename file;
                            error := detail |} ]) w
      | (Unhandled e, w) =>
          ingest_loop io settings uuid_hex now (S i) files results
            (errors ++ [ {| error_filename := upload_filename file;
                            error := exn_message e |} ]) w
      end
  end.

(** [ingest_batch]. *)
Definition ingest_batch (io : nat → vector_store.IO)
    (settings : UploadSettings) (files : list UploadFile)
    (uuid_hex now : nat → string) (w : vector_store.World)
  : BatchResponse * vector_store.World :=
  ingest_loop io settings uuid_hex now 0 files [] [] w.

End WithCollaborators.

End ingest_api.

(* ===================================================================== *)
(** * [app/schemas/request.py] and [app/api/chat.py] *)
(* ===================================================================== *)

Module chat_api.
Import conversation.

(** The validator [message_not_empty] of [ChatRequest]; [None] when it
    raises. *)
Definition message_not_empty (v : string) : option string :=
  match Py.strip v with
  | EmptyString => None
  | stripped => Some stripped
  end.

(** The validator [session_id_valid] of [ChatRequest]; [None] when it
    raises. *)
Definition session_id_valid (v : string) : option string :=
  match Py.strip v with
  | EmptyString => None
  | stripped => Some stripped
  end.

(** A validated [ChatRequest]. *)
Record ChatRequest : Type := {
  message : string;
  session_id : string;
  provider : option string;
  model : option string
}.

(** [ChatResponse]. *)
Record ChatResponse : Type := {
  answer : string;
  sources : list retriever.SourceReference;
  confidence : Q
}.

(** [ChatResponse.no_knowledge_response]. *)
Definition no_knowledge_response : ChatResponse :=
  {| answer :=
       "I do not have knowledge of this based on the uploaded documents.";
     sources := [];
     confidence := 0%Q |}.

(** [StreamChunk], by its [type]: [token] with its [content], [sources]
    with its [sources], [done] with its [confidence], [error] with its
    [error]; the other fields are left at [None]. *)
Inductive StreamChunk : Type :=
| token (content : string)
| sources_chunk (sources : list retriever.SourceReference)
| done_chunk (confidence : Q)
| error_chunk (error : string).

Section WithCollaborators.

(** The embedding model. *)
Variable embed : string → list Q.

(** The language model behind [get_llm_provider(..).generate]: given the
    provider, the model, the query, the context and the history, its
    answer, or [None] when the provider cannot be built or the call
    raises. *)
Variable generate :
  string → option string → string → string → list Message → option string.

(** [chat_sync]; [None] when an exception escapes. *)
Definition chat_sync (settings : config.Settings)
    (default_llm_provider : string) (request : ChatRequest)
    (w : vector_store.World) (h : Histories)
  : option ChatResponse * Histories :=
  let '(conversation_context, h) :=
    get_recent_context (session_id request) 3 h in
  let '(conversation_history, h) := get_history (session_id request) h in
  let retrieval_result :=
    retriever.retrieve_with_history embed settings (message request)
      conversation_context None w in
  if negb (retriever.has_relevant_content retrieval_result)
  then (Some no_knowledge_response, h)
  else
    let provider := default default_llm_provider (provider request) in
    match generate provider (model request) (message request)
            (retriever.context retrieval_result) conversation_history with
    | None => (None, h)
    | Some response =>
        (Some {| answer := response;
                 sources := retriever.sources retrieval_result;
                 confidence := retriever.top_score retrieval_result |},
         add_turn (session_id request) (message request) response h)
    end.

(** The language model behind [get_llm_provider(..).generate_stream]: the
    tokens it yields, and the text of the exception that ends the stream,
    if any (without tokens when the provider cannot be built). *)
Variable generate_stream :
  string → option string → string → string → list Message
  → list string * option string.

(** [generate_sse_response], read to its end: the chunks of the events it
    yields, in order. *)
Definition generate_sse_response (settings : config.Settings)
    (default_llm_provider : string) (request : ChatRequest)
    (w : vector_store.World) (h : Histories)
  : list StreamChunk * Histories :=
  let '(conversation_context, h) :=
    get_recent_context (session_id request) 3 h in
  let '(conversation_history, h) := get_history (session_id request) h in
  let retrieval_result :=
    retriever.retrieve_with_history embed settings (message request)
      conversation_context None w in
  if negb (retriever.has_relevant_content retrieval_result)
  then
    let no_knowledge :=
      "I do not have knowledge of this based on the uploaded documents." in
    (map (fun word => token (word +:+ " ")) (Py.split no_knowledge)
     ++ [sources_chunk []; done_chunk 0%Q],
     add_turn (session_id request) (message request) no_knowledge h)
  else
    let provider := default default_llm_provider (provider request) in
    match generate_stream provider (model request) (message request)
            (retriever.context retrieval_result) conversation_history with
    | (tokens, Some e) => (map token tokens ++ [error_chunk e], h)
    | (tokens, None) =>
        let full_response := foldl String.append "" tokens in
        (map token tokens
         ++ [sources_chunk (retriever.sources retrieval_result);
             done_chunk (retriever.top_score retrieval_result)],
         add_turn (session_id request) (message request) full_response h)
    end.

End WithCollaborators.

End chat_api.

(** ** The session endpoints of [app/main.py] *)

Module main_api.
Import conversation.

(** The field constraints of [ClearSessionRequest]: the session id is
    taken as it is sent; [None] when the request is refused. *)
Definition clear_session_request (session_id : string) : option string :=
  if ((1 <=? String.length session_id)%nat
      && (String.length session_id <=? 100)%nat)%bool
  then Some session_id
  else None.

(** [SessionResponse]. *)
Record SessionResponse : Type := {
  session_id : string;
  message : string;
  success : bool
}.

(** The dict [clear_all_sessions] returns. *)
Record ClearAllResponse : Type := {
  cleared_message : string;
  cleared_count : nat
}.

(** The dict [list_sessions] returns. *)
Record SessionListResponse : Type := {
  sessions : list string;
  count : nat
}.

(** [clear_session]. *)
Definition clear_session (request_session_id : string) (h : Histories)
  : SessionResponse * Histories :=
  let '(existed, h) := conversation.clear_session request_session_id h in
  if existed
  then ({| session_id := request_session_id;
           message := "Session memory cleared successfully";
           success := true |}, h)
  else ({| session_id := request_session_id;
           message := "Session did not exist (nothing to clear)";
           success := true |}, h).

(** [clear_all_sessions]. *)
Definition clear_all_sessions (h : Histories) : ClearAllResponse * Histories :=
  let '(count, h) := conversation.clear_all h in
  ({| cleared_message := "Cleared " +:+ Py.str_of_nat count +:+ " sessions";
      cleared_count := count |}, h).

(** [list_sessions]. *)
Definition list_sessions (h : Histories) : SessionListResponse * Histories :=
  let '(sessions, h) := conversation.list_sessions h in
  ({| sessions := sessions; count := length sessions |}, h).

End main_api.

(* ===================================================================== *)
(** * Sample data *)
(* ===================================================================== *)

Module sample.
Import vector_store.

(** A toy embedding model: the length of the text, and a constant. *)
Definition embed (text : string) : list Q :=
  [inject_Z (Z.of_nat (String.length text)); 1%Q].

(** Metadata with the keys [ingest_document] attaches to chunk [i]. *)
Definition chunk_meta (doc_id : string) (i : nat) : ChunkMeta :=
  {| meta_document_id := Some doc_id;
     meta_chunk_id := Some (doc_id +:+ "_chunk_" +:+ Py.str_of_nat i);
     meta_chunk_index := Some (Z.of_nat i);
     meta_filename := Some (doc_id +:+ ".txt");
     meta_file_type := Some "txt" |}.

(** A record with the fields [ingest_document] fills in, for [n] chunks. *)
Definition record (doc_id : string) (n : nat) : DocumentMetadata :=
  {| document_id := doc_id;
     filename := doc_id +:+ ".txt";
     file_type := "txt";
     file_size := 100;
     chunk_count := n;
     created_at := "2024-01-01T00:00:00";
     content_hash := None;
     status := "indexed" |}.


(** A file system on which saving the index fails before a file is
    written. *)
Definition io_save_fails : IO :=
  {| save_local_ok := false; write_metadata_ok := true; unlink_ok := true;
     save_local_cut_short := false; write_metadata_cut_short := false |}.

(** A file system on which saving the index fails after [index.faiss] is
    written. *)
Definition io_save_cut_short : IO :=
  {| save_local_ok := false; write_metadata_ok := true; unlink_ok := true;
     save_local_cut_short := true; write_metadata_cut_short := false |}.

(** A file system on which writing [metadata.json] fails after the file
    is opened. *)
Definition io_metadata_fails : IO :=
  {| save_local_ok := true; write_metadata_ok := false; unlink_ok := true;
     save_local_cut_short := false; write_metadata_cut_short := true |}.

(** The store after ingesting document [doc_a] with the chunks "sky" and
    "ocean" on a healthy file system. *)
Definition one_document : World :=
  (add_documents embed io_ok ["sky"; "ocean"]
     [chunk_meta "doc_a" 0; chunk_meta "doc_a" 1] (record "doc_a" 2)
     init).2.


(** Stand-ins for the libraries behind the ingestion endpoint: every file
    is a text file, its hash is a constant, its text is its content, and
    the splitter cuts it into words. *)
Definition file_extension (name : string) : string := "txt".
Definition file_hash (content : string) : string := "0123456789abcdef".
Definition decode_txt (content : string) : string := content.
Definition no_decoder (content : string) : documents_api.Http string :=
  documents_api.HTTPException 400 "Failed to parse".
Definition split_words (text : string) : list string := String.words text.

Definition upload_settings : ingest_api.UploadSettings :=
  {| ingest_api.allowed_extensions := ["pdf"; "txt"; "docx"];
     ingest_api.max_file_size := 1000 |}.

(** An upload of a text file, and one without a file name. *)
Definition upload : ingest_api.UploadFile :=
  {| ingest_api.upload_filename := Some "notes.txt";
     ingest_api.upload_content := "blue sky" |}.
Definition nameless_upload : ingest_api.UploadFile :=
  {| ingest_api.upload_filename := None;
     ingest_api.upload_content := "blue sky" |}.

(** The text of an exception that is not an [HTTPException]. *)
Definition exn_text (e : Py.exn) : string :=
  match e with
  | Py.IndexError => "IndexError"
  | Py.ValueError => "ValueError"
  | Py.OSError => "OSError"
  | Py.AssertionError => "AssertionError"
  end.

(** A language model that streams the query back in one token. *)
Definition echo_stream (provider : string) (model : option string)
    (query context : string) (history : list conversation.Message)
  : list string * option string :=
  ([query], None).

(** A language model that repeats the query. *)
Definition echo (provider : string) (model : option string)
    (query context : string) (history : list conversation.Message)
  : option string :=
  Some query.

Definition chat_request : chat_api.ChatRequest :=
  {| chat_api.message := "sky"; chat_api.session_id := "s";
     chat_api.provider := None; chat_api.model := None |}.

End sample.

(* ===================================================================== *)
(** * Vocabulary of the properties *)
(* ===================================================================== *)

(** The last [n] elements of a list. *)
Definition keep {A} (n : nat) (l : list A) : list A :=
  drop (length l - n) l.

(** The conversion of a distance to a similarity. *)
Definition to_similarity (distance : Q) : Q := (1 / (1 + distance))%Q.

(** Hits in descending order of similarity. *)
Definition similarity_ge (a b : vector_store.Document * Q) : Prop :=
  (b.2 <= a.2)%Q.

(** The preview [retrieve] stores for a chunk text. *)
Definition preview (text : string) : string :=
  if (String.length text <=? 150)%nat then text
  else String.substring 0 147 text +:+ "...".

Section StoreVocabulary.
Import vector_store.
Variable embed : string → list Q.

(** The index after the chunks tagged with [document_id] were deleted by
    their docstore ids. *)
Definition without (document_id : string) (v : option FAISS)
  : option FAISS :=
  match v with
  | Some f =>
      Some {| entries :=
                filter (fun e => entry_id e ∉ docs_to_delete document_id f)
                       (entries f);
              next_id := next_id f |}
  | None => None
  end.

(** The index a batch is added to: the current one, or a new one. *)
Definition current (v : option FAISS) : FAISS :=
  default {| entries := []; next_id := 0 |} v.

(** Every record of the metadata map counts the stored chunks of its
    document. *)
Definition chunk_counts_match (w : World) : Prop :=
  ∀ document_id dm,
    _document_metadata (self w) !! document_id = Some dm →
    chunk_count dm = stored_chunk_count document_id w.

(** The docstore ids are distinct and below the next one to be drawn. *)
Definition ids_fresh (v : option FAISS) : Prop :=
  NoDup (map entry_id (entries (current v)))
  ∧ Forall (fun e => (entry_id e < next_id (current v))%nat)
           (entries (current v)).

(** Every stored chunk is tagged with a document of the metadata map. *)
Definition chunks_owned (w : World) : Prop :=
  ∀ e, e ∈ chunks w →
    ∃ d, tagged d (entry_doc e) = true
         ∧ is_Some (_document_metadata (self w) !! d).

(** What every reachable state of the store satisfies. *)
Definition store_inv (w : World) : Prop :=
  ids_fresh (_vector_store (self w))
  ∧ chunks_owned w
  ∧ chunk_counts_match w.

(** An insert as [ingest_document] issues it: under a document id the
    metadata map does not hold yet, with every chunk tagged with that id,
    and with the number of chunks as [chunk_count]. *)
Definition ingestion (texts : list string) (metadatas : list ChunkMeta)
    (dm : DocumentMetadata) (w : World) : Prop :=
  _document_metadata (self w) !! document_id dm = None
  ∧ Forall (fun d => tagged (document_id dm) d = true)
           (zip_with Build_Document texts metadatas)
  ∧ chunk_count dm = length (zip_with Build_Document texts metadatas).

(** The stored chunks whose similarity to the query reaches
    [threshold]. *)
Definition clearing (query : string) (threshold : Q) (w : World)
  : list Entry :=
  filter (fun e =>
            Qle_bool threshold
              (to_similarity (l2_distance (embed query) (entry_vec e)))
            = true)
         (chunks w).

(** The states of the store that inserts of that kind, deletions and
    clears lead to from the empty store, whatever the file system does. *)
Inductive reachable : World → Prop :=
| reachable_init : reachable init
| reachable_insert io texts metadatas dm w :
    reachable w → ingestion texts metadatas dm w →
    reachable (add_documents embed io texts metadatas dm w).2
| reachable_delete io document_id w :
    reachable w → reachable (delete_document io document_id w).2
| reachable_clear io w :
    reachable w → reachable (clear io w).2.

End StoreVocabulary.

(* ===================================================================== *)
(** * Vocabulary of the further properties *)
(* ===================================================================== *)

(** The session a call of the memory manager names, if it names one. *)
Definition session_of (o : conversation.op) : option string :=
  match o with
  | conversation.GetHistory s => Some s
  | conversation.GetRecentContext s _ => Some s
  | conversation.AddTurn s _ _ => Some s
  | conversation.ClearSession s => Some s
  | conversation.ClearAll => None
  | conversation.ListSessions => None
  end.

(** The messages [get_recent_context] renders, by [n_turns]. *)
Definition recent_window (n_turns : Z) (l : list conversation.Message)
  : list conversation.Message :=
  if n_turns =? 0 then l
  else if 0 <? n_turns then keep (Z.to_nat (2 * n_turns)) l
  else drop (Z.to_nat (- (2 * n_turns))) l.

(** The character occurs in the string. *)
Definition occurs (c : Ascii.ascii) (s : string) : Prop :=
  c ∈ String.list_ascii_of_string s.

Section FurtherStoreVocabulary.
Import vector_store.
Variable embed : string → list Q.

(** The store after a sequence of mutating calls, made one after the
    other. *)
Definition run_calls (calls : list threads.call) (w : World) : World :=
  foldl (fun w c => threads.method_of embed c w) w calls.

(** Every chunk is stored with the embedding of its text. *)
Definition chunks_embedded (w : World) : Prop :=
  ∀ e, e ∈ chunks w → entry_vec e = embed (page_content (entry_doc e)).

(** Every record is stored under its own document id. *)
Definition records_keyed (w : World) : Prop :=
  ∀ id dm, get_document id w = Some dm → document_id dm = id.

(** The file system of a call. *)
Definition io_of (c : threads.call) : IO :=
  match c with
  | threads.Add io _ _ _ => io
  | threads.Delete io _ => io
  | threads.Clear io => io
  end.

(** The call finds a file system on which everything succeeds. *)
Definition healthy (c : threads.call) : Prop := io_of c = io_ok.

(** The call is an insert or a deletion that finds a file system on which
    saving the index fails before a file is written. *)
Definition failing (c : threads.call) : Prop :=
  match c with
  | threads.Clear _ => False
  | _ => save_local_ok (io_of c) = false
         ∧ save_local_cut_short (io_of c) = false
  end.

(** What holds of the store after any calls. *)
Definition any_inv (w : World) : Prop :=
  ids_fresh (_vector_store (self w))
  ∧ chunks_embedded w
  ∧ records_keyed w
  ∧ (_vector_store (self w) = None → _document_metadata (self w) = ∅).

(** The files hold what the singleton holds: a start of the process on a
    readable file system finds the same index and metadata. *)
Definition persisted (w : World) : Prop :=
  startup._load_store startup.load_ok (files w) = self w.

(** A metadata file is on disk only next to an index saved whole. *)
Definition files_paired (w : World) : Prop :=
  match index_file (files w) with
  | Some (holds _) => True
  | _ => metadata_file (files w) = None
  end.

End FurtherStoreVocabulary.

(** What every result of the retriever satisfies, for at most [k] hits
    asked: it is flagged relevant exactly when it has sources; an
    irrelevant one has the empty context and score zero; a relevant one
    has a score in (0, 1]; there are at most [k] sources, and every
    preview has at most 150 characters. *)
Definition result_ok (k : nat) (r : retriever.RetrievalResult) : Prop :=
  (retriever.has_relevant_content r = true ↔ retriever.sources r ≠ [])
  ∧ (retriever.has_relevant_content r = false →
     retriever.context r = "" ∧ retriever.top_score r = 0%Q)
  ∧ (retriever.has_relevant_content r = true →
     (0 < retriever.top_score r)%Q)
  ∧ (0 <= retriever.top_score r)%Q ∧ (retriever.top_score r <= 1)%Q
  ∧ (length (retriever.sources r) ≤ k)%nat
  ∧ Forall (fun src =>
              ∃ p, retriever.content_preview src = Some p
                   ∧ (String.length p ≤ 150)%nat)
           (retriever.sources r).

(* ===================================================================== *)
(** * Properties *)
(* ===================================================================== *)

(** ** The embedding at work *)

Example separator_text :
  String.length retriever.separator = 7%nat
  ∧ Py.join retriever.separator ["a"; "b"]
    = "a" +:+ Py.nl +:+ Py.nl +:+ "---" +:+ Py.nl +:+ Py.nl +:+ "b".
Proof. split; reflexivity. Qed.

Example truncate_text_short :
  utils.truncate_text "The sky is blue." 150 utils.default_suffix
  = "The sky is blue.".
Proof. reflexivity. Qed.

Example truncate_text_long :
  utils.truncate_text "abcdefghij" 8 utils.default_suffix = "abcde...".
Proof. reflexivity. Qed.

Example recent_context_of_two_turns :
  (conversation.get_recent_context "s" 3
     (conversation.add_turns "s" [("q1", "a1"); ("q2", "a2")]
        conversation.init)).1
  = "Human: q1" +:+ Py.nl +:+ "Assistant: a1" +:+ Py.nl
    +:+ "Human: q2" +:+ Py.nl +:+ "Assistant: a2".
Proof. reflexivity. Qed.

Example search_the_sample_store :
  map snd (vector_store.similarity_search sample.embed config.default_settings
             "sky" 5 (Some (1 # 10)%Q) sample.one_document)
  = [1%Q; (1 # 5)%Q].
Proof. reflexivity. Qed.

Example clear_keeps_the_store_usable :
  let w := (vector_store.clear vector_store.io_ok sample.one_document).2 in
  vector_store.get_all_documents w = []
  ∧ (vector_store.add_documents sample.embed vector_store.io_ok ["sky"]
       [sample.chunk_meta "doc_b" 0] (sample.record "doc_b" 1) w).1
    = Py.Return ["doc_b_chunk_0"].
Proof. split; reflexivity. Qed.

(** ** Conversation memory *)

Section ConversationMemory.
Import conversation.

Lemma slice_from_neg {A} (n : nat) (l : list A) :
  (0 < n)%nat → Py.slice_from (- Z.of_nat n) l = keep n l.
Proof.
  intros Hn. unfold Py.slice_from, keep.
  destruct (Z.ltb_spec (- Z.of_nat n) 0) as [_|?]; [|lia].
  f_equal. lia.
Qed.

Lemma keep_all {A} (n : nat) (l : list A) :
  (length l ≤ n)%nat → keep n l = l.
Proof.
  intros H. unfold keep. replace (length l - n)%nat with 0%nat by lia. done.
Qed.

Lemma length_keep {A} (n : nat) (l : list A) :
  length (keep n l) = Nat.min (length l) n.
Proof. unfold keep. rewrite length_drop. lia. Qed.

Lemma keep_keep_app {A} (n : nat) (l m : list A) :
  keep n (keep n l ++ m) = keep n (l ++ m).
Proof.
  destruct (decide (length l ≤ n)%nat) as [Hle|Hgt].
  - by rewrite (keep_all n l) by done.
  - unfold keep at 1 3. rewrite !length_app, length_keep.
    replace (Nat.min (length l) n + length m - n)%nat with (length m) by lia.
    replace (length l + length m - n)%nat
      with ((length l - n) + length m)%nat by lia.
    rewrite <- drop_drop.
    f_equal. unfold keep. rewrite drop_app_le by lia. done.
Qed.

(** The history stored by [add_turn]: the old one with the two new
    messages, cut to its last twenty. *)
Lemma add_turn_lookup (s u a : string) (h : Histories) :
  add_turn s u a h !! s
  = Some (keep 20 (default [] (h !! s)
                   ++ [ {| role := user; content := u |};
                        {| role := assistant; content := a |} ])).
Proof.
  unfold add_turn, append.
  set (h0 := match h !! s with None => <[s:=[]]> h | Some _ => h end).
  assert (H0 : h0 !! s = Some (default [] (h !! s))).
  { subst h0. destruct (h !! s) eqn:E; simpl; [done|].
    by rewrite lookup_insert_eq. }
  set (l := default [] (h !! s)) in *.
  set (h2 := alter _ s (alter _ s h0)).
  assert (H2 : h2 !! s = Some ((l ++ [{| role := user; content := u |}])
                               ++ [{| role := assistant; content := a |}])).
  { subst h2. rewrite !lookup_alter_eq, H0. done. }
  rewrite (lookup_total_correct _ _ _ H2).
  rewrite <- app_assoc. simpl.
  destruct (Nat.ltb_spec 20 (length (l ++ [{| role := user; content := u |};
                                {| role := assistant; content := a |}]))).
  - rewrite lookup_insert_eq. f_equal.
    apply (slice_from_neg 20). lia.
  - rewrite H2, <- app_assoc. simpl. f_equal. by rewrite keep_all.
Qed.

Lemma add_turn_lookup_ne (s s' u a : string) (h : Histories) :
  s ≠ s' → add_turn s u a h !! s' = h !! s'.
Proof.
  intros Hne. unfold add_turn, append.
  set (h0 := match h !! s with None => <[s:=[]]> h | Some _ => h end).
  assert (H0 : h0 !! s' = h !! s').
  { subst h0. destruct (h !! s); [done|]. by rewrite lookup_insert_ne. }
  set (h2 := alter _ s (alter _ s h0)).
  assert (H2 : h2 !! s' = h !! s').
  { subst h2. by rewrite !lookup_alter_ne. }
  destruct (_ <? _)%nat; [|done].
  by rewrite lookup_insert_ne.
Qed.

Lemma add_turns_lookup (s : string) (turns : list (string * string))
    (h : Histories) (l : list Message) :
  default [] (h !! s) = keep 20 l →
  default [] (add_turns s turns h !! s) = keep 20 (l ++ messages_of turns).
Proof.
  revert h l. induction turns as [|[u a] turns IH]; intros h l Hl.
  - simpl. by rewrite app_nil_r.
  - simpl.
    rewrite (IH _ (l ++ [ {| role := user; content := u |};
                          {| role := assistant; content := a |} ])).
    + by rewrite <- app_assoc.
    + simpl. rewrite add_turn_lookup. simpl. rewrite Hl.
      apply keep_keep_app.
Qed.

Lemma length_messages_of (turns : list (string * string)) :
  length (messages_of turns) = (2 * length turns)%nat.
Proof. induction turns; simpl in *; lia. Qed.

Lemma get_history_lookup (s : string) (h : Histories) :
  (get_history s h).1 = default [] (h !! s).
Proof.
  unfold get_history. simpl. destruct (h !! s) eqn:E; simpl.
  - by rewrite (lookup_total_correct _ _ _ E).
  - by rewrite lookup_total_insert_eq.
Qed.

(** C5: after [N] calls of [add_turn] on a session that had no history,
    [get_history] has [min(2*N, 20)] messages, and they are the most
    recent messages appended, in the order they were appended. *)
Theorem add_turn_keeps_most_recent (s : string)
    (turns : list (string * string)) (h : Histories) :
  h !! s = None ∨ h !! s = Some [] →
  let history := (get_history s (add_turns s turns h)).1 in
  length history = Nat.min (2 * length turns) 20
  ∧ history = drop (length (messages_of turns) - 20) (messages_of turns)
  ∧ ∃ older, messages_of turns = older ++ history.
Proof.
  intros Hempty history.
  assert (Hh : history = keep 20 (messages_of turns)).
  { subst history. rewrite get_history_lookup.
    rewrite (add_turns_lookup s turns h []); [done|].
    by destruct Hempty as [-> | ->]. }
  split; [|split].
  - rewrite Hh, length_keep, length_messages_of. done.
  - exact Hh.
  - exists (take (length (messages_of turns) - 20) (messages_of turns)).
    rewrite Hh. unfold keep. by rewrite take_drop.
Qed.

Lemma add_turn_keeps_most_recent_witness :
  let turns := [("q1", "a1"); ("q2", "a2")] in
  let history := (get_history "s" (add_turns "s" turns init)).1 in
  length history = Nat.min (2 * length turns) 20
  ∧ history = drop (length (messages_of turns) - 20) (messages_of turns)
  ∧ ∃ older, messages_of turns = older ++ history.
Proof.
  apply (add_turn_keeps_most_recent "s" [("q1", "a1"); ("q2", "a2")] init).
  left. reflexivity.
Defined.

Lemma alternating_app (l m : list Message) :
  alternating l = true → alternating (l ++ m) = alternating m.
Proof.
  revert l. fix IH 1. intros [|x [|y l]] H; simpl in *; try done.
  apply andb_prop in H as [Hxy Hl]. rewrite Hxy. simpl. by apply IH.
Qed.

Lemma history_ok_nil : history_ok [].
Proof. repeat split; simpl; [by exists 0%nat | lia]. Qed.

(** A well-formed history stays well-formed when a turn is appended and
    the result is cut to its last twenty messages. *)
Lemma history_ok_turn (l : list Message) (u a : string) :
  history_ok l →
  history_ok (keep 20 (l ++ [ {| role := user; content := u |};
                              {| role := assistant; content := a |} ])).
Proof.
  intros (Heven & Hlen & Halt).
  set (t := [ {| role := user; content := u |};
              {| role := assistant; content := a |} ]).
  assert (Ht : alternating (l ++ t) = true) by by rewrite alternating_app.
  destruct (decide (length l = 20%nat)) as [H20|Hne].
  - destruct l as [|x [|y l']]; simpl in H20; try lia.
    assert (Hk : keep 20 ((x :: y :: l') ++ t) = l' ++ t).
    { unfold keep. rewrite length_app. simpl length.
      replace (S (S (length l')) + 2 - 20)%nat with 2%nat by lia. done. }
    rewrite Hk. simpl in Halt.
    apply andb_prop in Halt as [_ Hl'].
    repeat split.
    + rewrite length_app. simpl. exists 10%nat. lia.
    + rewrite length_app. simpl. lia.
    + by rewrite alternating_app.
  - assert (length l ≤ 18)%nat.
    { destruct Heven as [n Hn]. lia. }
    rewrite keep_all by (rewrite length_app; simpl; lia).
    repeat split; [|rewrite length_app; simpl; lia|done].
    rewrite length_app. simpl. destruct Heven as [n Hn].
    exists (S n). lia.
Qed.

Lemma add_turn_ok (s u a : string) (h : Histories) :
  histories_ok h → histories_ok (add_turn s u a h).
Proof.
  intros Hok s' l Hl.
  destruct (decide (s = s')) as [<-|Hne].
  - rewrite add_turn_lookup in Hl. injection Hl as <-.
    apply history_ok_turn.
    destruct (h !! s) eqn:E; simpl; [by eapply Hok | apply history_ok_nil].
  - rewrite add_turn_lookup_ne in Hl by done. by eapply Hok.
Qed.

Lemma get_history_ok (s : string) (h : Histories) :
  histories_ok h → histories_ok (get_history s h).2.
Proof.
  intros Hok. unfold get_history. simpl.
  destruct (h !! s) eqn:E; [done|].
  intros s' l Hl. destruct (decide (s = s')) as [<-|Hne].
  - rewrite lookup_insert_eq in Hl. injection Hl as <-. apply history_ok_nil.
  - rewrite lookup_insert_ne in Hl by done. by eapply Hok.
Qed.

Lemma get_recent_context_state (s : string) (n : Z) (h : Histories) :
  (get_recent_context s n h).2 = (get_history s h).2.
Proof.
  unfold get_recent_context. destruct (get_history s h) as [[|x l] h'] ; done.
Qed.

Lemma exec_ok (o : op) (h : Histories) :
  histories_ok h → histories_ok (exec o h).
Proof.
  intros Hok. destruct o; simpl.
  - by apply get_history_ok.
  - rewrite get_recent_context_state. by apply get_history_ok.
  - by apply add_turn_ok.
  - case_bool_decide; [|done].
    intros s' l Hl. apply lookup_delete_Some in Hl as [_ Hl]. by eapply Hok.
  - intros s' l Hl. by rewrite lookup_empty in Hl.
  - done.
Qed.

Lemma run_ok (ops : list op) (h : Histories) :
  histories_ok h → histories_ok (run ops h).
Proof.
  revert h. induction ops as [|o ops IH]; intros h Hok; simpl; [done|].
  apply IH. by apply exec_ok.
Qed.

(** C6: every session history is an even-length sequence of alternating
    user and assistant messages of at most twenty messages: this holds in
    a fresh manager, every operation of the manager preserves it, and so
    it holds after any sequence of operations. *)
Theorem history_invariant :
  histories_ok init
  ∧ (∀ (o : op) (h : Histories), histories_ok h → histories_ok (exec o h))
  ∧ (∀ ops : list op, histories_ok (run ops init)).
Proof.
  assert (H0 : histories_ok init).
  { intros s l Hl. unfold init in Hl. by rewrite lookup_empty in Hl. }
  split; [exact H0|]. split.
  - apply exec_ok.
  - intros ops. by apply run_ok.
Qed.

Lemma history_invariant_witness :
  histories_ok (exec (AddTurn "s" "q1" "a1") init).
Proof.
  apply (proj1 (proj2 history_invariant)).
  intros s l Hl. vm_compute in Hl. discriminate Hl.
Defined.

End ConversationMemory.

(** ** Vector index store: search *)

Section Search.
Import vector_store.
Variable embed : string → list Q.

Lemma Qsquare_nonneg (a : Q) : (0 <= a * a)%Q.
Proof. destruct a as [n d]. unfold Qle, Qmult. simpl. nia. Qed.

Lemma l2_distance_nonneg (u v : list Q) : (0 <= l2_distance u v)%Q.
Proof.
  unfold l2_distance. revert v.
  induction u as [|x u IH]; intros [|y v]; simpl; try apply Qle_refl.
  replace 0%Q with (0 + 0)%Q by reflexivity.
  apply Qplus_le_compat; [apply Qsquare_nonneg | apply IH].
Qed.

Lemma one_plus_pos (d : Q) : (0 <= d)%Q → (0 < 1 + d)%Q.
Proof.
  intros H. apply Qlt_le_trans with (1 + 0)%Q; [reflexivity|].
  by apply Qplus_le_r.
Qed.

Lemma to_similarity_pos (d : Q) : (0 <= d)%Q → (0 < to_similarity d)%Q.
Proof.
  intros H. unfold to_similarity.
  apply Qlt_shift_div_l; [by apply one_plus_pos|].
  rewrite Qmult_0_l. reflexivity.
Qed.

Lemma to_similarity_le_1 (d : Q) : (0 <= d)%Q → (to_similarity d <= 1)%Q.
Proof.
  intros H. unfold to_similarity.
  apply Qle_shift_div_r; [by apply one_plus_pos|].
  rewrite Qmult_1_l. rewrite <- (Qplus_0_r 1) at 1. by apply Qplus_le_r.
Qed.

Lemma to_similarity_antitone (d1 d2 : Q) :
  (0 <= d1)%Q → (d1 <= d2)%Q → (to_similarity d2 <= to_similarity d1)%Q.
Proof.
  intros H1 H12. unfold to_similarity.
  assert (P1 : (0 < 1 + d1)%Q) by by apply one_plus_pos.
  assert (P2 : (0 < 1 + d2)%Q).
  { apply one_plus_pos. by eapply Qle_trans. }
  apply Qle_shift_div_r; [done|].
  assert (E : (1 / (1 + d1) * (1 + d1) == 1)%Q).
  { field. intros E. rewrite E in P1. by apply Qlt_irrefl in P1. }
  apply Qle_trans with (1 / (1 + d1) * (1 + d1))%Q.
  - rewrite E. apply Qle_refl.
  - apply Qmult_le_l.
    + apply Qlt_shift_div_l; [done|]. rewrite Qmult_0_l. reflexivity.
    + by apply Qplus_le_r.
Qed.

#[local] Instance distance_le_trans : Transitive distance_le.
Proof. intros a b c. unfold distance_le. apply Qle_trans. Qed.

#[local] Instance distance_le_total : Total distance_le.
Proof.
  intros a b. unfold distance_le.
  destruct (Qlt_le_dec a.2 b.2) as [H|H]; [left; by apply Qlt_le_weak | by right].
Qed.

(** The order of the index: by distance, equidistant hits in insertion
    order. *)
Lemma insert_hit_Permutation (hit : Document * Q)
    (sorted : list (Document * Q)) :
  insert_hit hit sorted ≡ₚ hit :: sorted.
Proof.
  induction sorted as [|hit' rest IH]; simpl; [done|].
  destruct (Qle_bool _ _); [done|]. rewrite IH. apply Permutation_swap.
Qed.

Lemma nearest_first_Permutation (hits : list (Document * Q)) :
  nearest_first hits ≡ₚ hits.
Proof.
  induction hits as [|hit hits IH]; simpl; [done|].
  by rewrite insert_hit_Permutation, IH.
Qed.

Lemma insert_hit_sorted (hit : Document * Q) (sorted : list (Document * Q)) :
  StronglySorted distance_le sorted →
  StronglySorted distance_le (insert_hit hit sorted).
Proof.
  induction 1 as [|hit' rest Hrest IH Hhd]; simpl.
  - repeat constructor.
  - destruct (Qle_bool hit.2 hit'.2) eqn:E.
    + apply Qle_bool_iff in E. constructor; [by constructor|].
      constructor; [done|]. eapply Forall_impl; [exact Hhd|].
      intros x Hx. unfold distance_le in *. by eapply Qle_trans.
    + constructor; [done|]. rewrite insert_hit_Permutation.
      constructor; [|done]. unfold distance_le.
      destruct (Qlt_le_dec hit.2 hit'.2) as [H|H]; [|done].
      apply Qlt_le_weak, Qle_bool_iff in H. congruence.
Qed.

Lemma nearest_first_sorted (hits : list (Document * Q)) :
  StronglySorted distance_le (nearest_first hits).
Proof.
  induction hits as [|hit hits IH]; simpl; [constructor|].
  by apply insert_hit_sorted.
Qed.

(** Equidistant hits keep the order in which they were listed. *)
Lemma insert_hit_first (hit : Document * Q) (sorted : list (Document * Q)) :
  Forall (fun hit' => (hit.2 <= hit'.2)%Q) sorted →
  insert_hit hit sorted = hit :: sorted.
Proof.
  destruct 1 as [|hit' rest Hle _]; simpl; [done|].
  apply Qle_bool_iff in Hle. by rewrite Hle.
Qed.

Lemma nearest_first_stable (hits : list (Document * Q)) :
  StronglySorted distance_le hits → nearest_first hits = hits.
Proof.
  induction 1 as [|hit hits _ IH Hhd]; simpl; [done|].
  rewrite IH. by apply insert_hit_first.
Qed.

Lemma native_search_length (f : FAISS) (query : string) (k : nat) :
  (length (nearest embed f query k) ≤ k)%nat.
Proof. unfold nearest. rewrite length_take. lia. Qed.

Lemma native_search_elem (f : FAISS) (query : string) (k : nat)
    (hit : Document * Q) :
  hit ∈ nearest embed f query k →
  ∃ e, e ∈ entries f ∧ hit.1 = entry_doc e
       ∧ hit.2 = l2_distance (embed query) (entry_vec e).
Proof.
  unfold nearest. intros H.
  apply (subseteq_take k) in H.
  rewrite nearest_first_Permutation in H.
  apply list_elem_of_fmap in H as (e & -> & He). by exists e.
Qed.

Lemma native_search_nonneg (f : FAISS) (query : string) (k : nat) :
  Forall (fun hit => (0 <= hit.2)%Q) (nearest embed f query k).
Proof.
  apply Forall_forall. intros hit H.
  apply native_search_elem in H as (e & _ & _ & ->).
  apply l2_distance_nonneg.
Qed.

Lemma StronglySorted_take {A} (R : relation A) (k : nat) (l : list A) :
  StronglySorted R l → StronglySorted R (take k l).
Proof.
  intros H. revert k. induction H as [|x l Hl IH Hx]; intros [|k]; simpl;
    try constructor; [apply IH | by apply Forall_take].
Qed.

Lemma native_search_sorted (f : FAISS) (query : string) (k : nat) :
  StronglySorted distance_le (nearest embed f query k).
Proof.
  unfold nearest. apply StronglySorted_take, nearest_first_sorted.
Qed.

(** A hit that is nearer than one of the first [k] is among them. *)
Lemma sorted_take_closed {A} (R : relation A) (k : nat) (l : list A)
    (x y : A) :
  StronglySorted R l → x ∈ take k l → y ∈ l → ¬ R x y → y ∈ take k l.
Proof.
  intros Hl. revert k. induction Hl as [|a l Hl IH Ha]; intros k Hx Hy Hxy.
  - by apply elem_of_nil in Hy.
  - destruct k as [|k]; simpl in *; [by apply elem_of_nil in Hx|].
    apply elem_of_cons in Hy as [->|Hy]; [left|].
    apply elem_of_cons in Hx as [->|Hx].
    + rewrite Forall_forall in Ha. exfalso. apply Hxy. by apply Ha.
    + right. by apply IH.
Qed.

(** The loop of [similarity_search] keeps, in order, the hits whose
    similarity reaches the threshold. *)
Lemma filter_results_elem (threshold : Q) (results : list (Document * Q))
    (doc : Document) (s : Q) :
  (doc, s) ∈ filter_results threshold results ↔
  ∃ distance, (doc, distance) ∈ results ∧ s = to_similarity distance
              ∧ (threshold <= s)%Q.
Proof.
  induction results as [|[doc' d'] results IH]; simpl.
  - split; [by intros ?%elem_of_nil|]. by intros (? & ?%elem_of_nil & _).
  - destruct (Qle_bool threshold (1 / (1 + d'))) eqn:E.
    + rewrite elem_of_cons, IH. split.
      * intros [[= -> ->] | (d & H & -> & Hle)].
        -- exists d'. split_and!; [left|done|by apply Qle_bool_iff].
        -- exists d. split_and!; [by right|done..].
      * intros (d & [[= -> ->] | H]%elem_of_cons & -> & Hle);
          [by left | right; by exists d].
    + rewrite IH. split.
      * intros (d & H & -> & Hle). exists d. split_and!; [by right|done..].
      * intros (d & [[= -> ->] | H]%elem_of_cons & -> & Hle).
        -- apply Qle_bool_iff in Hle. unfold to_similarity in Hle. congruence.
        -- by exists d.
Qed.

Lemma filter_results_length (threshold : Q) (results : list (Document * Q)) :
  (length (filter_results threshold results) ≤ length results)%nat.
Proof.
  induction results as [|[doc d] results IH]; simpl; [lia|].
  destruct (Qle_bool _ _); simpl; lia.
Qed.

Lemma filter_results_sorted (threshold : Q) (results : list (Document * Q)) :
  StronglySorted distance_le results →
  Forall (fun hit => (0 <= hit.2)%Q) results →
  StronglySorted similarity_ge (filter_results threshold results).
Proof.
  induction 1 as [|[doc d] results Hsorted IH Hhd]; intros Hpos; simpl.
  - constructor.
  - apply Forall_cons in Hpos as [Hd Hpos].
    destruct (Qle_bool _ _); [|by apply IH].
    constructor; [by apply IH|].
    apply Forall_forall. intros [doc' s'] Hin.
    apply filter_results_elem in Hin as (d' & Hin & -> & _).
    rewrite Forall_forall in Hhd. specialize (Hhd _ Hin).
    unfold similarity_ge, distance_le in *. simpl in *.
    by apply to_similarity_antitone.
Qed.

Lemma filter_results_app (t : Q) (l1 l2 : list (Document * Q)) :
  filter_results t (l1 ++ l2) = filter_results t l1 ++ filter_results t l2.
Proof.
  induction l1 as [|[doc d] l1 IH]; simpl; [done|].
  destruct (Qle_bool _ _); simpl; by rewrite IH.
Qed.

Lemma filter_results_none (t : Q) (l : list (Document * Q)) :
  (∀ doc d, (doc, d) ∈ l → ¬ (t <= to_similarity d)%Q) →
  filter_results t l = [].
Proof.
  intros H. destruct (filter_results t l) as [|[doc s] rest] eqn:E; [done|].
  exfalso. assert (Hin : (doc, s) ∈ filter_results t l) by (rewrite E; left).
  apply filter_results_elem in Hin as (d & Hd & -> & Hle).
  by apply (H doc d).
Qed.

(** The hits that pass the threshold are the first of a list in ascending
    order of distance: cutting the list to [k] hits before the loop cuts
    the hits kept to [k]. *)
Lemma filter_results_take_length (t : Q) (k : nat)
    (results : list (Document * Q)) :
  StronglySorted distance_le results →
  Forall (fun hit => (0 <= hit.2)%Q) results →
  length (filter_results t (take k results))
  = Nat.min k (length (filter_results t results)).
Proof.
  intros Hsorted. revert k.
  induction Hsorted as [|[doc d] results Hsorted IH Hhd]; intros k Hpos.
  - rewrite take_nil. simpl. lia.
  - apply Forall_cons in Hpos as [Hd Hpos]. simpl in Hd.
    destruct k as [|k]; [done|]. simpl.
    destruct (Qle_bool t (1 / (1 + d))) eqn:E; simpl; [by rewrite IH|].
    assert (Hnone : ∀ doc' d', (doc', d') ∈ results →
              ¬ (t <= to_similarity d')%Q).
    { intros doc' d' Hin Hle.
      rewrite Forall_forall in Hhd. specialize (Hhd _ Hin).
      unfold distance_le in Hhd. simpl in Hhd.
      assert (Hc : (t <= 1 / (1 + d))%Q).
      { eapply Qle_trans; [exact Hle|]. by apply to_similarity_antitone. }
      apply Qle_bool_iff in Hc. congruence. }
    rewrite (filter_results_none t results Hnone).
    rewrite (filter_results_none t (take k results)); [simpl; lia|].
    intros doc' d' Hin. apply (Hnone doc'). by apply (subseteq_take k).
Qed.

Lemma filter_results_count (t : Q) (results : list (Document * Q)) :
  length (filter_results t results)
  = length (filter (fun hit => Qle_bool t (to_similarity hit.2) = true)
                   results).
Proof.
  induction results as [|[doc d] results IH]; simpl; [done|].
  rewrite filter_cons. simpl.
  destruct (decide (Qle_bool t (to_similarity d) = true)) as [E|E];
    unfold to_similarity in E.
  - rewrite E. simpl. by rewrite IH.
  - apply not_true_is_false in E. by rewrite E.
Qed.

Lemma filter_fmap_length {A B} (P : B → Prop) `{!∀ x, Decision (P x)}
    (g : A → B) (l : list A) :
  length (filter P (map g l)) = length (filter (fun x => P (g x)) l).
Proof.
  induction l as [|x l IH]; simpl; [done|].
  rewrite !filter_cons. destruct (decide (P (g x))); simpl; by rewrite IH.
Qed.

(** A passed threshold of zero, like an absent one, is replaced by the
    configured one; any other passed threshold is the one applied. *)
Lemma float_or_le (t d s : Q) :
  (0 < s)%Q → (Py.float_or (Some t) d <= s)%Q → (t <= s)%Q.
Proof.
  intros Hs. unfold Py.float_or, Py.truthy_float.
  destruct (Z.eqb_spec (Qnum t) 0) as [E|_]; simpl; [|done].
  intros _. apply Qlt_le_weak. destruct t as [n p]. simpl in E. subst n.
  unfold Qlt in *. simpl in *. nia.
Qed.

Lemma search_hit (settings : config.Settings) (query : string) (k : nat)
    (score_threshold : option Q) (w : World) (doc : Document) (s : Q) :
  (doc, s) ∈ similarity_search embed settings query k score_threshold w →
  ∃ e, e ∈ chunks w ∧ doc = entry_doc e
       ∧ s = to_similarity (l2_distance (embed query) (entry_vec e))
       ∧ (Py.float_or score_threshold
            (config.retrieval_score_threshold settings) <= s)%Q.
Proof.
  unfold similarity_search, chunks.
  destruct (_vector_store (self w)) as [f|]; [|by intros ?%elem_of_nil].
  intros (d & Hin & -> & Hle)%filter_results_elem.
  apply native_search_elem in Hin as (e & He & Hdoc & Hd).
  simpl in Hdoc, Hd. subst doc d. by exists e.
Qed.

Lemma search_sorted (settings : config.Settings) (query : string) (k : nat)
    (score_threshold : option Q) (w : World) :
  StronglySorted similarity_ge
    (similarity_search embed settings query k score_threshold w).
Proof.
  unfold similarity_search.
  destruct (_vector_store (self w)) as [f|]; [|constructor].
  apply filter_results_sorted;
    [apply native_search_sorted | apply native_search_nonneg].
Qed.

Lemma search_length (settings : config.Settings) (query : string) (k : nat)
    (score_threshold : option Q) (w : World) :
  (length (similarity_search embed settings query k score_threshold w) ≤ k)%nat.
Proof.
  unfold similarity_search.
  destruct (_vector_store (self w)) as [f|]; simpl; [|lia].
  etrans; [apply filter_results_length | apply native_search_length].
Qed.

(** The call returns the list unless the index is asked for no hit. *)
Lemma similarity_search_call_returns (settings : config.Settings)
    (query : string) (k : nat) (score_threshold : option Q) (w : World) :
  (1 ≤ k)%nat ∨ _vector_store (self w) = None →
  similarity_search_call embed settings query k score_threshold w
  = Py.Return (similarity_search embed settings query k score_threshold w).
Proof.
  unfold similarity_search_call, similarity_search,
    similarity_search_with_score.
  destruct (_vector_store (self w)) as [f|]; [|done].
  intros [Hk|?]; [|done]. destruct k; [lia|done].
Qed.

Lemma search_count (settings : config.Settings) (query : string) (k : nat)
    (score_threshold : option Q) (w : World) :
  length (similarity_search embed settings query k score_threshold w)
  = Nat.min k
      (length (clearing embed query
                 (Py.float_or score_threshold
                    (config.retrieval_score_threshold settings)) w)).
Proof.
  unfold similarity_search, clearing, chunks.
  destruct (_vector_store (self w)) as [f|]; simpl; [|lia].
  unfold nearest.
  rewrite filter_results_take_length.
  - f_equal. rewrite filter_results_count.
    rewrite nearest_first_Permutation. apply filter_fmap_length.
  - apply nearest_first_sorted.
  - apply Forall_forall. intros hit Hin.
    rewrite nearest_first_Permutation in Hin.
    apply list_elem_of_fmap in Hin as (e & -> & _). apply l2_distance_nonneg.
Qed.

Lemma search_nearest (settings : config.Settings) (query : string) (k : nat)
    (score_threshold : option Q) (w : World) (e : Entry) (doc : Document)
    (s : Q) :
  let hits := similarity_search embed settings query k score_threshold w in
  e ∈ chunks w → (doc, s) ∈ hits →
  (s < to_similarity (l2_distance (embed query) (entry_vec e)))%Q →
  (entry_doc e, to_similarity (l2_distance (embed query) (entry_vec e)))
  ∈ hits.
Proof.
  intros hits. subst hits. unfold similarity_search, chunks.
  destruct (_vector_store (self w)) as [f|]; [|by intros ?%elem_of_nil].
  intros He (d & Hin & -> & Hle)%filter_results_elem Hlt.
  apply filter_results_elem.
  exists (l2_distance (embed query) (entry_vec e)). split_and!; [|done|].
  - pose proof (native_search_nonneg f query k) as Hpos.
    rewrite Forall_forall in Hpos. specialize (Hpos _ Hin). simpl in Hpos.
    unfold nearest in *.
    eapply sorted_take_closed;
      [apply nearest_first_sorted | exact Hin | |].
    + rewrite nearest_first_Permutation.
      apply list_elem_of_fmap. by exists e.
    + unfold distance_le. simpl. intros Hd.
      apply (Qlt_irrefl (to_similarity d)).
      eapply Qlt_le_trans; [exact Hlt|]. by apply to_similarity_antitone.
  - apply Qlt_le_weak. by eapply Qle_lt_trans.
Qed.

Lemma filter_results_fmap {A} (t : Q) (g : A → Document * Q) (l : list A) :
  filter_results t (map g l)
  = map (fun x => ((g x).1, to_similarity (g x).2))
        (filter (fun x => Qle_bool t (to_similarity (g x).2) = true) l).
Proof.
  induction l as [|x l IH]; simpl; [done|].
  rewrite filter_cons. destruct (g x) as [doc d] eqn:Eg. simpl.
  destruct (decide (Qle_bool t (to_similarity d) = true)) as [E|E];
    unfold to_similarity in E.
  - rewrite E. simpl. rewrite Eg. simpl. by rewrite IH.
  - apply not_true_is_false in E. by rewrite E.
Qed.

(** The hits are those of stored chunks, each chunk counted once. *)
Lemma search_chunks (settings : config.Settings) (query : string) (k : nat)
    (score_threshold : option Q) (w : World) :
  ∃ es, es ⊆+ chunks w
    ∧ similarity_search embed settings query k score_threshold w
      = map (fun e => (entry_doc e,
                       to_similarity
                         (l2_distance (embed query) (entry_vec e)))) es.
Proof.
  unfold similarity_search, chunks.
  destruct (_vector_store (self w)) as [f|]; [|by exists []].
  unfold nearest. cbv zeta.
  set (g := fun e => (entry_doc e, l2_distance (embed query) (entry_vec e))).
  pose proof (nearest_first_Permutation (map g (entries f))) as Hp.
  apply Permutation_map_inv in Hp as (es' & Hes' & Hperm).
  rewrite Hes'.
  change (map g es') with (g <$> es'). rewrite <- fmap_take.
  change (g <$> take k es') with (map g (take k es')).
  rewrite filter_results_fmap.
  eexists. split; [|done].
  rewrite Hperm. apply sublist_submseteq.
  etrans; [apply sublist_filter | apply sublist_take].
Qed.

(** C1 (amended): for [k ≥ 1], [similarity_search] returns, and the list
    it returns holds as many pairs as there are stored chunks whose
    similarity reaches the threshold applied, up to [k]; the pairs are
    those of stored chunks, each chunk counted once, with
    [1 / (1 + distance)] for its distance to the query in the index;
    every similarity reaches the threshold applied, and the passed
    [score_threshold] when one is passed; the similarities are in
    descending order; a stored chunk more similar than a returned one is
    returned as well; and the list is empty when no stored chunk reaches
    the threshold.  On an uninitialized index the call returns the empty
    list for every [k]. *)
Theorem similarity_search_spec (settings : config.Settings) (query : string)
    (k : nat) (score_threshold : option Q) (w : World) :
  let threshold :=
    Py.float_or score_threshold (config.retrieval_score_threshold settings) in
  let similarity (e : Entry) :=
    (1 / (1 + l2_distance (embed query) (entry_vec e)))%Q in
  let hits := similarity_search embed settings query k score_threshold w in
  let outcome :=
    similarity_search_call embed settings query k score_threshold w in
  (_vector_store (self w) = None → outcome = Py.Return [])
  ∧ ((1 ≤ k)%nat →
     outcome = Py.Return hits
     ∧ (length hits ≤ k)%nat
     ∧ length hits
       = Nat.min k (length (clearing embed query threshold w))
     ∧ (∃ es, es ⊆+ chunks w
              ∧ hits = map (fun e => (entry_doc e, similarity e)) es)
     ∧ (∀ doc s, (doc, s) ∈ hits →
          (∃ e, e ∈ chunks w ∧ doc = entry_doc e ∧ s = similarity e)
          ∧ (threshold <= s)%Q
          ∧ (∀ t, score_threshold = Some t → (t <= s)%Q))
     ∧ StronglySorted similarity_ge hits
     ∧ (∀ e doc s, e ∈ chunks w → (doc, s) ∈ hits →
          (s < similarity e)%Q → (entry_doc e, similarity e) ∈ hits)
     ∧ ((∀ e, e ∈ chunks w → ¬ (threshold <= similarity e)%Q) → hits = [])
     ∧ (∀ t, score_threshold = Some t →
         (∀ e, e ∈ chunks w → ¬ (t <= similarity e)%Q) → hits = [])).
Proof.
  intros threshold similarity hits outcome.
  assert (Helem : ∀ doc s, (doc, s) ∈ hits →
    (∃ e, e ∈ chunks w ∧ doc = entry_doc e ∧ s = similarity e)
    ∧ (threshold <= s)%Q
    ∧ (∀ t, score_threshold = Some t → (t <= s)%Q)).
  { intros doc s Hin. apply search_hit in Hin as (e & He & -> & -> & Hle).
    split_and!; [by exists e | done |].
    intros t ->. eapply float_or_le; [|exact Hle].
    apply to_similarity_pos, l2_distance_nonneg. }
  assert (Hnone : ∀ bound : Q,
    (∀ doc s, (doc, s) ∈ hits → (bound <= s)%Q) →
    (∀ e, e ∈ chunks w → ¬ (bound <= similarity e)%Q) →
    hits = []).
  { intros bound Hb Hno. destruct hits as [|[doc s] rest]; [done|].
    exfalso. assert (Hin : (doc, s) ∈ (doc, s) :: rest) by left.
    specialize (Hb _ _ Hin).
    apply Helem in Hin as ((e & He & _ & ->) & _). by apply (Hno e). }
  split.
  - intros Hnone'. subst outcome.
    rewrite similarity_search_call_returns by (by right).
    unfold similarity_search. by rewrite Hnone'.
  - intros Hk. split_and!.
    + apply similarity_search_call_returns. by left.
    + apply search_length.
    + apply search_count.
    + apply search_chunks.
    + exact Helem.
    + apply search_sorted.
    + intros e doc s. apply search_nearest.
    + apply Hnone. intros doc s Hin. by apply Helem in Hin as (_ & ? & _).
    + intros t Ht. apply Hnone. intros doc s Hin.
      apply Helem in Hin as (_ & _ & H). by apply H.
Qed.

End Search.

(** ** Retriever *)

Section Retriever.
Import vector_store retriever.
Variable embed : string → list Q.

(** C10: a passed [score_threshold] of [0.0] is not used by
    [similarity_search], nor a passed [k] of [0] or [score_threshold] of
    [0.0] by [retrieve]: the call behaves as when the argument is not
    passed, that is with the configured [retrieval_score_threshold] and
    [retrieval_top_k], whose defaults are [0.3] and [5]; so the hits of a
    search asked with threshold zero under the default settings all have
    similarity at least [0.3]. *)
Theorem falsy_arguments_fall_back_to_settings :
  (∀ settings query k w,
     similarity_search embed settings query k (Some 0%Q) w
     = similarity_search embed settings query k None w
     ∧ similarity_search embed settings query k (Some 0%Q) w
       = similarity_search embed settings query k
           (Some (config.retrieval_score_threshold settings)) w)
  ∧ (∀ settings query score_threshold w,
       retrieve embed settings query (Some 0%nat) score_threshold w
       = retrieve embed settings query None score_threshold w
       ∧ retrieve embed settings query (Some 0%nat) score_threshold w
         = retrieve embed settings query
             (Some (config.retrieval_top_k settings)) score_threshold w)
  ∧ (∀ settings query k w,
       retrieve embed settings query k (Some 0%Q) w
       = retrieve embed settings query k None w
       ∧ retrieve embed settings query k (Some 0%Q) w
         = retrieve embed settings query k
             (Some (config.retrieval_score_threshold settings)) w)
  ∧ config.retrieval_top_k config.default_settings = 5%nat
  ∧ config.retrieval_score_threshold config.default_settings = (3 # 10)%Q
  ∧ (∀ query k w doc s,
       (doc, s) ∈ similarity_search embed config.default_settings query k
                    (Some 0%Q) w →
       (3 # 10 <= s)%Q).
Proof.
  assert (Hf : ∀ d, Py.float_or (Some 0%Q) d = Py.float_or (Some d) d).
  { intros d. unfold Py.float_or. simpl. by destruct (Py.truthy_float d). }
  assert (Hn : ∀ d, Py.nat_or (Some 0%nat) d = Py.nat_or (Some d) d).
  { intros d. unfold Py.nat_or. simpl. by destruct (Py.truthy_nat d). }
  split_and!; try done.
  - intros. unfold similarity_search. split; [done | by rewrite Hf].
  - intros. unfold retrieve. split; [done | by rewrite Hn].
  - intros. unfold retrieve. split; [done | by rewrite Hf].
  - intros query k w doc s Hin.
    by apply search_hit in Hin as (e & _ & _ & _ & H).
Qed.

Lemma foldl_collect (results : list (Document * Q))
    (parts : list string) (srcs : list SourceReference) (top : Q) :
  foldl collect (parts, srcs, top) results
  = (parts ++ map (fun hit => page_content hit.1) results,
     srcs ++ map (fun hit => source_of hit.1) results,
     foldl Py.max top (map snd results)).
Proof.
  revert parts srcs top.
  induction results as [|[doc s] results IH]; intros parts srcs top; simpl.
  - by rewrite !app_nil_r.
  - rewrite IH, <- !app_assoc. done.
Qed.




Lemma truncate_text_150 (text : string) :
  utils.truncate_text text 150 utils.default_suffix = preview text.
Proof.
  unfold utils.truncate_text, preview.
  destruct (Z.leb_spec (Z.of_nat (String.length text)) 150) as [H|H];
    destruct (Nat.leb_spec (String.length text) 150) as [H'|H']; try lia; done.
Qed.


End Retriever.

Lemma falsy_arguments_fall_back_to_settings_witness : (3 # 10 <= 1)%Q.
Proof.
  apply (proj2 (proj2 (proj2 (proj2 (proj2
           (falsy_arguments_fall_back_to_settings sample.embed)))))
           "sky" 5%nat sample.one_document
           {| vector_store.page_content := "sky";
              vector_store.metadata := sample.chunk_meta "doc_a" 0 |} 1%Q).
  vm_compute. left.
Defined.



(** ** Vector index store: deletion and persistence *)

Section Store.
Import vector_store.
Variable embed : string → list Q.

Lemma self_save_metadata (io : IO) (w : World) :
  self (_save_metadata io w) = self w.
Proof.
  unfold _save_metadata, write_metadata.
  by destruct (write_metadata_ok io), (write_metadata_cut_short io).
Qed.

Lemma self_save_local (io : IO) (f : FAISS) (w : World) :
  self (save_local io f w) = self w.
Proof.
  unfold save_local.
  by destruct (save_local_ok io), (save_local_cut_short io).
Qed.

Lemma self_save_store (io : IO) (w : World) :
  self (_save_store io w) = self w.
Proof.
  unfold _save_store. destruct (_vector_store (self w)); [|done].
  destruct (save_local_ok io); simpl;
    by rewrite ?self_save_metadata, ?self_save_local.
Qed.

Lemma chunks_save_store (io : IO) (w : World) :
  chunks (_save_store io w) = chunks w.
Proof. unfold chunks. by rewrite self_save_store. Qed.

Lemma filter_not_in_nil (l : list Entry) :
  filter (fun e => entry_id e ∉ @nil nat) l = l.
Proof.
  induction l as [|e l IH]; [done|].
  rewrite filter_cons_True by apply not_elem_of_nil. by rewrite IH.
Qed.

Lemma faiss_delete_collected (document_id : string) (f : FAISS) :
  faiss_delete (docs_to_delete document_id f) f
  = Py.Return {| entries :=
                   filter (fun e => entry_id e ∉ docs_to_delete document_id f)
                          (entries f);
                 next_id := next_id f |}.
Proof.
  unfold faiss_delete.
  assert (H : forallb (fun i => bool_decide (i ∈ map entry_id (entries f)))
                      (docs_to_delete document_id f) = true).
  { apply forallb_forall. intros i Hi. apply bool_decide_eq_true.
    apply list_elem_of_In in Hi. unfold docs_to_delete in Hi.
    apply list_elem_of_fmap in Hi as (e & -> & He).
    apply list_elem_of_fmap. exists e. split; [done|].
    by apply list_elem_of_filter in He as [_ He]. }
  by rewrite H.
Qed.

(** What [delete_document] does for a document it knows. *)
Lemma delete_document_known (io : IO) (document_id : string) (w : World) :
  is_Some (_document_metadata (self w) !! document_id) →
  delete_document io document_id w
  = (Py.Return true,
     _save_store io
       (set_document_metadata
          (delete document_id (_document_metadata (self w)))
          (set_vector_store (without document_id (_vector_store (self w)))
                            w))).
Proof.
  intros [dm Hdm]. unfold delete_document. rewrite Hdm.
  destruct (_vector_store (self w)) as [f|] eqn:Ef; simpl; [|done].
  destruct (docs_to_delete document_id f) as [|i ids] eqn:Eids.
  - rewrite filter_not_in_nil. by destruct f.
  - rewrite <- Eids, faiss_delete_collected. done.
Qed.

Lemma delete_document_true (io : IO) (document_id : string) (w w' : World) :
  delete_document io document_id w = (Py.Return true, w') →
  is_Some (_document_metadata (self w) !! document_id).
Proof.
  unfold delete_document.
  destruct (_document_metadata (self w) !! document_id); [eauto|].
  intros [=].
Qed.

Lemma without_untagged (document_id : string) (v : option FAISS) (e : Entry) :
  e ∈ default [] (entries <$> without document_id v) →
  tagged document_id (entry_doc e) = false.
Proof.
  destruct v as [f|]; simpl; [|by intros ?%elem_of_nil].
  intros [Hnot He]%list_elem_of_filter.
  destruct (tagged document_id (entry_doc e)) eqn:Et; [|done].
  exfalso. apply Hnot. unfold docs_to_delete.
  apply list_elem_of_fmap. exists e. split; [done|].
  by apply list_elem_of_filter.
Qed.

Lemma delete_document_unknown (io : IO) (document_id : string) (w : World) :
  _document_metadata (self w) !! document_id = None →
  delete_document io document_id w = (Py.Return false, w).
Proof. intros H. unfold delete_document. by rewrite H. Qed.

(** C8: [delete_document] on an id that the metadata map does not hold
    returns [False] without raising, and leaves the index, the metadata
    map and the persisted files as they were. *)
Theorem delete_unknown_document (io : IO) (document_id : string) (w : World) :
  _document_metadata (self w) !! document_id = None →
  delete_document io document_id w = (Py.Return false, w).
Proof. intros H. unfold delete_document. by rewrite H. Qed.

(** C7: for a document the store holds, [delete_document] returns [True];
    and once it has returned [True], no search, whatever the query, [k]
    and threshold, returns a chunk tagged with that document, and
    [get_document] answers [None]. *)
Theorem deleted_document_is_gone (io : IO) (document_id : string)
    (w : World) :
  is_Some (_document_metadata (self w) !! document_id) →
  ∃ w', delete_document io document_id w = (Py.Return true, w')
    ∧ (∀ settings query k score_threshold doc s,
         (doc, s) ∈ similarity_search embed settings query k
                      score_threshold w' →
         meta_document_id (metadata doc) ≠ Some document_id)
    ∧ get_document document_id w' = None.
Proof.
  intros Hknown. eexists. split; [by apply delete_document_known|]. split.
  - intros settings query k t doc s Hin.
    apply search_hit in Hin as (e & He & -> & _).
    rewrite chunks_save_store in He. unfold chunks in He. simpl in He.
    assert (Hu : tagged document_id (entry_doc e) = false).
    { apply (without_untagged _ (_vector_store (self w))).
      by destruct (without document_id (_vector_store (self w))). }
    unfold tagged in Hu. by apply bool_decide_eq_false in Hu.
  - unfold get_document. rewrite self_save_store. simpl.
    apply lookup_delete_eq.
Qed.

End Store.

Lemma delete_unknown_document_witness :
  vector_store.delete_document vector_store.io_ok "doc_x" sample.one_document
  = (Py.Return false, sample.one_document).
Proof.
  apply (delete_unknown_document vector_store.io_ok "doc_x" sample.one_document).
  vm_compute. reflexivity.
Defined.

Lemma deleted_document_is_gone_witness :
  ∃ w', vector_store.delete_document vector_store.io_ok "doc_a"
          sample.one_document = (Py.Return true, w')
    ∧ (∀ settings query k score_threshold doc s,
         (doc, s) ∈ vector_store.similarity_search sample.embed settings query
                      k score_threshold w' →
         vector_store.meta_document_id (vector_store.metadata doc)
         ≠ Some "doc_a")
    ∧ vector_store.get_document "doc_a" w' = None.
Proof.
  apply (deleted_document_is_gone sample.embed vector_store.io_ok "doc_a"
           sample.one_document).
  vm_compute. eexists. reflexivity.
Defined.

(** ** Vector index store: the chunk count of a record *)

Section ChunkCount.
Import vector_store.
Variable embed : string → list Q.

(** The number of entries tagged with a document. *)
Local Abbreviation count id l :=
  (length (filter (fun e => tagged id (entry_doc e) = true) l)).

Lemma count_all (document_id : string) (l : list Entry) :
  Forall (fun e => tagged document_id (entry_doc e) = true) l →
  count document_id l = length l.
Proof.
  induction 1 as [|e l He _ IH]; [done|].
  rewrite filter_cons_True by done. simpl. by rewrite IH.
Qed.

Lemma count_none (document_id : string) (l : list Entry) :
  Forall (fun e => tagged document_id (entry_doc e) ≠ true) l →
  count document_id l = 0%nat.
Proof.
  induction 1 as [|e l He _ IH]; [done|].
  by rewrite filter_cons_False by done.
Qed.

Lemma tagged_inj (id1 id2 : string) (d : Document) :
  tagged id1 d = true → tagged id2 d = true → id1 = id2.
Proof.
  unfold tagged. intros H1%bool_decide_eq_true H2%bool_decide_eq_true.
  congruence.
Qed.

Lemma new_entries_elem (n : nat) (documents : list Document) (e : Entry) :
  e ∈ new_entries embed n documents →
  entry_doc e ∈ documents ∧ (n ≤ entry_id e < n + length documents)%nat.
Proof.
  unfold new_entries. intros (i & d & -> & Hi)%elem_of_lookup_imap. simpl.
  split; [by eapply list_elem_of_lookup_2|].
  apply lookup_lt_Some in Hi. lia.
Qed.

Lemma new_entries_ids (n : nat) (documents : list Document) :
  map entry_id (new_entries embed n documents) = seq n (length documents).
Proof.
  unfold new_entries.
  change (map entry_id ?l) with (entry_id <$> l).
  rewrite fmap_imap.
  rewrite (imap_ext _ (fun j _ => id (n + j)%nat)) by done.
  by rewrite imap_seq, list_fmap_id.
Qed.

Lemma length_new_entries (n : nat) (documents : list Document) :
  length (new_entries embed n documents) = length documents.
Proof. apply length_imap. Qed.

(** What [add_documents] does with a batch that is not empty. *)
Lemma add_documents_batch (io : IO) (texts : list string)
    (metadatas : list ChunkMeta) (dm : DocumentMetadata) (w : World) :
  zip_with Build_Document texts metadatas ≠ [] →
  add_documents embed io texts metadatas dm w
  = (Py.Return (imap chunk_id_or_default metadatas),
     _save_store io
       (set_document_metadata
          (<[document_id dm := dm]> (_document_metadata (self w)))
          (set_vector_store
             (Some (faiss_append embed
                      (zip_with Build_Document texts metadatas)
                      (current (_vector_store (self w)))))
             w))).
Proof.
  intros Hne. unfold add_documents.
  destruct (_vector_store (self w)) as [f|]; simpl;
    by destruct (zip_with Build_Document texts metadatas).
Qed.

(** What [add_documents] does with an empty batch: the index library
    raises, and nothing has changed. *)
Lemma add_documents_empty (io : IO) (texts : list string)
    (metadatas : list ChunkMeta) (dm : DocumentMetadata) (w : World) :
  zip_with Build_Document texts metadatas = [] →
  (add_documents embed io texts metadatas dm w).2 = w.
Proof.
  intros He. unfold add_documents. rewrite He.
  by destruct (_vector_store (self w)).
Qed.

Lemma chunks_current (w : World) :
  chunks w = entries (current (_vector_store (self w))).
Proof. unfold chunks, current. by destruct (_vector_store (self w)). Qed.

Lemma store_inv_save_store (io : IO) (w : World) :
  store_inv w → store_inv (_save_store io w).
Proof.
  unfold store_inv, chunks_owned, chunk_counts_match, stored_chunk_count.
  by rewrite chunks_save_store, self_save_store.
Qed.

Lemma store_inv_init : store_inv init.
Proof.
  split_and!.
  - split; simpl; constructor.
  - by intros e ?%elem_of_nil.
  - intros id dm H. simpl in H. by rewrite lookup_empty in H.
Qed.

Lemma store_inv_insert (io : IO) (texts : list string)
    (metadatas : list ChunkMeta) (dm : DocumentMetadata) (w : World) :
  store_inv w → ingestion texts metadatas dm w →
  store_inv (add_documents embed io texts metadatas dm w).2.
Proof.
  intros (Hids & Hown & Hcnt) (Hnew & Htag & Hlen).
  destruct (decide (zip_with Build_Document texts metadatas = [])) as [He|Hne].
  { by rewrite add_documents_empty. }
  rewrite add_documents_batch by done. simpl.
  apply store_inv_save_store.
  set (docs := zip_with Build_Document texts metadatas) in *.
  set (f := current (_vector_store (self w))) in *.
  assert (Hnewtag : Forall (fun e => tagged (document_id dm) (entry_doc e) = true)
                           (new_entries embed (next_id f) docs)).
  { apply Forall_forall. intros e [He _]%new_entries_elem.
    rewrite Forall_forall in Htag. by apply Htag. }
  assert (Hold : ∀ e, e ∈ entries f → tagged (document_id dm) (entry_doc e) ≠ true).
  { intros e He Ht. unfold f in He. rewrite <- chunks_current in He.
    destruct (Hown e He) as (d & Hd & [? Hsome]).
    rewrite (tagged_inj _ _ _ Ht Hd) in Hnew. congruence. }
  split_and!.
  - destruct Hids as [Hnd Hlt]. fold f in Hnd, Hlt.
    split; simpl.
    + rewrite map_app, new_entries_ids. apply NoDup_app. split_and!.
      * done.
      * intros i (e & -> & He)%list_elem_of_fmap Hi%elem_of_seq.
        rewrite Forall_forall in Hlt. specialize (Hlt e He). lia.
      * apply NoDup_seq.
    + apply Forall_app. split.
      * eapply Forall_impl; [exact Hlt|]. simpl. intros; lia.
      * apply Forall_forall. intros e [_ He]%new_entries_elem.
        assert (docs ≠ []) by done. lia.
  - intros e He. unfold chunks in He. simpl in He.
    apply elem_of_app in He as [He|He].
    + unfold f in He. rewrite <- chunks_current in He.
      destruct (Hown e He) as (d & Hd & Hsome). exists d. split; [done|].
      simpl. destruct (decide (document_id dm = d)) as [->|Hne'].
      * rewrite lookup_insert_eq. eauto.
      * by rewrite lookup_insert_ne.
    + exists (document_id dm). split.
      * rewrite Forall_forall in Hnewtag. by apply Hnewtag.
      * simpl. rewrite lookup_insert_eq. eauto.
  - intros id dm' Hdm'. unfold stored_chunk_count, chunks. simpl in *.
    rewrite filter_app, length_app.
    destruct (decide (document_id dm = id)) as [<-|Hne'].
    + rewrite lookup_insert_eq in Hdm'. injection Hdm' as <-.
      rewrite (count_none _ (entries f)) by by apply Forall_forall.
      rewrite count_all by done. by rewrite length_new_entries.
    + rewrite lookup_insert_ne in Hdm' by done.
      rewrite (count_none _ (new_entries _ _ _)).
      * rewrite Nat.add_0_r. specialize (Hcnt _ _ Hdm').
        unfold stored_chunk_count in Hcnt. by rewrite chunks_current in Hcnt.
      * eapply Forall_impl; [exact Hnewtag|]. simpl. intros e Ht Ht'.
        apply Hne'. by eapply tagged_inj.
Qed.

Lemma docs_to_delete_tagged (document_id : string) (f : FAISS) (e : Entry) :
  NoDup (map entry_id (entries f)) → e ∈ entries f →
  entry_id e ∈ docs_to_delete document_id f
  ↔ tagged document_id (entry_doc e) = true.
Proof.
  intros Hnd He. unfold docs_to_delete. split.
  - intros (e' & Hid & [Ht He']%list_elem_of_filter)%list_elem_of_fmap.
    assert (e = e') as ->; [|done].
    clear Ht. induction (entries f) as [|x l IH]; [by apply elem_of_nil in He|].
    simpl in Hnd. apply NoDup_cons in Hnd as [Hx Hnd].
    apply elem_of_cons in He as [->|He], He' as [->|He']; try done.
    + exfalso. apply Hx. rewrite Hid. apply list_elem_of_fmap. eauto.
    + exfalso. apply Hx. rewrite <- Hid. apply list_elem_of_fmap. eauto.
    + by apply IH.
  - intros Ht. apply list_elem_of_fmap. exists e. split; [done|].
    by apply list_elem_of_filter.
Qed.

Lemma without_entries (document_id : string) (f : FAISS) :
  NoDup (map entry_id (entries f)) →
  filter (fun e => entry_id e ∉ docs_to_delete document_id f) (entries f)
  = filter (fun e => tagged document_id (entry_doc e) ≠ true) (entries f).
Proof.
  intros Hnd.
  assert (H : ∀ e, e ∈ entries f →
            entry_id e ∉ docs_to_delete document_id f
            ↔ tagged document_id (entry_doc e) ≠ true).
  { intros e He. by rewrite docs_to_delete_tagged. }
  clear Hnd. revert H. generalize (docs_to_delete document_id f). intros ids.
  induction (entries f) as [|x l IH]; intros H; [done|].
  rewrite !filter_cons.
  destruct (decide (entry_id x ∉ ids)) as [Hx|Hx];
    destruct (decide (tagged document_id (entry_doc x) ≠ true)) as [Ht|Ht].
  - f_equal. apply IH. intros e He. apply H. by right.
  - exfalso. apply Ht, H; [left|done].
  - exfalso. apply Hx, H; [left|done].
  - apply IH. intros e He. apply H. by right.
Qed.

Lemma store_inv_delete (io : IO) (document_id : string) (w : World) :
  store_inv w → store_inv (delete_document io document_id w).2.
Proof.
  intros Hinv.
  destruct (_document_metadata (self w) !! document_id) as [dm|] eqn:Hdm;
    [|by rewrite delete_document_unknown].
  rewrite delete_document_known by eauto. simpl.
  apply store_inv_save_store.
  destruct Hinv as ([Hnd Hlt] & Hown & Hcnt).
  destruct (_vector_store (self w)) as [f|] eqn:Ef; simpl in *.
  - assert (Hw : chunks w = entries f) by (unfold chunks; by rewrite Ef).
    split_and!.
    + split; simpl.
      * eapply sublist_NoDup; [exact Hnd|].
        apply (fmap_sublist entry_id), sublist_filter.
      * apply Forall_forall. intros e [_ He]%list_elem_of_filter.
        rewrite Forall_forall in Hlt. by apply Hlt.
    + intros e He. unfold chunks in He. simpl in He.
      rewrite without_entries in He by done.
      apply list_elem_of_filter in He as [Hnt He].
      rewrite <- Hw in He. destruct (Hown e He) as (d & Hd & Hsome).
      exists d. split; [done|]. simpl.
      rewrite lookup_delete_ne; [done|]. by intros ->.
    + intros id dm' Hdm'. simpl in Hdm'.
      apply lookup_delete_Some in Hdm' as [Hne Hdm'].
      rewrite (Hcnt _ _ Hdm'). unfold stored_chunk_count. rewrite Hw.
      unfold chunks. simpl. rewrite without_entries by done.
      rewrite list_filter_filter_l; [done|].
      intros e Ht Ht'. apply Hne. by eapply tagged_inj.
  - split_and!.
    + split; simpl; constructor.
    + by intros e ?%elem_of_nil.
    + intros id dm' Hdm'. simpl in Hdm'.
      apply lookup_delete_Some in Hdm' as [_ Hdm'].
      rewrite (Hcnt _ _ Hdm'). unfold stored_chunk_count, chunks. simpl.
      by rewrite Ef.
Qed.

Lemma store_inv_clear (io : IO) (w : World) :
  store_inv (clear io w).2.
Proof.
  unfold clear. destruct (unlink_ok io); simpl.
  all: split_and!;
    [ split; simpl; constructor
    | by intros e ?%elem_of_nil
    | intros id dm H; simpl in H; by rewrite lookup_empty in H ].
Qed.

Lemma reachable_store_inv (w : World) : reachable embed w → store_inv w.
Proof.
  induction 1 as [|io texts metadatas dm w _ IH Hwf|io id w _ IH|io w _ IH].
  - apply store_inv_init.
  - by apply store_inv_insert.
  - by apply store_inv_delete.
  - apply store_inv_clear.
Qed.

(** C3 (amended): in every state reached from the empty store by inserts
    under a document id the metadata map does not hold yet (each with its
    chunks tagged with that id and their number as [chunk_count]), by
    [delete_document] and by [clear], the [chunk_count] of every record
    of the metadata map is the number of stored chunks tagged with its
    document id. *)
Theorem chunk_count_invariant (w : World) :
  reachable embed w →
  ∀ document_id dm,
    get_document document_id w = Some dm →
    chunk_count dm = stored_chunk_count document_id w.
Proof.
  intros Hreach id dm Hdm.
  by apply (reachable_store_inv w Hreach).
Qed.

End ChunkCount.

Lemma chunk_count_invariant_witness :
  vector_store.chunk_count (sample.record "doc_a" 2)
  = vector_store.stored_chunk_count "doc_a" sample.one_document.
Proof.
  apply (chunk_count_invariant sample.embed sample.one_document).
  - apply (reachable_insert sample.embed vector_store.io_ok ["sky"; "ocean"]
             [sample.chunk_meta "doc_a" 0; sample.chunk_meta "doc_a" 1]
             (sample.record "doc_a" 2) vector_store.init).
    + apply reachable_init.
    + split; [reflexivity|]. split; [|reflexivity].
      repeat constructor.
  - reflexivity.
Defined.

(** C3, as stated, fails when a document id is inserted again: the record
    is overwritten with the size of the new batch while the chunks of the
    earlier batch stay in the index. *)
Lemma reinsert_breaks_chunk_count :
  let w1 := sample.one_document in
  let w2 := (vector_store.add_documents sample.embed vector_store.io_ok
               ["river"] [sample.chunk_meta "doc_a" 0] (sample.record "doc_a" 1)
               w1).2 in
  vector_store.get_document "doc_a" w2 = Some (sample.record "doc_a" 1)
  ∧ vector_store.stored_chunk_count "doc_a" w2 = 3%nat
  ∧ ¬ (∀ document_id dm,
         vector_store.get_document document_id w2 = Some dm →
         vector_store.chunk_count dm
         = vector_store.stored_chunk_count document_id w2).
Proof.
  split; [reflexivity|]. split; [reflexivity|].
  intros H. specialize (H "doc_a" (sample.record "doc_a" 1) eq_refl).
  vm_compute in H. discriminate H.
Qed.

(** ** Vector index store: failures of persistence *)

Section Persistence.
Import vector_store.
Variable embed : string → list Q.

(** What [_save_store] leaves behind, by what the file system allows: a
    save of the index that fails does not reach [metadata.json], and
    leaves the files of the index as they were or cut short; a write of
    [metadata.json] that fails comes after the index is saved, and leaves
    the file as it was or cut short. *)
Lemma save_store_outcome (io : IO) (w : World) (f : FAISS) :
  _vector_store (self w) = Some f →
  let w' := _save_store io w in
  (save_local_ok io = false →
     error_log w' = error_log w ++ [Failed_to_save_vector_store]
     ∧ metadata_file (files w') = metadata_file (files w)
     ∧ index_file (files w')
       = if save_local_cut_short io then Some cut_short
         else index_file (files w))
  ∧ (save_local_ok io = true → write_metadata_ok io = false →
     error_log w' = error_log w ++ [Failed_to_save_metadata]
     ∧ index_file (files w') = Some (holds f)
     ∧ metadata_file (files w')
       = if write_metadata_cut_short io then Some cut_short
         else metadata_file (files w))
  ∧ (save_local_ok io = true → write_metadata_ok io = true →
     files w' = {| index_file := Some (holds f);
                   metadata_file :=
                     Some (holds (_document_metadata (self w))) |}
     ∧ error_log w' = error_log w).
Proof.
  intros Hf. unfold _save_store, _save_metadata, save_local, write_metadata.
  rewrite Hf.
  destruct (save_local_ok io), (write_metadata_ok io),
    (save_local_cut_short io), (write_metadata_cut_short io); simpl;
    split_and!; intros; try done.
Qed.

(** C2 (amended): a failure to persist the index or the metadata is not
    surfaced by [add_documents] nor by [delete_document]: the call
    returns what it returns, and leaves the singleton as it leaves it,
    when persistence succeeds.  The failure is caught by the store and
    written to the log at error level, whether it leaves the file as it
    was or cut short. *)
Theorem persistence_failure_is_logged_not_raised (io : IO) (w : World) :
  (∀ texts metadatas dm,
     let outcome := add_documents embed io texts metadatas dm w in
     let reference := add_documents embed io_ok texts metadatas dm w in
     outcome.1 = reference.1 ∧ self outcome.2 = self reference.2
     ∧ (∀ ids, outcome.1 = Py.Return ids →
          (save_local_ok io = false →
             error_log outcome.2
             = error_log w ++ [Failed_to_save_vector_store])
          ∧ (save_local_ok io = true → write_metadata_ok io = false →
             error_log outcome.2
             = error_log w ++ [Failed_to_save_metadata])))
  ∧ (∀ document_id,
       let outcome := delete_document io document_id w in
       let reference := delete_document io_ok document_id w in
       outcome.1 = reference.1 ∧ self outcome.2 = self reference.2
       ∧ (outcome.1 = Py.Return true → _vector_store (self w) ≠ None →
            (save_local_ok io = false →
               error_log outcome.2
               = error_log w ++ [Failed_to_save_vector_store])
            ∧ (save_local_ok io = true → write_metadata_ok io = false →
               error_log outcome.2
               = error_log w ++ [Failed_to_save_metadata]))).
Proof.
  split.
  - intros texts metadatas dm.
    destruct (decide (zip_with Build_Document texts metadatas = []))
      as [He|Hne].
    + unfold add_documents. rewrite He.
      destruct (_vector_store (self w)); simpl; split_and!; try done.
    + rewrite !add_documents_batch by done. simpl.
      rewrite !self_save_store. split_and!; try done.
      intros ids _.
      match goal with
      | |- context [_save_store io ?w0] =>
          destruct (save_store_outcome io w0 _ eq_refl) as (H1 & H2 & _)
      end.
      split; [intros Hs; by destruct (H1 Hs) as (? & _)|]. intros Hs Hm.
      by destruct (H2 Hs Hm) as (? & _).
  - intros document_id.
    destruct (_document_metadata (self w) !! document_id) as [dm|] eqn:Hdm.
    + rewrite !delete_document_known by eauto. simpl.
      rewrite !self_save_store. split_and!; try done.
      intros _ Hsome.
      destruct (_vector_store (self w)) as [f|] eqn:Ef; [|done].
      match goal with
      | |- context [_save_store io ?w0] =>
          destruct (save_store_outcome io w0 _ eq_refl) as (H1 & H2 & _)
      end.
      split; [intros Hs; by destruct (H1 Hs) as (? & _)|]. intros Hs Hm.
      by destruct (H2 Hs Hm) as (? & _).
    + rewrite !delete_document_unknown by done. simpl.
      split_and!; try done.
Qed.

End Persistence.

Lemma persistence_failure_is_logged_not_raised_witness :
  let outcome :=
    vector_store.add_documents sample.embed sample.io_save_cut_short
      ["sky"] [sample.chunk_meta "doc_a" 0] (sample.record "doc_a" 1)
      vector_store.init in
  vector_store.error_log outcome.2
  = [vector_store.Failed_to_save_vector_store].
Proof.
  apply (proj1 (proj2 (proj2 (proj1
           (persistence_failure_is_logged_not_raised sample.embed
              sample.io_save_cut_short vector_store.init)
           ["sky"] [sample.chunk_meta "doc_a" 0] (sample.record "doc_a" 1)))
         ["doc_a_chunk_0"] eq_refl)).
  reflexivity.
Defined.

(** C2, as stated, fails: on a file system on which saving the index fails,
    [add_documents] returns the chunk ids as on success, and
    [delete_document] returns [True]; the failure is in the log only, and
    the singleton holds what the files do not. *)
Lemma persistence_failure_is_not_surfaced :
  let added :=
    vector_store.add_documents sample.embed sample.io_save_cut_short
      ["sky"] [sample.chunk_meta "doc_a" 0] (sample.record "doc_a" 1)
      vector_store.init in
  let deleted :=
    vector_store.delete_document sample.io_save_cut_short "doc_a"
      sample.one_document in
  added.1 = Py.Return ["doc_a_chunk_0"]
  ∧ vector_store.error_log added.2
    = [vector_store.Failed_to_save_vector_store]
  ∧ vector_store.get_document "doc_a" added.2 = Some (sample.record "doc_a" 1)
  ∧ vector_store.metadata_file (vector_store.files added.2) = None
  ∧ deleted.1 = Py.Return true
  ∧ vector_store.error_log deleted.2
    = [vector_store.Failed_to_save_vector_store]
  ∧ vector_store.get_document "doc_a" deleted.2 = None
  ∧ vector_store.metadata_file (vector_store.files deleted.2)
    = vector_store.metadata_file (vector_store.files sample.one_document).
Proof. vm_compute. repeat split. Qed.

(** ** Vector index store: mutations from several threads *)

Section Threads.
Import vector_store threads.
Variable embed : string → list Q.

(** Run with no other thread around, the steps of a call add up to the
    method. *)
Lemma finish_thread_of (c : call) (s : Shared) :
  finish (thread_of embed c) s = set_world (method_of embed c (world s)) s.
Proof.
  destruct s as [[[v m] d lg] l i].
  destruct c as [io texts metadatas dm|io id|io].
  - simpl. unfold add_documents. simpl.
    destruct v as [f|]; simpl.
    + unfold update. simpl.
      destruct (faiss_add_documents embed _ f) as [f'|e]; simpl; [|done].
      unfold _save_store. simpl.
      by destruct (save_local_ok io).
    + destruct (from_documents embed _) as [f'|e]; simpl; [|done].
      unfold _save_store. simpl.
      by destruct (save_local_ok io).
  - simpl. unfold delete_document. simpl.
    destruct (m !! id) as [dm|] eqn:Hdm; simpl; [|done].
    destruct v as [f|]; simpl.
    + destruct (docs_to_delete id f) as [|j ids] eqn:Eids; simpl.
      * rewrite Hdm. unfold _save_store. simpl.
        by destruct (save_local_ok io).
      * unfold update. simpl.
        destruct (faiss_delete (j :: ids) f) as [f'|e]; simpl; [|done].
        rewrite Hdm. unfold _save_store. simpl.
        by destruct (save_local_ok io).
    + by rewrite Hdm.
  - simpl. unfold clear. by destruct (unlink_ok io).
Qed.

Lemma save_store_thread_oblivious (io : IO) (k : Thread) :
  lock_oblivious k → lock_oblivious (_save_store_thread io k).
Proof.
  intros Hk. constructor; [done|done|]. intros s.
  destruct (_vector_store (self (world s))); [|done].
  destruct (save_local_ok io); [|done]. by constructor.
Qed.

Lemma thread_of_oblivious (c : call) : lock_oblivious (thread_of embed c).
Proof.
  assert (Hsave : ∀ io, lock_oblivious (_save_store_thread io Done)).
  { intros io. apply save_store_thread_oblivious. constructor. }
  destruct c as [io texts metadatas dm|io id|io]; simpl.
  - constructor; [done|done|]. intros s.
    destruct (_vector_store (self (world s))).
    + constructor; [done|done|]. intros s'.
      destruct (_vector_store (self (world s'))); [|constructor].
      destruct (faiss_add_documents embed _ _); [|constructor].
      by constructor.
    + destruct (from_documents embed _); [|constructor].
      constructor; [done|done|]. intros _. by constructor.
  - assert (Hremove : ∀ k, (∀ s, lock_oblivious (k s)) →
              (∀ s b, k (set_lock b s) = k s) →
              lock_oblivious
                (Step (update (fun w =>
                         set_document_metadata
                           (delete id (_document_metadata (self w))) w)) k)).
    { intros k Hk Hkb. by constructor. }
    constructor; [done|done|]. intros s.
    destruct (_document_metadata (self (world s)) !! id); [|constructor].
    constructor; [done|done|]. intros s'.
    assert (Hr : lock_oblivious
              (Step (update (fun w =>
                       set_document_metadata
                         (delete id (_document_metadata (self w))) w))
                    (fun s =>
                       match _document_metadata (self (world s)) !! id with
                       | Some _ => _save_store_thread io Done
                       | None => Done
                       end))).
    { apply Hremove; [|done]. intros s''.
      destruct (_document_metadata (self (world s'')) !! id);
        [apply Hsave|constructor]. }
    destruct (_vector_store (self (world s'))) as [f|]; [|exact Hr].
    destruct (docs_to_delete id f) as [|j ids]; [exact Hr|].
    constructor; [done|done|]. intros s''.
    destruct (_vector_store (self (world s''))); [|constructor].
    destruct (faiss_delete _ _); [exact Hr|constructor].
  - constructor; [done|done|]. intros _.
    constructor; [done|done|]. intros _.
    constructor; [done|done|]. intros _. constructor.
Qed.

Lemma step_oblivious (i : nat) (ts : list Thread) (s : Shared) (b : bool) :
  Forall lock_oblivious ts →
  step i ts (set_lock b s) = (set_lock b (step i ts s).1, (step i ts s).2)
  ∧ Forall lock_oblivious (step i ts s).2.
Proof.
  intros Hts. unfold step.
  destruct (ts !! i) as [[|act next]|] eqn:Ei; simpl; try done.
  assert (Ht : lock_oblivious (Step act next)).
  { rewrite Forall_forall in Hts. apply Hts.
    by eapply list_elem_of_lookup_2. }
  inversion Ht as [|? ? Hact Hnext Hall]; subst.
  rewrite Hact, Hnext. destruct (act s) as [s'|]; simpl; [|done].
  split; [done|]. by apply Forall_insert.
Qed.

Lemma run_oblivious (schedule : list nat) (ts : list Thread) (s : Shared)
    (b : bool) :
  Forall lock_oblivious ts →
  run schedule ts (set_lock b s)
  = (set_lock b (run schedule ts s).1, (run schedule ts s).2).
Proof.
  revert ts s. induction schedule as [|i schedule IH]; intros ts s Hts.
  - done.
  - simpl. destruct (step_oblivious i ts s b Hts) as [-> Hts'].
    destruct (step i ts s) as [s' ts']. simpl in *. by apply IH.
Qed.

(** C9 (amended): [add_documents], [delete_document] and [clear] acquire
    no lock.  Made with no other thread around, a call does what the
    method does; made among other such calls, in whatever order their
    steps are scheduled, it runs the same whether the lock of the class
    is held or free, and leaves the lock as it found it. *)
Theorem mutations_take_no_lock :
  (∀ (c : call) (s : Shared),
     finish (thread_of embed c) s
     = set_world (method_of embed c (world s)) s)
  ∧ (∀ (calls : list call) (schedule : list nat) (s : Shared) (b : bool),
       let threads := map (thread_of embed) calls in
       run schedule threads (set_lock b s)
       = (set_lock b (run schedule threads s).1,
          (run schedule threads s).2)).
Proof.
  split; [apply finish_thread_of|].
  intros calls schedule s b threads. apply run_oblivious.
  apply Forall_forall. intros t (c & -> & _)%list_elem_of_fmap.
  apply thread_of_oblivious.
Qed.

End Threads.

(** The lock does make [__new__] wait: while another thread holds it, the
    thread creating the singleton stops at its [with] statement. *)
Example new_waits_for_the_lock :
  threads.finish threads.new_thread
    {| threads.world := vector_store.init; threads.lock_held := true;
       threads.instance_created := false |}
  = {| threads.world := vector_store.init; threads.lock_held := true;
       threads.instance_created := false |}
  ∧ threads.finish threads.new_thread
      {| threads.world := vector_store.init; threads.lock_held := false;
         threads.instance_created := false |}
    = {| threads.world := vector_store.init; threads.lock_held := false;
         threads.instance_created := true |}.
Proof. split; reflexivity. Qed.

(** C9, as stated, fails: two first inserts made from two threads
    interleave.  Both find the index uninitialized; the index built by the
    second replaces the one built by the first, so the chunk of [doc_a] is
    lost while its record stays, which neither order of the two calls one
    after the other produces. *)
Lemma concurrent_inserts_interleave :
  let a := threads.Add vector_store.io_ok ["sky"]
             [sample.chunk_meta "doc_a" 0] (sample.record "doc_a" 1) in
  let b := threads.Add vector_store.io_ok ["ocean"]
             [sample.chunk_meta "doc_b" 0] (sample.record "doc_b" 1) in
  let s0 := {| threads.world := vector_store.init;
               threads.lock_held := false;
               threads.instance_created := true |} in
  let after := threads.run [0; 1; 0; 0; 0; 0; 1; 1; 1; 1]%nat
                 [threads.thread_of sample.embed a;
                  threads.thread_of sample.embed b] s0 in
  let w := threads.world after.1 in
  after.2 = [threads.Done; threads.Done]
  ∧ vector_store.get_document "doc_a" w = Some (sample.record "doc_a" 1)
  ∧ vector_store.stored_chunk_count "doc_a" w = 0%nat
  ∧ w ≠ threads.method_of sample.embed b
          (threads.method_of sample.embed a vector_store.init)
  ∧ w ≠ threads.method_of sample.embed a
          (threads.method_of sample.embed b vector_store.init).
Proof.
  split; [reflexivity|]. split; [reflexivity|]. split; [reflexivity|].
  split; intros H;
    apply (f_equal (vector_store.stored_chunk_count "doc_a")) in H;
    vm_compute in H; discriminate H.
Qed.

Lemma similarity_search_spec_witness :
  vector_store.similarity_search_call sample.embed config.default_settings
    "sky" 2 (Some 1%Q) sample.one_document
  = Py.Return
      (vector_store.similarity_search sample.embed config.default_settings
         "sky" 2 (Some 1%Q) sample.one_document)
  ∧ length
      (vector_store.similarity_search sample.embed config.default_settings
         "sky" 2 (Some 1%Q) sample.one_document) = 1%nat.
Proof.
  destruct (proj2 (similarity_search_spec sample.embed
                     config.default_settings "sky" 2 (Some 1%Q)
                     sample.one_document)) as (H1 & _ & H3 & _); [lia|].
  split; [exact H1|]. rewrite H3. reflexivity.
Defined.

(** Chunks at the same distance from the query are returned in the order
    in which they were inserted. *)
Example equidistant_chunks_in_insertion_order :
  let w := (vector_store.add_documents sample.embed vector_store.io_ok
              ["sun"; "sky"; "sea"]
              [sample.chunk_meta "doc_a" 0; sample.chunk_meta "doc_a" 1;
               sample.chunk_meta "doc_a" 2]
              (sample.record "doc_a" 3) vector_store.init).2 in
  map (fun hit => vector_store.page_content hit.1)
      (vector_store.similarity_search sample.embed config.default_settings
         "sea" 2 None w)
  = ["sun"; "sky"].
Proof. reflexivity. Qed.

(** C1, as stated, fails for [k = 0]: on an initialized index the call
    does not return the empty list, it raises the [AssertionError] of the
    index. *)
Lemma search_for_no_hit_raises :
  vector_store.similarity_search_call sample.embed config.default_settings
    "sky" 0 None sample.one_document
  = Py.Raise Py.AssertionError.
Proof. reflexivity. Qed.


(* ===================================================================== *)
(** * Further properties *)
(* ===================================================================== *)

(** ** Conversation memory: sessions *)

Section Sessions.
Import conversation.

Lemma list_sessions_elem (s : string) (h : Histories) :
  s ∈ (list_sessions h).1 ↔ is_Some (h !! s).
Proof.
  unfold list_sessions. simpl. rewrite list_elem_of_fmap. split.
  - intros ([s' l] & -> & Hin). apply elem_of_map_to_list in Hin. eauto.
  - intros [l Hl]. exists (s, l). split; [done|]. by apply elem_of_map_to_list.
Qed.

Lemma get_history_state_lookup (s s' : string) (h : Histories) :
  (get_history s h).2 !! s'
  = if decide (s = s') then Some (default [] (h !! s)) else h !! s'.
Proof.
  unfold get_history. simpl. destruct (h !! s) eqn:E; simpl.
  - case_decide; [by subst|done].
  - case_decide; [subst; by rewrite lookup_insert_eq|by rewrite lookup_insert_ne].
Qed.

(** X1: a call that names a session leaves the history of every other
    session as it was; so does [list_sessions]. *)
Theorem other_sessions_untouched (o : op) (h : Histories) (s : string) :
  o ≠ ClearAll → session_of o ≠ Some s → exec o h !! s = h !! s.
Proof.
  intros Hall Hs. destruct o as [s'|s' n|s' u a|s'| |];
    unfold exec, session_of in *; try done; assert (s' ≠ s) by congruence.
  - rewrite get_history_state_lookup. by case_decide.
  - rewrite get_recent_context_state, get_history_state_lookup. by case_decide.
  - by apply add_turn_lookup_ne.
  - unfold clear_session. simpl. case_bool_decide; [|done].
    by rewrite lookup_delete_ne.
Qed.

Lemma other_sessions_untouched_witness :
  exec (AddTurn "b" "q" "a") (add_turn "a" "q1" "a1" init) !! "a"
  = add_turn "a" "q1" "a1" init !! "a".
Proof.
  apply (other_sessions_untouched (AddTurn "b" "q" "a")
           (add_turn "a" "q1" "a1" init) "a"); simpl; congruence.
Defined.

(** X2: asking for the history or the recent context of a session never
    seen registers it: the answer is empty, and from then on the session
    is listed and [clear_session] reports it as existing, although no turn
    was added. *)
Theorem reading_registers_the_session (s : string) (n_turns : Z)
    (h : Histories) :
  h !! s = None →
  let asked := get_recent_context s n_turns h in
  fst asked = ""
  ∧ snd asked = snd (get_history s h)
  ∧ fst (get_history s h) = []
  ∧ s ∈ fst (list_sessions (snd asked))
  ∧ (s ∉ fst (list_sessions h))
  ∧ fst (clear_session s (snd asked)) = true
  ∧ fst (clear_session s h) = false.
Proof.
  intros Hs asked. subst asked.
  assert (Hst : (get_history s h).2 = <[s := []]> h).
  { unfold get_history. by rewrite Hs. }
  assert (Hl : (get_history s h).1 = []).
  { by rewrite get_history_lookup, Hs. }
  rewrite get_recent_context_state, Hst. split_and!; try done.
  - unfold get_recent_context.
    destruct (get_history s h) as [l h'] eqn:E. simpl in Hl. by subst l.
  - apply list_sessions_elem. rewrite lookup_insert_eq. eauto.
  - rewrite list_sessions_elem, Hs. by intros [? ?].
  - unfold clear_session. simpl. apply bool_decide_eq_true.
    rewrite lookup_insert_eq. eauto.
  - unfold clear_session. simpl. apply bool_decide_eq_false.
    rewrite Hs. by intros [? ?].
Qed.

Lemma reading_registers_the_session_witness :
  fst (get_recent_context "s" 3 init) = ""
  ∧ "s" ∈ fst (list_sessions (snd (get_recent_context "s" 3 init)))
  ∧ fst (clear_session "s" (snd (get_recent_context "s" 3 init))) = true.
Proof.
  destruct (reading_registers_the_session "s" 3 init)
    as (H1 & _ & _ & H4 & _ & H6 & _).
  - reflexivity.
  - exact (conj H1 (conj H4 H6)).
Defined.

Lemma get_recent_context_slice (s : string) (n_turns : Z) (h : Histories)
    (l : list Message) :
  h !! s = Some l →
  get_recent_context s n_turns h
  = (Py.join Py.nl (map render (Py.slice_from (- (n_turns * 2)) l)), h).
Proof.
  intros Hl. unfold get_recent_context, get_history. rewrite Hl.
  rewrite (lookup_total_correct _ _ _ Hl).
  destruct l as [|m l']; [|done].
  unfold Py.slice_from. destruct (_ <? 0); by rewrite ?drop_nil.
Qed.

(** X3: for a session that has a history, [get_recent_context] renders
    its last [2 * n_turns] messages when [n_turns] is positive, the whole
    history when [n_turns] is zero, and the history without its first
    [2 * |n_turns|] messages when [n_turns] is negative; it changes
    nothing in the manager. *)
Theorem recent_context_window (s : string) (n_turns : Z) (h : Histories)
    (l : list Message) :
  h !! s = Some l →
  get_recent_context s n_turns h
  = (Py.join Py.nl (map render (recent_window n_turns l)), h).
Proof.
  intros Hl. rewrite (get_recent_context_slice s n_turns h l Hl).
  do 3 f_equal. unfold Py.slice_from, recent_window.
  destruct (Z.eqb_spec n_turns 0) as [->|Hn0]; [done|].
  destruct (Z.ltb_spec 0 n_turns) as [Hpos|Hneg].
  - destruct (Z.ltb_spec (- (n_turns * 2)) 0); [|lia].
    unfold keep. f_equal. lia.
  - destruct (Z.ltb_spec (- (n_turns * 2)) 0); [lia|].
    f_equal. lia.
Qed.

Lemma recent_context_window_witness :
  get_recent_context "s" 0 (add_turn "s" "q1" "a1" init)
  = ("Human: q1" +:+ Py.nl +:+ "Assistant: a1", add_turn "s" "q1" "a1" init).
Proof.
  apply (recent_context_window "s" 0 (add_turn "s" "q1" "a1" init)
           [ {| role := user; content := "q1" |};
             {| role := assistant; content := "a1" |} ]).
  reflexivity.
Defined.

(** X4: [clear_session] reports whether the session was listed; once it
    has run the session is not listed, its history reads as empty, and
    clearing it again reports [False]. *)
Theorem clear_session_forgets (s : string) (h : Histories) :
  let cleared := clear_session s h in
  (fst cleared = true ↔ s ∈ fst (list_sessions h))
  ∧ (s ∉ fst (list_sessions (snd cleared)))
  ∧ fst (get_history s (snd cleared)) = []
  ∧ fst (clear_session s (snd cleared)) = false.
Proof.
  intros cleared. subst cleared.
  assert (Hgone : (clear_session s h).2 !! s = None).
  { unfold clear_session. simpl. case_bool_decide as Hs.
    - apply lookup_delete_eq.
    - by apply eq_None_not_Some. }
  assert (Hb : (clear_session s h).1 = bool_decide (is_Some (h !! s))) by done.
  destruct (clear_session s h) as [b h']. cbn [fst snd] in *.
  split_and!.
  - rewrite list_sessions_elem, Hb. apply bool_decide_eq_true.
  - rewrite list_sessions_elem, Hgone. by intros [? ?].
  - by rewrite get_history_lookup, Hgone.
  - unfold clear_session. simpl. apply bool_decide_eq_false.
    rewrite Hgone. by intros [? ?].
Qed.

(** X5: [clear_all] returns the number of sessions that were listed, and
    leaves no session listed and every history reading as empty. *)
Theorem clear_all_forgets (h : Histories) :
  (clear_all h).1 = length (list_sessions h).1
  ∧ (list_sessions (clear_all h).2).1 = []
  ∧ ∀ s, (get_history s (clear_all h).2).1 = [].
Proof.
  split_and!.
  - unfold clear_all, list_sessions. simpl.
    by rewrite length_map, length_map_to_list.
  - unfold clear_all, list_sessions. simpl. by rewrite map_to_list_empty.
  - intros s. rewrite get_history_lookup. unfold clear_all. simpl.
    by rewrite lookup_empty.
Qed.

(** X6: right after [add_turn], the recent context of one turn is exactly
    that turn, whatever the session held before. *)
Theorem last_turn_is_the_recent_context (s u a : string) (h : Histories) :
  (get_recent_context s 1 (add_turn s u a h)).1
  = "Human: " +:+ u +:+ Py.nl +:+ "Assistant: " +:+ a.
Proof.
  rewrite (get_recent_context_slice s 1 _ _ (add_turn_lookup s u a h)). simpl.
  set (l := default [] (h !! s)).
  set (t := [ {| role := user; content := u |};
              {| role := assistant; content := a |} ]).
  assert (Hk : keep 2 (keep 20 (l ++ t)) = t).
  { unfold keep at 1. rewrite length_keep.
    unfold keep. rewrite drop_drop, length_app. simpl length.
    replace (length l + 2 - 20 + (Nat.min (length l + 2) 20 - 2))%nat
      with (length l) by lia.
    by rewrite drop_app_length. }
  replace (Py.slice_from (- (1 * 2)) (keep 20 (l ++ t)))
    with (keep 2 (keep 20 (l ++ t))).
  - by rewrite Hk.
  - unfold Py.slice_from, keep at 1. simpl (_ <? _). cbv iota. f_equal. lia.
Qed.

End Sessions.

(** ** Helpers of [app/utils.py] *)

Section Utils.

Lemma length_append (s t : string) :
  String.length (s +:+ t) = (String.length s + String.length t)%nat.
Proof. induction s as [|c s IH]; simpl; [done|]. by rewrite IH. Qed.

Lemma length_substring_0 (n : nat) (s : string) :
  String.length (String.substring 0 n s) = Nat.min n (String.length s).
Proof.
  revert n. induction s as [|c s IH]; intros [|n]; simpl; try done.
  by rewrite IH.
Qed.

(** X7: when the suffix fits in [max_length], [truncate_text] never
    returns more than [max_length] characters: a text that fits is
    returned as it is, and a longer one is cut to exactly [max_length]
    characters, the suffix included, keeping the start of the text. *)
Theorem truncate_text_fits (text suffix : string) (max_length : Z) :
  Z.of_nat (String.length suffix) ≤ max_length →
  let cut := utils.truncate_text text max_length suffix in
  Z.of_nat (String.length cut) ≤ max_length
  ∧ (Z.of_nat (String.length text) ≤ max_length → cut = text)
  ∧ (max_length < Z.of_nat (String.length text) →
     Z.of_nat (String.length cut) = max_length
     ∧ cut = String.substring 0
               (Z.to_nat max_length - String.length suffix) text
             +:+ suffix).
Proof.
  intros Hfit cut. subst cut. unfold utils.truncate_text.
  destruct (Z.leb_spec (Z.of_nat (String.length text)) max_length) as [Hle|Hgt].
  - split_and!; [done|done|lia].
  - unfold Py.str_slice_to.
    destruct (Z.ltb_spec (max_length - Z.of_nat (String.length suffix)) 0);
      [lia|].
    replace (Z.to_nat (max_length - Z.of_nat (String.length suffix)))
      with (Z.to_nat max_length - String.length suffix)%nat by lia.
    assert (Hlen : Z.of_nat (String.length
                     (String.substring 0
                        (Z.to_nat max_length - String.length suffix) text
                      +:+ suffix)) = max_length).
    { rewrite length_append, length_substring_0. lia. }
    split_and!; [lia|lia|done].
Qed.

Lemma truncate_text_fits_witness :
  Z.of_nat (String.length (utils.truncate_text "abcdefghij" 8 "...")) ≤ 8.
Proof.
  apply (truncate_text_fits "abcdefghij" "..." 8). simpl. lia.
Defined.

Lemma occurs_cons (c a : Ascii.ascii) (s : string) :
  occurs c (String a s) ↔ c = a ∨ occurs c s.
Proof. unfold occurs. simpl. apply elem_of_cons. Qed.

Lemma occurs_nil (c : Ascii.ascii) : ¬ occurs c EmptyString.
Proof. unfold occurs. simpl. apply not_elem_of_nil. Qed.

Lemma occurs_lstrip (c : Ascii.ascii) (s : string) :
  occurs c (Py.lstrip s) → occurs c s.
Proof.
  induction s as [|a s IH]; simpl; [done|].
  destruct (Py.is_space a); [|done].
  intros H. apply occurs_cons. right. by apply IH.
Qed.

Lemma occurs_rstrip (c : Ascii.ascii) (s : string) :
  occurs c (Py.rstrip s) → occurs c s.
Proof.
  induction s as [|a s IH]; simpl; [done|].
  destruct (Py.rstrip s) as [|b r] eqn:E.
  - destruct (Py.is_space a); [by intros ?%occurs_nil|].
    intros [->|?%occurs_nil]%occurs_cons; [|done]. apply occurs_cons. by left.
  - intros [->|H]%occurs_cons; apply occurs_cons; [by left|right; by apply IH].
Qed.

Lemma occurs_replace_char (c old new : Ascii.ascii) (s : string) :
  occurs c (Py.replace_char old (String new EmptyString) s) →
  c = new ∨ (c ≠ old ∧ occurs c s).
Proof.
  induction s as [|a s IH]; simpl; [by intros ?%occurs_nil|].
  destruct (Ascii.eqb_spec a old) as [->|Hne]; simpl.
  - intros [->|H]%occurs_cons; [by left|].
    destruct (IH H) as [->|[? ?]]; [by left|right].
    split; [done|]. apply occurs_cons. by right.
  - intros [->|H]%occurs_cons.
    + right. split; [done|]. apply occurs_cons. by left.
    + destruct (IH H) as [->|[? ?]]; [by left|right].
      split; [done|]. apply occurs_cons. by right.
Qed.

Lemma occurs_replace_all (c new : Ascii.ascii) (olds : list Ascii.ascii)
    (s : string) :
  occurs c (foldl (fun f old => Py.replace_char old (String new EmptyString) f)
                  s olds) →
  c = new ∨ ((c ∉ olds) ∧ occurs c s).
Proof.
  revert s. induction olds as [|old olds IH]; intros s; simpl.
  - intros H. right. split; [apply not_elem_of_nil|done].
  - intros H. destruct (IH _ H) as [->|[Hnot Hocc]]; [by left|].
    destruct (occurs_replace_char _ _ _ _ Hocc) as [->|[Hne Hs]]; [by left|].
    right. split; [|done]. by apply not_elem_of_cons.
Qed.

Lemma replace_char_absent (old : Ascii.ascii) (new s : string) :
  ¬ occurs old s → Py.replace_char old new s = s.
Proof.
  induction s as [|a s IH]; simpl; [done|]. intros H.
  destruct (Ascii.eqb_spec a old) as [->|Hne].
  - exfalso. apply H, occurs_cons. by left.
  - f_equal. apply IH. intros Ho. apply H, occurs_cons. by right.
Qed.

Lemma rstrip_idemp (s : string) : Py.rstrip (Py.rstrip s) = Py.rstrip s.
Proof.
  induction s as [|a s IH]; simpl; [done|].
  destruct (Py.rstrip s) as [|b r] eqn:E.
  - destruct (Py.is_space a) eqn:Ea; simpl; [done|]. by rewrite Ea.
  - simpl. simpl in IH. by rewrite IH.
Qed.

Lemma lstrip_rstrip_lstrip (s : string) :
  Py.lstrip (Py.rstrip (Py.lstrip s)) = Py.rstrip (Py.lstrip s).
Proof.
  induction s as [|a s IH]; simpl; [done|].
  destruct (Py.is_space a) eqn:Ea; [done|]. simpl.
  destruct (Py.rstrip s) as [|b r]; rewrite ?Ea; simpl; by rewrite ?Ea.
Qed.

Lemma strip_idemp (s : string) : Py.strip (Py.strip s) = Py.strip s.
Proof.
  unfold Py.strip. by rewrite lstrip_rstrip_lstrip, rstrip_idemp.
Qed.

Lemma length_lstrip (s : string) :
  (String.length (Py.lstrip s) ≤ String.length s)%nat.
Proof.
  induction s as [|a s IH]; simpl; [done|].
  destruct (Py.is_space a); simpl; lia.
Qed.

Lemma length_rstrip (s : string) :
  (String.length (Py.rstrip s) ≤ String.length s)%nat.
Proof.
  induction s as [|a s IH]; simpl; [done|].
  destruct (Py.rstrip s); destruct (Py.is_space a); simpl in *; lia.
Qed.

Lemma length_replace_char (old new : Ascii.ascii) (s : string) :
  String.length (Py.replace_char old (String new EmptyString) s)
  = String.length s.
Proof.
  induction s as [|a s IH]; simpl; [done|].
  destruct (Ascii.eqb a old); simpl; by f_equal.
Qed.

(** X8: the name [sanitize_filename] returns holds none of the nine
    unsafe characters, is not longer than the name given, and is left as
    it is when sanitized again. *)
Theorem sanitize_filename_safe (filename : string) :
  (∀ c, c ∈ utils.unsafe_chars → ¬ occurs c (utils.sanitize_filename filename))
  ∧ (String.length (utils.sanitize_filename filename)
     ≤ String.length filename)%nat
  ∧ utils.sanitize_filename (utils.sanitize_filename filename)
    = utils.sanitize_filename filename.
Proof.
  assert (Hsafe : ∀ f c, c ∈ utils.unsafe_chars →
                    ¬ occurs c (utils.sanitize_filename f)).
  { intros f c Hc Hocc. unfold utils.sanitize_filename, Py.strip in Hocc.
    apply occurs_rstrip, occurs_lstrip, occurs_replace_all in Hocc.
    destruct Hocc as [->|[Hnot _]]; [|done].
    revert Hc. vm_compute. intros Hc.
    repeat (apply elem_of_cons in Hc as [Hc|Hc]; [discriminate Hc|]).
    by apply elem_of_nil in Hc. }
  split_and!.
  - apply Hsafe.
  - unfold utils.sanitize_filename, Py.strip.
    etrans; [apply length_rstrip|]. etrans; [apply length_lstrip|].
    generalize utils.unsafe_chars. intros cs. revert filename.
    induction cs as [|c cs IH]; intros f; simpl; [done|].
    etrans; [apply IH|]. by rewrite length_replace_char.
  - assert (Hid : ∀ cs s, (∀ c, c ∈ cs → ¬ occurs c s) →
              foldl (fun f old => Py.replace_char old "_" f) s cs = s).
    { induction cs as [|c cs IH]; intros s Hs; simpl; [done|].
      rewrite replace_char_absent by (apply Hs; left).
      apply IH. intros c' Hc'. apply Hs. by right. }
    unfold utils.sanitize_filename at 1.
    rewrite Hid by (intros c Hc; by apply Hsafe).
    unfold utils.sanitize_filename. apply strip_idemp.
Qed.

(** What a decimal numeral with leading zeros stands for. *)
Lemma decode_format_04d (i : nat) :
  Nat.of_uint <$> NilEmpty.uint_of_string (Py.format_04d i) = Some i.
Proof.
  unfold Py.format_04d.
  generalize (4 - String.length (Py.str_of_nat i))%nat. intros k.
  assert (Hs : ∃ d, NilEmpty.uint_of_string (Py.str_of_nat i) = Some d
                    ∧ Nat.of_uint d = i).
  { unfold Py.str_of_nat, NilZero.string_of_uint.
    pose proof (DecimalNat.Unsigned.of_to i) as Hi.
    destruct (Nat.to_uint i) eqn:E.
    1: { exists (Decimal.D0 Decimal.Nil). split; [done|]. by rewrite <- Hi. }
    all: rewrite NilEmpty.usu; eexists; split; [done|exact Hi]. }
  destruct Hs as (d & Hd & Hi).
  induction k as [|k IH].
  - change (Nat.of_uint <$> NilEmpty.uint_of_string (Py.str_of_nat i) = Some i).
    rewrite Hd. simpl. by rewrite Hi.
  - change (Nat.of_uint
              <$> uint_of_char (Ascii.ascii_of_nat 48)
                    (NilEmpty.uint_of_string
                       (String.string_of_list_ascii
                          (repeat (Ascii.ascii_of_nat 48) k)
                        +:+ Py.str_of_nat i)) = Some i).
    destruct (NilEmpty.uint_of_string
                (String.string_of_list_ascii
                   (repeat (Ascii.ascii_of_nat 48) k) +:+ Py.str_of_nat i))
      as [d'|]; [|done].
    exact IH.
Qed.

Lemma chunk_id_inj (document_id : string) (i j : nat) :
  utils.generate_chunk_id document_id i = utils.generate_chunk_id document_id j →
  i = j.
Proof.
  intros H. unfold utils.generate_chunk_id in H.
  apply (inj (String.app document_id)) in H.
  apply (inj (String.app "_chunk_")) in H.
  pose proof (decode_format_04d i) as Hi. rewrite H in Hi.
  rewrite decode_format_04d in Hi. congruence.
Qed.

(** X9: for one document, [generate_chunk_id] gives different chunk
    indexes different ids: the ids of the chunks of a document are
    pairwise distinct. *)
Theorem generate_chunk_id_distinct (document_id : string) :
  (∀ i j, utils.generate_chunk_id document_id i
          = utils.generate_chunk_id document_id j → i = j)
  ∧ ∀ n, NoDup (map (utils.generate_chunk_id document_id) (seq 0 n)).
Proof.
  assert (Hinj : ∀ i j, utils.generate_chunk_id document_id i
                        = utils.generate_chunk_id document_id j → i = j).
  { intros i j H. unfold utils.generate_chunk_id in H.
    apply (inj (String.app document_id)) in H.
    apply (inj (String.app "_chunk_")) in H.
    pose proof (decode_format_04d i) as Hi. rewrite H in Hi.
    rewrite decode_format_04d in Hi. congruence. }
  split; [exact Hinj|]. intros n.
  apply NoDup_fmap_2_strong; [|apply NoDup_seq].
  intros i j _ _. apply Hinj.
Qed.

End Utils.

(** ** Vector index store: what a search returns *)

Section SearchFurther.
Import vector_store.
Variable embed : string → list Q.

(** X10: every similarity [similarity_search] returns lies in (0, 1]; so a
    threshold above 1 returns nothing, whatever the index holds. *)
Theorem similarity_in_unit_interval (settings : config.Settings)
    (query : string) (k : nat) (score_threshold : option Q) (w : World) :
  let hits := similarity_search embed settings query k score_threshold w in
  (∀ doc s, (doc, s) ∈ hits → (0 < s)%Q ∧ (s <= 1)%Q)
  ∧ ((1 < Py.float_or score_threshold
             (config.retrieval_score_threshold settings))%Q →
     hits = []).
Proof.
  intros hits.
  assert (H : ∀ doc s, (doc, s) ∈ hits →
            (0 < s)%Q ∧ (s <= 1)%Q
            ∧ (Py.float_or score_threshold
                 (config.retrieval_score_threshold settings) <= s)%Q).
  { intros doc s Hin. apply search_hit in Hin as (e & _ & _ & -> & Hle).
    split_and!; [apply to_similarity_pos | apply to_similarity_le_1 | done];
      apply l2_distance_nonneg. }
  split; [intros doc s Hin; by destruct (H _ _ Hin) as (? & ? & _)|].
  intros Ht. destruct hits as [|[doc s] rest]; [done|]. exfalso.
  destruct (H doc s) as (_ & H1 & Hle); [left|].
  apply (Qlt_irrefl 1). eapply Qlt_le_trans; [exact Ht|].
  by eapply Qle_trans.
Qed.

(** X11: asking for more results only appends: the hits for [k] are the
    first hits for any larger [k], under the same query and threshold. *)
Theorem more_results_extend_the_hits (settings : config.Settings)
    (query : string) (k k' : nat) (score_threshold : option Q) (w : World) :
  (k ≤ k')%nat →
  similarity_search embed settings query k score_threshold w
  `prefix_of` similarity_search embed settings query k' score_threshold w.
Proof.
  intros Hk. unfold similarity_search.
  destruct (_vector_store (self w)) as [f|]; [|done].
  unfold nearest.
  set (l := nearest_first _).
  rewrite <- (take_drop k (take k' l)), take_take.
  replace (Nat.min k k') with k by lia.
  rewrite filter_results_app. by apply prefix_app_r.
Qed.

Lemma filter_results_threshold (t t' : Q) (results : list (Document * Q)) :
  (t <= t')%Q →
  StronglySorted distance_le results →
  Forall (fun hit => (0 <= hit.2)%Q) results →
  filter_results t' results `prefix_of` filter_results t results.
Proof.
  intros Htt. induction 1 as [|[doc d] results Hsorted IH Hhd]; intros Hpos.
  - done.
  - apply Forall_cons in Hpos as [Hd Hpos]. simpl in Hd. simpl.
    destruct (Qle_bool t' (1 / (1 + d))) eqn:E'.
    + apply Qle_bool_iff in E'.
      assert (E : Qle_bool t (1 / (1 + d)) = true).
      { apply Qle_bool_iff. by eapply Qle_trans. }
      rewrite E. apply prefix_cons. by apply IH.
    + rewrite filter_results_none; [apply prefix_nil|].
      intros doc' d' Hin Hle.
      rewrite Forall_forall in Hhd. specialize (Hhd _ Hin).
      unfold distance_le in Hhd. simpl in Hhd.
      assert (Hc : (t' <= 1 / (1 + d))%Q).
      { eapply Qle_trans; [exact Hle|]. by apply to_similarity_antitone. }
      apply Qle_bool_iff in Hc. congruence.
Qed.

(** X12: raising the threshold only cuts the tail: the hits for a higher
    threshold are the first hits for any lower one, under the same query
    and [k]. *)
Theorem higher_threshold_cuts_the_tail (settings : config.Settings)
    (query : string) (k : nat) (t t' : option Q) (w : World) :
  (Py.float_or t (config.retrieval_score_threshold settings)
   <= Py.float_or t' (config.retrieval_score_threshold settings))%Q →
  similarity_search embed settings query k t' w
  `prefix_of` similarity_search embed settings query k t w.
Proof.
  intros Ht. unfold similarity_search.
  destruct (_vector_store (self w)) as [f|]; [|done].
  apply filter_results_threshold;
    [done | apply native_search_sorted | apply native_search_nonneg].
Qed.

End SearchFurther.

Lemma similarity_in_unit_interval_witness :
  vector_store.similarity_search sample.embed config.default_settings "sky" 5
    (Some (3 # 2)%Q) sample.one_document = [].
Proof.
  apply (similarity_in_unit_interval sample.embed config.default_settings
           "sky" 5 (Some (3 # 2)%Q) sample.one_document).
  reflexivity.
Defined.

Lemma more_results_extend_the_hits_witness :
  vector_store.similarity_search sample.embed config.default_settings "sky" 1
    (Some (1 # 10)%Q) sample.one_document
  `prefix_of` vector_store.similarity_search sample.embed config.default_settings "sky" 2
                (Some (1 # 10)%Q) sample.one_document.
Proof.
  apply (more_results_extend_the_hits sample.embed config.default_settings
           "sky" 1 2 (Some (1 # 10)%Q) sample.one_document).
  lia.
Defined.

Lemma higher_threshold_cuts_the_tail_witness :
  vector_store.similarity_search sample.embed config.default_settings "sky" 5
    (Some (1 # 2)%Q) sample.one_document
  `prefix_of` vector_store.similarity_search sample.embed config.default_settings "sky" 5
                (Some (1 # 10)%Q) sample.one_document.
Proof.
  apply (higher_threshold_cuts_the_tail sample.embed config.default_settings
           "sky" 5 (Some (1 # 10)%Q) (Some (1 # 2)%Q) sample.one_document).
  vm_compute. discriminate.
Defined.

(** ** Vector index store: after any calls *)

Section StoreFurther.
Import vector_store.
Variable embed : string → list Q.

Lemma ids_fresh_append (documents : list Document) (v : option FAISS) :
  ids_fresh v → ids_fresh (Some (faiss_append embed documents (current v))).
Proof.
  intros [Hnd Hlt]. set (f := current v) in *.
  split; simpl.
  - rewrite map_app, new_entries_ids. apply NoDup_app. split_and!.
    + done.
    + intros i (e & -> & He)%list_elem_of_fmap Hi%elem_of_seq.
      rewrite Forall_forall in Hlt. specialize (Hlt e He). lia.
    + apply NoDup_seq.
  - apply Forall_app. split.
    + eapply Forall_impl; [exact Hlt|]. simpl. intros; lia.
    + apply Forall_forall. intros e [_ He]%new_entries_elem. simpl. lia.
Qed.

Lemma ids_fresh_without (document_id : string) (v : option FAISS) :
  ids_fresh v → ids_fresh (without document_id v).
Proof.
  destruct v as [f|]; [|done]. intros [Hnd Hlt]. simpl in *.
  split; simpl.
  - eapply sublist_NoDup; [exact Hnd|].
    apply (fmap_sublist entry_id), sublist_filter.
  - apply Forall_forall. intros e [_ He]%list_elem_of_filter.
    rewrite Forall_forall in Hlt. by apply Hlt.
Qed.

Lemma new_entries_embedded (n : nat) (documents : list Document) (e : Entry) :
  e ∈ new_entries embed n documents →
  entry_vec e = embed (page_content (entry_doc e)).
Proof.
  unfold new_entries. by intros (i & d & -> & _)%elem_of_lookup_imap.
Qed.

Lemma new_entries_docs (n : nat) (documents : list Document) :
  map entry_doc (new_entries embed n documents) = documents.
Proof.
  unfold new_entries. change (map entry_doc ?l) with (entry_doc <$> l).
  rewrite fmap_imap.
  rewrite (imap_ext _ (const id)) by done.
  by rewrite imap_const, list_fmap_id.
Qed.

Lemma any_inv_method (c : threads.call) (w : World) :
  any_inv embed w → any_inv embed (threads.method_of embed c w).
Proof.
  intros (Hids & Hemb & Hkey & Hnone).
  destruct c as [io texts metadatas dm|io id|io]; simpl.
  - destruct (decide (zip_with Build_Document texts metadatas = []))
      as [He|Hne].
    { by rewrite add_documents_empty. }
    rewrite add_documents_batch by done. simpl.
    unfold any_inv, chunks_embedded, records_keyed, get_document.
    rewrite chunks_save_store, self_save_store. simpl. split_and!.
    + by apply ids_fresh_append.
    + intros e He. unfold chunks in He. simpl in He.
      apply elem_of_app in He as [He|He].
      * apply Hemb. by rewrite chunks_current.
      * by eapply new_entries_embedded.
    + intros id dm'. destruct (decide (document_id dm = id)) as [<-|Hne'].
      * rewrite lookup_insert_eq. by intros [= <-].
      * rewrite lookup_insert_ne by done. apply Hkey.
    + done.
  - destruct (_document_metadata (self w) !! id) as [dm|] eqn:Hdm;
      [|by rewrite delete_document_unknown].
    rewrite delete_document_known by eauto. simpl.
    unfold any_inv, chunks_embedded, records_keyed, get_document.
    rewrite chunks_save_store, self_save_store. simpl. split_and!.
    + by apply ids_fresh_without.
    + intros e He. apply Hemb. unfold chunks in *. simpl in He.
      destruct (_vector_store (self w)) as [f|]; simpl in He; [|done].
      by apply list_elem_of_filter in He as [_ He].
    + intros id' dm' [_ H]%lookup_delete_Some. by apply Hkey.
    + intros Hv. destruct (_vector_store (self w)) as [f|]; [done|].
      rewrite Hnone in Hdm by done. by rewrite lookup_empty in Hdm.
  - unfold clear. destruct (unlink_ok io); simpl.
    all: split_and!;
      [ split; simpl; constructor
      | by intros e ?%elem_of_nil
      | intros id' dm' H; unfold get_document in H; simpl in H;
        by rewrite lookup_empty in H
      | done ].
Qed.

Lemma any_inv_init : any_inv embed init.
Proof.
  split_and!.
  - split; simpl; constructor.
  - by intros e ?%elem_of_nil.
  - intros id dm H. unfold get_document in H. simpl in H.
    by rewrite lookup_empty in H.
  - done.
Qed.

Lemma any_inv_run (calls : list threads.call) (w : World) :
  any_inv embed w → any_inv embed (run_calls embed calls w).
Proof.
  revert w. induction calls as [|c calls IH]; intros w Hw; simpl; [done|].
  by apply IH, any_inv_method.
Qed.

(** X13: after any sequence of [add_documents], [delete_document] and
    [clear] calls on the empty store, whatever their arguments and
    whatever the file system does: every record is stored under its own
    document id, so the documents listed have pairwise distinct ids and
    are exactly those [get_document] finds; an uninitialized index goes
    with an empty list of documents; and every chunk is stored under a
    docstore id of its own, with the embedding of its text. *)
Theorem store_invariants (calls : list threads.call) :
  let w := run_calls embed calls init in
  records_keyed w
  ∧ NoDup (map document_id (get_all_documents w))
  ∧ (∀ dm, dm ∈ get_all_documents w
           ↔ get_document (document_id dm) w = Some dm)
  ∧ (_vector_store (self w) = None → get_all_documents w = [])
  ∧ NoDup (map entry_id (chunks w))
  ∧ chunks_embedded embed w.
Proof.
  intros w.
  destruct (any_inv_run calls init any_inv_init)
    as ([Hnd _] & Hemb & Hkey & Hnone).
  fold w in Hnd, Hemb, Hkey, Hnone.
  assert (Hall : ∀ dm, dm ∈ get_all_documents w
                       ↔ get_document (document_id dm) w = Some dm).
  { intros dm. unfold get_all_documents, get_document.
    rewrite list_elem_of_fmap. split.
    - intros ([id dm'] & -> & Hin). apply elem_of_map_to_list in Hin.
      simpl. by rewrite (Hkey _ _ Hin).
    - intros H. exists (document_id dm, dm). split; [done|].
      by apply elem_of_map_to_list. }
  split_and!; try done.
  - unfold get_all_documents.
    assert (Hfst : map document_id
                     (map snd (map_to_list (_document_metadata (self w))))
                   = map fst (map_to_list (_document_metadata (self w)))).
    { rewrite map_map. apply map_ext_in. intros [id dm] Hin%list_elem_of_In.
      apply elem_of_map_to_list in Hin. simpl. by apply Hkey. }
    rewrite Hfst. apply NoDup_fst_map_to_list.
  - intros Hv. unfold get_all_documents. rewrite (Hnone Hv).
    by rewrite map_to_list_empty.
  - by rewrite chunks_current.
Qed.

(** X14: [add_documents] with at least one text and one metadata dict
    returns one chunk id per metadata dict (the [chunk_id] of the dict,
    or [chunk_i] for the dict at position [i] without one), stores one
    chunk per pair of a text and a metadata dict after the chunks already
    stored, records the document, and leaves every other record as it
    was. *)
Theorem add_documents_outcome (io : IO) (texts : list string)
    (metadatas : list ChunkMeta) (dm : DocumentMetadata) (w : World) :
  texts ≠ [] → metadatas ≠ [] →
  ∃ ids w',
    add_documents embed io texts metadatas dm w = (Py.Return ids, w')
    ∧ length ids = length metadatas
    ∧ (∀ i meta, metadatas !! i = Some meta →
         ids !! i = Some (default ("chunk_" +:+ Py.str_of_nat i)
                                  (meta_chunk_id meta)))
    ∧ map entry_doc (chunks w')
      = map entry_doc (chunks w) ++ zip_with Build_Document texts metadatas
    ∧ length (chunks w')
      = (length (chunks w) + Nat.min (length texts) (length metadatas))%nat
    ∧ get_document (document_id dm) w' = Some dm
    ∧ ∀ id, id ≠ document_id dm → get_document id w' = get_document id w.
Proof.
  intros Ht Hm.
  assert (Hne : zip_with Build_Document texts metadatas ≠ []).
  { destruct texts, metadatas; done. }
  eexists _, _. split; [by apply add_documents_batch|].
  unfold get_document. rewrite chunks_save_store, self_save_store. simpl.
  assert (Hc : chunks (set_document_metadata
                 (<[document_id dm:=dm]> (_document_metadata (self w)))
                 (set_vector_store
                    (Some (faiss_append embed
                             (zip_with Build_Document texts metadatas)
                             (current (_vector_store (self w))))) w))
               = chunks w ++ new_entries embed
                               (next_id (current (_vector_store (self w))))
                               (zip_with Build_Document texts metadatas)).
  { unfold chunks at 1. simpl. by rewrite <- chunks_current. }
  rewrite Hc. split_and!.
  - apply length_imap.
  - intros i meta Hi. rewrite list_lookup_imap, Hi. done.
  - by rewrite map_app, new_entries_docs.
  - rewrite length_app, length_new_entries, length_zip_with. done.
  - apply lookup_insert_eq.
  - intros id Hid. by rewrite lookup_insert_ne.
Qed.

Lemma without_chunks (document_id : string) (w : World) :
  ids_fresh (_vector_store (self w)) →
  default [] (entries <$> without document_id (_vector_store (self w)))
  = filter (fun e => tagged document_id (entry_doc e) ≠ true) (chunks w).
Proof.
  intros [Hnd _]. unfold chunks.
  destruct (_vector_store (self w)) as [f|]; simpl in *; [|done].
  by apply without_entries.
Qed.

(** X15: after any calls, [delete_document] removes the chunks tagged
    with the document and nothing else: the other chunks stay, in their
    order, and every other record stays as it was. *)
Theorem delete_document_spares_the_rest (calls : list threads.call) (io : IO)
    (document_id : string) :
  let w := run_calls embed calls init in
  let w' := (delete_document io document_id w).2 in
  is_Some (get_document document_id w) →
  chunks w'
  = filter (fun e => tagged document_id (entry_doc e) ≠ true) (chunks w)
  ∧ (∀ id, id ≠ document_id → get_document id w' = get_document id w)
  ∧ (∀ id, id ≠ document_id →
       stored_chunk_count id w' = stored_chunk_count id w).
Proof.
  intros w w' Hknown. subst w'.
  destruct (any_inv_run calls init any_inv_init) as (Hids & _).
  fold w in Hids.
  rewrite delete_document_known by done. simpl.
  assert (Hc : chunks (_save_store io
                 (set_document_metadata
                    (delete document_id (_document_metadata (self w)))
                    (set_vector_store
                       (without document_id (_vector_store (self w))) w)))
               = filter (fun e => tagged document_id (entry_doc e) ≠ true)
                        (chunks w)).
  { rewrite chunks_save_store, <- without_chunks by done.
    unfold chunks. simpl. by destruct (without _ _). }
  split_and!.
  - exact Hc.
  - intros id Hid. unfold get_document. rewrite self_save_store. simpl.
    by rewrite lookup_delete_ne.
  - intros id Hid. unfold stored_chunk_count. rewrite Hc.
    rewrite list_filter_filter_l; [done|].
    intros e Ht Ht'. apply Hid. by eapply tagged_inj.
Qed.

(** X16: [clear] empties the singleton whether or not the files can be
    removed: no document is listed or found and every search is empty.
    When the files can be removed it returns and no file is left; when
    they cannot it raises.  In both cases the store takes new documents
    afterwards. *)
Theorem clear_forgets_everything (io : IO) (w : World) :
  let cleared := clear io w in
  get_all_documents cleared.2 = []
  ∧ (∀ id, get_document id cleared.2 = None)
  ∧ (∀ settings query k score_threshold,
       similarity_search embed settings query k score_threshold cleared.2 = [])
  ∧ (unlink_ok io = true →
       cleared.1 = Py.Return tt
       ∧ files cleared.2 = {| index_file := None; metadata_file := None |})
  ∧ (unlink_ok io = false → cleared.1 = Py.Raise Py.OSError)
  ∧ (∀ io' text texts meta metadatas dm,
       (add_documents embed io' (text :: texts) (meta :: metadatas) dm
          cleared.2).1
       = Py.Return (imap chunk_id_or_default (meta :: metadatas))).
Proof.
  intros cleared. subst cleared. unfold clear.
  destruct (unlink_ok io); simpl; split_and!; try done.
Qed.

End StoreFurther.

Lemma add_documents_outcome_witness :
  ∃ ids w',
    vector_store.add_documents sample.embed vector_store.io_ok
      ["sky"] [sample.chunk_meta "doc_a" 0; sample.chunk_meta "doc_a" 1]
      (sample.record "doc_a" 1) vector_store.init = (Py.Return ids, w')
    ∧ length ids = 2%nat
    ∧ length (vector_store.chunks w') = 1%nat.
Proof.
  destruct (add_documents_outcome sample.embed vector_store.io_ok
              ["sky"] [sample.chunk_meta "doc_a" 0; sample.chunk_meta "doc_a" 1]
              (sample.record "doc_a" 1) vector_store.init)
    as (ids & w' & H1 & H2 & _ & _ & H5 & _); [done|done|].
  exists ids, w'. split; [exact H1|]. split; [exact H2|exact H5].
Defined.

Lemma delete_document_spares_the_rest_witness :
  vector_store.stored_chunk_count "doc_b"
    (vector_store.delete_document vector_store.io_ok "doc_a"
       (run_calls sample.embed
          [threads.Add vector_store.io_ok ["sky"; "ocean"]
             [sample.chunk_meta "doc_a" 0; sample.chunk_meta "doc_a" 1]
             (sample.record "doc_a" 2);
           threads.Add vector_store.io_ok ["river"]
             [sample.chunk_meta "doc_b" 0] (sample.record "doc_b" 1)]
          vector_store.init)).2
  = vector_store.stored_chunk_count "doc_b"
      (run_calls sample.embed
         [threads.Add vector_store.io_ok ["sky"; "ocean"]
            [sample.chunk_meta "doc_a" 0; sample.chunk_meta "doc_a" 1]
            (sample.record "doc_a" 2);
          threads.Add vector_store.io_ok ["river"]
            [sample.chunk_meta "doc_b" 0] (sample.record "doc_b" 1)]
         vector_store.init).
Proof.
  apply (delete_document_spares_the_rest sample.embed
           [threads.Add vector_store.io_ok ["sky"; "ocean"]
              [sample.chunk_meta "doc_a" 0; sample.chunk_meta "doc_a" 1]
              (sample.record "doc_a" 2);
            threads.Add vector_store.io_ok ["river"]
              [sample.chunk_meta "doc_b" 0] (sample.record "doc_b" 1)]
           vector_store.io_ok "doc_a").
  - vm_compute. eexists. reflexivity.
  - discriminate.
Defined.

Lemma clear_forgets_everything_witness :
  (vector_store.clear sample.io_save_fails sample.one_document).1
  = Py.Return tt
  ∧ vector_store.files
      (vector_store.clear sample.io_save_fails sample.one_document).2
    = {| vector_store.index_file := None;
         vector_store.metadata_file := None |}.
Proof.
  apply (clear_forgets_everything sample.embed sample.io_save_fails
           sample.one_document).
  reflexivity.
Defined.

(** ** Vector index store: starting again from the files *)

Section Restart.
Import vector_store startup.
Variable embed : string → list Q.

Lemma persisted_saved (w : World) (f : FAISS) :
  _vector_store (self w) = Some f → persisted (_save_store io_ok w).
Proof.
  intros Hf. unfold persisted. rewrite self_save_store.
  unfold _save_store, _save_metadata, save_local, write_metadata.
  rewrite Hf. simpl.
  unfold _load_store, _load_metadata. simpl.
  destruct w as [[v m] d lg]. simpl in *. by subst v.
Qed.

Lemma persisted_method (c : threads.call) (w : World) :
  healthy c → persisted w → persisted (threads.method_of embed c w).
Proof.
  unfold healthy. intros Hc Hw.
  destruct c as [io texts metadatas dm|io id|io]; simpl in *; subst io.
  - destruct (decide (zip_with Build_Document texts metadatas = []))
      as [He|Hne].
    { by rewrite add_documents_empty. }
    rewrite add_documents_batch by done. simpl.
    by eapply persisted_saved.
  - destruct (_document_metadata (self w) !! id) as [dm|] eqn:Hdm;
      [|by rewrite delete_document_unknown].
    rewrite delete_document_known by eauto. simpl.
    destruct (_vector_store (self w)) as [f|] eqn:Ef.
    + by eapply persisted_saved.
    + exfalso. unfold persisted, _load_store in Hw.
      destruct (index_file (files w)) as [[f|]|]; simpl in Hw.
      * rewrite <- Hw in Ef. done.
      * rewrite <- Hw in Hdm. simpl in Hdm. by rewrite lookup_empty in Hdm.
      * rewrite <- Hw in Hdm. simpl in Hdm. by rewrite lookup_empty in Hdm.
  - done.
Qed.

Lemma persisted_run (calls : list threads.call) (w : World) :
  Forall healthy calls → persisted w → persisted (run_calls embed calls w).
Proof.
  intros Hcalls. revert w.
  induction Hcalls as [|c calls Hc _ IH]; intros w Hw; simpl; [done|].
  by apply IH, persisted_method.
Qed.

(** X17: after any sequence of [add_documents], [delete_document] and
    [clear] calls made on a file system on which every access succeeds,
    starting the process again on the files left finds the index and the
    metadata map the singleton held. *)
Theorem restart_finds_the_state (calls : list threads.call) :
  Forall healthy calls →
  self (_initialize load_ok (files (run_calls embed calls init)))
  = self (run_calls embed calls init).
Proof. intros Hcalls. by apply (persisted_run calls init Hcalls). Qed.

Lemma failing_method_files (c : threads.call) (w : World) :
  failing c → files (threads.method_of embed c w) = files w.
Proof.
  destruct c as [io texts metadatas dm|io id|io]; simpl;
    [intros [Hc Hclean]|intros [Hc Hclean]|done].
  - destruct (decide (zip_with Build_Document texts metadatas = []))
      as [He|Hne].
    { by rewrite add_documents_empty. }
    rewrite add_documents_batch by done. simpl.
    unfold _save_store, save_local. simpl. by rewrite Hc, Hclean.
  - destruct (_document_metadata (self w) !! id) as [dm|] eqn:Hdm;
      [|by rewrite delete_document_unknown].
    rewrite delete_document_known by eauto. simpl.
    unfold _save_store, save_local. simpl.
    destruct (without id (_vector_store (self w))); [|done].
    by rewrite Hc, Hclean.
Qed.

(** X18: an insert or a deletion during which the index cannot be saved,
    the files being left as they were, is lost when the process starts
    again: after calls on a file system on which every access succeeded,
    the start finds the state the singleton held before the failed
    call. *)
Theorem restart_loses_the_failed_call (calls : list threads.call)
    (c : threads.call) :
  Forall healthy calls → failing c →
  self (_initialize load_ok
          (files (threads.method_of embed c (run_calls embed calls init))))
  = self (run_calls embed calls init).
Proof.
  intros Hcalls Hc. simpl. rewrite failing_method_files by done.
  by apply (persisted_run calls init Hcalls).
Qed.

Lemma files_paired_method (c : threads.call) (w : World) :
  healthy c → files_paired w → files_paired (threads.method_of embed c w).
Proof.
  unfold healthy. intros Hc Hw.
  destruct c as [io texts metadatas dm|io id|io]; simpl in *; subst io.
  - destruct (decide (zip_with Build_Document texts metadatas = []))
      as [He|Hne].
    { by rewrite add_documents_empty. }
    by rewrite add_documents_batch by done.
  - destruct (_document_metadata (self w) !! id) as [dm|] eqn:Hdm;
      [|by rewrite delete_document_unknown].
    rewrite delete_document_known by eauto. simpl.
    unfold files_paired, _save_store. simpl.
    by destruct (without id (_vector_store (self w))).
  - done.
Qed.

Lemma files_paired_run (calls : list threads.call) (w : World) :
  Forall healthy calls → files_paired w →
  files_paired (run_calls embed calls w).
Proof.
  intros Hcalls. revert w.
  induction Hcalls as [|c calls Hc _ IH]; intros w Hw; simpl; [done|].
  by apply IH, files_paired_method.
Qed.

(** X19: when [add_documents] of a document the store does not know can
    save the index but not the metadata, the call returns as usual; but a
    start of the process on the files left finds the new chunks in the
    index and no record of the document, which [get_document] then does
    not find and [delete_document] refuses to delete.  (The calls before
    are made on a file system on which every access succeeds.) *)
Theorem restart_after_failed_metadata_write (calls : list threads.call)
    (io : IO) (texts : list string) (metadatas : list ChunkMeta)
    (dm : DocumentMetadata) :
  let w := run_calls embed calls init in
  Forall healthy calls →
  get_document (document_id dm) w = None →
  texts ≠ [] → metadatas ≠ [] →
  save_local_ok io = true → write_metadata_ok io = false →
  let added := add_documents embed io texts metadatas dm w in
  let restarted := _initialize load_ok (files added.2) in
  added.1 = Py.Return (imap chunk_id_or_default metadatas)
  ∧ get_document (document_id dm) added.2 = Some dm
  ∧ chunks restarted = chunks added.2
  ∧ get_document (document_id dm) restarted = None
  ∧ ∀ io', delete_document io' (document_id dm) restarted
           = (Py.Return false, restarted).
Proof.
  intros w Hcalls Hnew Ht Hm Hs Hmeta added restarted.
  assert (Hw : persisted w) by by apply (persisted_run calls init Hcalls).
  assert (Hp : files_paired w)
    by by apply (files_paired_run calls init Hcalls).
  assert (Hne : zip_with Build_Document texts metadatas ≠ []).
  { destruct texts, metadatas; done. }
  subst restarted added. rewrite add_documents_batch by done.
  cbn [fst snd].
  set (f' := faiss_append embed _ _).
  set (left_behind :=
         if write_metadata_cut_short io then Some cut_short
         else metadata_file (files w)).
  assert (Hfiles : files (_save_store io
                      (set_document_metadata
                         (<[document_id dm:=dm]> (_document_metadata (self w)))
                         (set_vector_store (Some f') w)))
                   = {| index_file := Some (holds f');
                        metadata_file := left_behind |}).
  { unfold _save_store, _save_metadata, save_local, write_metadata. simpl.
    rewrite Hs, Hmeta. subst left_behind.
    by destruct (write_metadata_cut_short io). }
  assert (Hold : _load_metadata load_ok
                   {| index_file := Some (holds f');
                      metadata_file := left_behind |} ∅
                 !! document_id dm = None).
  { unfold _load_metadata. simpl. subst left_behind.
    destruct (write_metadata_cut_short io); [apply lookup_empty|].
    unfold persisted, _load_store, _load_metadata in Hw.
    unfold get_document in Hnew. rewrite <- Hw in Hnew.
    unfold files_paired in Hp.
    destruct (index_file (files w)) as [[f|]|]; simpl in *.
    - exact Hnew.
    - rewrite Hp. apply lookup_empty.
    - rewrite Hp. apply lookup_empty. }
  rewrite Hfiles. split_and!.
  - done.
  - unfold get_document. rewrite self_save_store. simpl.
    apply lookup_insert_eq.
  - by rewrite chunks_save_store.
  - exact Hold.
  - intros io'. by apply delete_document_unknown.
Qed.

End Restart.

Lemma restart_finds_the_state_witness :
  vector_store.self
    (startup._initialize startup.load_ok
       (vector_store.files
          (run_calls sample.embed
             [threads.Add vector_store.io_ok ["sky"]
                [sample.chunk_meta "doc_a" 0] (sample.record "doc_a" 1);
              threads.Delete vector_store.io_ok "doc_a"]
             vector_store.init)))
  = vector_store.self
      (run_calls sample.embed
         [threads.Add vector_store.io_ok ["sky"]
            [sample.chunk_meta "doc_a" 0] (sample.record "doc_a" 1);
          threads.Delete vector_store.io_ok "doc_a"]
         vector_store.init).
Proof.
  apply (restart_finds_the_state sample.embed
           [threads.Add vector_store.io_ok ["sky"]
              [sample.chunk_meta "doc_a" 0] (sample.record "doc_a" 1);
            threads.Delete vector_store.io_ok "doc_a"]).
  repeat constructor.
Defined.

Lemma restart_loses_the_failed_call_witness :
  vector_store.self
    (startup._initialize startup.load_ok
       (vector_store.files
          (threads.method_of sample.embed
             (threads.Delete sample.io_save_fails "doc_a")
             (run_calls sample.embed
                [threads.Add vector_store.io_ok ["sky"]
                   [sample.chunk_meta "doc_a" 0] (sample.record "doc_a" 1)]
                vector_store.init))))
  = vector_store.self
      (run_calls sample.embed
         [threads.Add vector_store.io_ok ["sky"]
            [sample.chunk_meta "doc_a" 0] (sample.record "doc_a" 1)]
         vector_store.init).
Proof.
  apply (restart_loses_the_failed_call sample.embed
           [threads.Add vector_store.io_ok ["sky"]
              [sample.chunk_meta "doc_a" 0] (sample.record "doc_a" 1)]
           (threads.Delete sample.io_save_fails "doc_a")).
  - repeat constructor.
  - split; reflexivity.
Defined.

Lemma restart_after_failed_metadata_write_witness :
  vector_store.get_document "doc_a"
    (startup._initialize startup.load_ok
       (vector_store.files
          (vector_store.add_documents sample.embed sample.io_metadata_fails
             ["sky"] [sample.chunk_meta "doc_a" 0] (sample.record "doc_a" 1)
             (run_calls sample.embed [] vector_store.init)).2))
  = None.
Proof.
  apply (restart_after_failed_metadata_write sample.embed []
           sample.io_metadata_fails ["sky"] [sample.chunk_meta "doc_a" 0]
           (sample.record "doc_a" 1)); done.
Defined.

(** ** Vector index store: finding what was stored *)

Section Reflexive.
Import vector_store.
Variable embed : string → list Q.

#[local] Existing Instance distance_le_trans.
#[local] Existing Instance distance_le_total.

Lemma l2_distance_self (v : list Q) : (l2_distance v v == 0)%Q.
Proof.
  unfold l2_distance. induction v as [|x v IH]; simpl; [reflexivity|].
  rewrite IH. ring.
Qed.

Lemma to_similarity_zero (d : Q) :
  (0 <= d)%Q → (d <= 0)%Q → (to_similarity d == 1)%Q.
Proof.
  intros H0 H1. apply Qle_antisym; [by apply to_similarity_le_1|].
  eapply Qle_trans; [|by apply (to_similarity_antitone d 0)].
  unfold to_similarity. vm_compute. discriminate.
Qed.

(** X20: after any calls, a search for the exact text of a chunk the
    index holds finds something whenever [k] is at least 1 and the
    threshold at most 1: the first hit has similarity 1 (up to the
    representation of the rational), and is a chunk whose embedding is at
    distance zero from that of the text. *)
Theorem stored_text_is_found (calls : list threads.call)
    (settings : config.Settings) (k : nat) (score_threshold : option Q)
    (e : Entry) :
  let w := run_calls embed calls init in
  e ∈ chunks w → (1 ≤ k)%nat →
  (Py.float_or score_threshold (config.retrieval_score_threshold settings)
   <= 1)%Q →
  ∃ doc s rest,
    similarity_search embed settings (page_content (entry_doc e)) k
      score_threshold w = (doc, s) :: rest
    ∧ (s == 1)%Q
    ∧ (l2_distance (embed (page_content (entry_doc e)))
                   (embed (page_content doc)) == 0)%Q.
Proof.
  intros w He Hk Ht.
  destruct (any_inv_run embed calls init (any_inv_init embed))
    as (_ & Hemb & _). fold w in Hemb.
  unfold similarity_search. unfold chunks_embedded in Hemb.
  unfold chunks in He, Hemb.
  destruct (_vector_store (self w)) as [f|]; [|by apply elem_of_nil in He].
  unfold nearest. cbv zeta.
  set (q := embed (page_content (entry_doc e))).
  set (scored := map (fun e0 => (entry_doc e0, l2_distance q (entry_vec e0)))
                     (entries f)).
  assert (Hperm : nearest_first scored ≡ₚ scored)
    by apply nearest_first_Permutation.
  assert (Hsorted : StronglySorted distance_le (nearest_first scored))
    by apply nearest_first_sorted.
  assert (Hin : (entry_doc e, l2_distance q (entry_vec e))
                ∈ nearest_first scored).
  { rewrite Hperm. apply list_elem_of_fmap. by exists e. }
  destruct (nearest_first scored) as [|[doc0 d0] L] eqn:EL;
    [by apply elem_of_nil in Hin|].
  assert (Hd0 : ∃ e0, e0 ∈ entries f ∧ doc0 = entry_doc e0
                      ∧ d0 = l2_distance q (entry_vec e0)).
  { assert (H0 : (doc0, d0) ∈ scored) by (rewrite <- Hperm; left).
    apply list_elem_of_fmap in H0 as (e0 & [= -> ->] & He0). by exists e0. }
  destruct Hd0 as (e0 & He0 & -> & ->).
  assert (Hself : (l2_distance q (entry_vec e) == 0)%Q).
  { rewrite (Hemb e He). apply l2_distance_self. }
  assert (Hmin : (l2_distance q (entry_vec e0) <= 0)%Q).
  { rewrite <- Hself. apply elem_of_cons in Hin as [[= _ <-]|Hin].
    - apply Qle_refl.
    - apply StronglySorted_inv in Hsorted as [_ Hall].
      rewrite Forall_forall in Hall. exact (Hall _ Hin). }
  assert (Hsim : (to_similarity (l2_distance q (entry_vec e0)) == 1)%Q).
  { apply to_similarity_zero; [apply l2_distance_nonneg | done]. }
  destruct k as [|k]; [lia|]. simpl.
  fold (to_similarity (l2_distance q (entry_vec e0))).
  assert (Hpass : Qle_bool (Py.float_or score_threshold
                              (config.retrieval_score_threshold settings))
                           (to_similarity (l2_distance q (entry_vec e0)))
                  = true).
  { apply Qle_bool_iff. by rewrite Hsim. }
  rewrite Hpass. eexists _, _, _. split; [done|]. split; [exact Hsim|].
  rewrite <- (Hemb e0 He0). apply Qle_antisym; [done|apply l2_distance_nonneg].
Qed.

End Reflexive.

Lemma stored_text_is_found_witness :
  ∃ doc s rest,
    vector_store.similarity_search sample.embed config.default_settings
      "sky" 1 None
      (run_calls sample.embed
         [threads.Add vector_store.io_ok ["sky"]
            [sample.chunk_meta "doc_a" 0] (sample.record "doc_a" 1)]
         vector_store.init)
    = (doc, s) :: rest
    ∧ (s == 1)%Q
    ∧ (vector_store.l2_distance (sample.embed "sky")
         (sample.embed (vector_store.page_content doc)) == 0)%Q.
Proof.
  apply (stored_text_is_found sample.embed
           [threads.Add vector_store.io_ok ["sky"]
              [sample.chunk_meta "doc_a" 0] (sample.record "doc_a" 1)]
           config.default_settings 1 None
           {| vector_store.entry_id := 0;
              vector_store.entry_doc :=
                {| vector_store.page_content := "sky";
                   vector_store.metadata := sample.chunk_meta "doc_a" 0 |};
              vector_store.entry_vec := sample.embed "sky" |}).
  - vm_compute. left.
  - lia.
  - vm_compute. discriminate.
Defined.

(** ** Retriever: the shape of a result *)

Section RetrieverFurther.
Import vector_store retriever.
Variable embed : string → list Q.

Lemma length_preview (text : string) : (String.length (preview text) ≤ 150)%nat.
Proof.
  unfold preview. destruct (Nat.leb_spec (String.length text) 150); [done|].
  rewrite length_append, length_substring_0.
  change (String.length "...") with 3%nat. lia.
Qed.

Lemma foldl_max_sorted (s : Q) (rest : list (Document * Q)) :
  Forall (fun hit => (hit.2 <= s)%Q) rest →
  foldl Py.max s (map snd rest) = s.
Proof.
  induction 1 as [|[doc s'] rest Hs _ IH]; simpl; [done|].
  unfold Py.max at 2. simpl in Hs. apply Qle_bool_iff in Hs. by rewrite Hs.
Qed.

Lemma build_result_ok (k : nat) (hits : list (Document * Q)) :
  (length hits ≤ k)%nat →
  (∀ doc s, (doc, s) ∈ hits → (0 < s)%Q ∧ (s <= 1)%Q) →
  StronglySorted similarity_ge hits →
  result_ok k (build_result hits)
  ∧ ∀ doc s rest, hits = (doc, s) :: rest → top_score (build_result hits) = s.
Proof.
  intros Hlen Hunit Hsorted.
  destruct hits as [|[doc s] rest].
  { split; [|done]. unfold result_ok. simpl. split_and!; try done.
    all: try apply Qle_refl; try lia. }
  assert (Htop : top_score (build_result ((doc, s) :: rest)) = s).
  { unfold build_result. rewrite foldl_collect. simpl.
    destruct (Hunit doc s) as [Hpos _]; [left|].
    assert (Hmax : Py.max 0 s = s).
    { unfold Py.max. destruct (Qle_bool s 0) eqn:E; [|done].
      apply Qle_bool_iff in E. exfalso.
      by apply (Qlt_irrefl 0), Qlt_le_trans with s. }
    rewrite Hmax. apply foldl_max_sorted.
    by apply StronglySorted_inv in Hsorted as [_ Hall]. }
  split; [|by intros ? ? ? [= <- <- <-]].
  destruct (Hunit doc s) as [Hpos Hle]; [left|].
  unfold result_ok. rewrite Htop.
  unfold build_result. rewrite foldl_collect. simpl. split_and!; try done.
  - by apply Qlt_le_weak.
  - rewrite length_map. simpl in Hlen. lia.
  - constructor.
    + eexists. split; [done|]. rewrite truncate_text_150. apply length_preview.
    + apply Forall_forall. intros src (hit & -> & _)%list_elem_of_fmap.
      eexists. split; [done|]. simpl. rewrite truncate_text_150.
      apply length_preview.
Qed.

Lemma retrieve_ok (settings : config.Settings) (query : string)
    (k : option nat) (score_threshold : option Q) (w : World) :
  result_ok (Py.nat_or k (config.retrieval_top_k settings))
            (retrieve embed settings query k score_threshold w)
  ∧ ∀ doc s rest,
      similarity_search embed settings query
        (Py.nat_or k (config.retrieval_top_k settings))
        (Some (Py.float_or score_threshold
                 (config.retrieval_score_threshold settings))) w
      = (doc, s) :: rest →
      top_score (retrieve embed settings query k score_threshold w) = s.
Proof.
  unfold retrieve. apply build_result_ok.
  - apply search_length.
  - intros doc s Hin. apply search_hit in Hin as (e & _ & _ & -> & _).
    split; [apply to_similarity_pos | apply to_similarity_le_1];
      apply l2_distance_nonneg.
  - apply search_sorted.
Qed.


(** X21: every result of [retrieve] and of [retrieve_with_history] is
    flagged relevant exactly when it has sources; an irrelevant result has
    the empty context and score 0, a relevant one a score in (0, 1]; it
    has at most [k] sources ([retrieval_top_k] when [k] is absent or 0),
    each with a preview of at most 150 characters; and the score of a
    relevant result is the similarity of the first hit of the search. *)
Theorem retrieval_result_shape (settings : config.Settings)
    (query conversation_context : string) (k : option nat)
    (score_threshold : option Q) (w : World) :
  let k' := Py.nat_or k (config.retrieval_top_k settings) in
  result_ok k' (retrieve embed settings query k score_threshold w)
  ∧ result_ok k'
      (retrieve_with_history embed settings query conversation_context k w)
  ∧ ∀ doc s rest,
      similarity_search embed settings query k'
        (Some (Py.float_or score_threshold
                 (config.retrieval_score_threshold settings))) w
      = (doc, s) :: rest →
      top_score (retrieve embed settings query k score_threshold w) = s.
Proof.
  intros k'. split_and!.
  - apply retrieve_ok.
  - unfold retrieve_with_history. apply retrieve_ok.
  - apply retrieve_ok.
Qed.

End RetrieverFurther.

(** ** The endpoints over the store *)

Section Endpoints.
Import vector_store.
Variable embed : string → list Q.

(** X22: the endpoint deleting a document answers 404 for an id the store
    does not know, leaving the store as it was; for a known id it answers
    with the deletion message naming the file, after which looking the
    document up answers 404.  It never answers 500 and lets no exception
    escape, whatever the file system does. *)
Theorem delete_endpoint_outcome (io : IO) (document_id : string) (w : World) :
  let answer := documents_api.delete_document io document_id w in
  (get_document document_id w = None →
     answer
     = (documents_api.HTTPException 404
          ("Document not found: " +:+ document_id), w))
  ∧ (∀ document, get_document document_id w = Some document →
       answer.1
       = documents_api.Ok
           {| documents_api.document_id := document_id;
              documents_api.message :=
                "Document '" +:+ filename document
                +:+ "' deleted successfully";
              documents_api.success := true |}
       ∧ documents_api.get_document document_id answer.2
         = documents_api.HTTPException 404
             ("Document not found: " +:+ document_id))
  ∧ (∀ detail, answer.1 ≠ documents_api.HTTPException 500 detail)
  ∧ (∀ e, answer.1 ≠ documents_api.Unhandled e).
Proof.
  intros answer. subst answer. unfold documents_api.delete_document.
  destruct (get_document document_id w) as [document|] eqn:Hd.
  - rewrite delete_document_known by (unfold get_document in Hd; eauto).
    cbn [fst snd]. split_and!; try done.
    intros d [= <-]. split; [done|].
    unfold documents_api.get_document, get_document.
    rewrite self_save_store. simpl. by rewrite lookup_delete_eq.
  - split_and!; done.
Qed.

(** X23: the endpoint deleting every document leaves no document listed,
    whether or not the files can be removed; when they can it answers with
    the number of documents that were listed, and when they cannot the
    exception of [clear] escapes. *)
Theorem delete_all_endpoint_outcome (io : IO) (w : World) :
  let answer := documents_api.delete_all_documents io w in
  documents_api.list_documents answer.2
  = {| documents_api.documents := []; documents_api.total_count := 0 |}
  ∧ (unlink_ok io = true →
       ∃ response, answer.1 = documents_api.Ok response
         ∧ documents_api.deleted_count response
           = documents_api.total_count (documents_api.list_documents w))
  ∧ (unlink_ok io = false → answer.1 = documents_api.Unhandled Py.OSError).
Proof.
  intros answer. subst answer.
  unfold documents_api.delete_all_documents, clear.
  destruct (unlink_ok io); cbn [fst snd]; split_and!; try done.
  intros _. eexists. split; done.
Qed.

End Endpoints.

Lemma delete_endpoint_outcome_witness :
  documents_api.delete_document vector_store.io_ok "doc_x" sample.one_document
  = (documents_api.HTTPException 404 "Document not found: doc_x",
     sample.one_document).
Proof.
  apply (delete_endpoint_outcome vector_store.io_ok "doc_x"
           sample.one_document).
  reflexivity.
Defined.

Lemma delete_all_endpoint_outcome_witness :
  (documents_api.delete_all_documents sample.io_save_fails
     sample.one_document).1
  = documents_api.Ok
      {| documents_api.deleted_message := "Deleted 1 documents";
         documents_api.deleted_count := 1 |}.
Proof.
  destruct (delete_all_endpoint_outcome sample.io_save_fails
              sample.one_document) as (_ & H & _).
  destruct (H eq_refl) as (response & Hr & _). reflexivity.
Defined.

(** ** The ingestion endpoint *)

Section Ingestion.
Import vector_store.
Variable embed : string → list Q.
Variable get_file_extension : string → string.
Variable compute_file_hash : string → string.
Variable extract_text_from_txt : string → string.
Variable extract_text_from_pdf : string → documents_api.Http string.
Variable extract_text_from_docx : string → documents_api.Http string.
Variable split_text : string → list string.

Local Abbreviation ingest :=
  (ingest_api.ingest_document embed get_file_extension compute_file_hash
     extract_text_from_txt extract_text_from_pdf extract_text_from_docx
     split_text).

Lemma zip_with_map_map {A B C D} (g : B → C → D) (a : A → B) (b : A → C)
    (l : list A) :
  zip_with g (map a l) (map b l) = map (fun x => g (a x) (b x)) l.
Proof. induction l as [|x l IH]; simpl; [done|]. by rewrite IH. Qed.

Lemma chunk_ids_distinct (document_id : string) (l : list (string * nat))
    (F : string * nat → ChunkMeta) :
  (∀ x, meta_chunk_id (F x)
        = Some (utils.generate_chunk_id document_id x.2)) →
  NoDup (map snd l) → NoDup (map meta_chunk_id (map F l)).
Proof.
  intros HF Hnd.
  replace (map meta_chunk_id (map F l))
    with (map (fun i => Some (utils.generate_chunk_id document_id i))
              (map snd l)).
  - apply NoDup_fmap_2_strong; [|done].
    intros i j _ _ [= H]. revert H. apply chunk_id_inj.
  - rewrite !map_map. apply map_ext. intros x. by rewrite HF.
Qed.

(** What the endpoint does once the upload has passed its checks: the
    insert it issues for the chunks of the text. *)
Lemma ingest_accepted (io : IO) (settings : ingest_api.UploadSettings)
    (file : ingest_api.UploadFile) (uuid_hex now : string) (w : World)
    (response : ingest_api.DocumentUploadResponse) :
  (ingest io settings file uuid_hex now w).1 = documents_api.Ok response →
  ∃ texts metadatas dm,
    (ingest io settings file uuid_hex now w).2
    = (add_documents embed io texts metadatas dm w).2
    ∧ length texts = ingest_api.chunk_count response
    ∧ length metadatas = ingest_api.chunk_count response
    ∧ (1 ≤ ingest_api.chunk_count response)%nat
    ∧ document_id dm = ingest_api.document_id response
    ∧ chunk_count dm = ingest_api.chunk_count response
    ∧ filename dm = utils.sanitize_filename (ingest_api.filename response)
    ∧ Forall (fun d => tagged (ingest_api.document_id response) d = true)
             (zip_with Build_Document texts metadatas)
    ∧ NoDup (map meta_chunk_id metadatas).
Proof.
  unfold ingest_api.ingest_document.
  destruct (ingest_api.upload_filename file) as [[|c name]|]; try done.
  destruct (negb _); [done|].
  destruct (_ <? _)%nat; [done|].
  destruct (_ =? _)%nat; [done|].
  destruct (ingest_api.extract_text _ _ _ _ _) as [text| |]; try done.
  destruct (Py.strip text); [done|].
  destruct (ingest_api.chunk_text split_text text) as [|chunk chunks] eqn:Ec;
    [done|].
  set (l := chunk :: chunks).
  set (texts := map fst l).
  set (metadatas := map _ l).
  set (dm := Build_DocumentMetadata _ _ _ _ _ _ _ _).
  assert (Hzip : zip_with Build_Document texts metadatas ≠ []) by done.
  rewrite (add_documents_batch embed io texts metadatas dm w Hzip).
  cbn [fst snd]. intros [= <-]. cbn.
  exists texts, metadatas, dm.
  rewrite (add_documents_batch embed io texts metadatas dm w Hzip).
  split_and!; try done.
  - subst texts l. simpl. by rewrite length_map.
  - subst metadatas l. simpl. by rewrite length_map.
  - lia.
  - subst texts metadatas. rewrite zip_with_map_map.
    apply Forall_forall. intros d (x & -> & _)%list_elem_of_fmap.
    unfold tagged. simpl. by apply bool_decide_eq_true.
  - subst metadatas. eapply chunk_ids_distinct; [by intros x|].
    subst l. rewrite <- Ec. unfold ingest_api.chunk_text.
    change (map snd ?x) with (snd <$> x). rewrite fmap_imap.
    rewrite (imap_ext _ (fun j _ => id j)) by done.
    rewrite imap_seq_0, list_fmap_id. apply NoDup_seq.
Qed.

Lemma ingest_rejected (io : IO) (settings : ingest_api.UploadSettings)
    (file : ingest_api.UploadFile) (uuid_hex now : string) (w : World) :
  match (ingest io settings file uuid_hex now w).1 with
  | documents_api.Ok _ => True
  | _ => (ingest io settings file uuid_hex now w).2 = w
  end.
Proof.
  unfold ingest_api.ingest_document.
  destruct (ingest_api.upload_filename file) as [[|c name]|]; try done.
  destruct (negb _); [done|].
  destruct (_ <? _)%nat; [done|].
  destruct (_ =? _)%nat; [done|].
  destruct (ingest_api.extract_text _ _ _ _ _) as [text| |] eqn:Ex; try done.
  destruct (Py.strip text); [done|].
    destruct (ingest_api.chunk_text split_text text) as [|chunk chunks] eqn:Ec;
      [done|].
    set (l := chunk :: chunks).
    set (texts := map fst l).
    set (metadatas := map _ l).
    set (dm := Build_DocumentMetadata _ _ _ _ _ _ _ _).
    assert (Hzip : zip_with Build_Document texts metadatas ≠ []) by done.
    by rewrite (add_documents_batch embed io texts metadatas dm w Hzip).
Qed.

(** X24: an upload the ingestion endpoint accepts is stored whole: the
    response counts at least one chunk, the document is recorded under the
    id of the response with that count and the sanitized file name, and
    that many chunks are added after those already stored, all tagged
    with the document and with pairwise distinct chunk ids.  If the store
    was reached by such inserts, deletions and clears and did not know
    the id drawn, the record's count is the number of stored chunks of the
    document.  An upload that is not accepted leaves the store as it
    was. *)
Theorem ingest_document_outcome (io : IO)
    (settings : ingest_api.UploadSettings) (file : ingest_api.UploadFile)
    (uuid_hex now : string) (w : World) :
  let answer := ingest io settings file uuid_hex now w in
  (∀ response, answer.1 = documents_api.Ok response →
     (1 ≤ ingest_api.chunk_count response)%nat
     ∧ (∃ dm, get_document (ingest_api.document_id response) answer.2
              = Some dm
              ∧ chunk_count dm = ingest_api.chunk_count response
              ∧ filename dm
                = utils.sanitize_filename (ingest_api.filename response))
     ∧ (∃ new, chunks answer.2 = chunks w ++ new
               ∧ length new = ingest_api.chunk_count response
               ∧ Forall (fun e => tagged (ingest_api.document_id response)
                                         (entry_doc e) = true) new
               ∧ NoDup (map (fun e => meta_chunk_id (metadata (entry_doc e)))
                            new))
     ∧ (reachable embed w →
        get_document (ingest_api.document_id response) w = None →
        reachable embed answer.2
        ∧ stored_chunk_count (ingest_api.document_id response) answer.2
          = ingest_api.chunk_count response))
  ∧ ((∀ response, answer.1 ≠ documents_api.Ok response) → answer.2 = w).
Proof.
  intros answer. subst answer. split.
  - intros response Hok.
    destruct (ingest_accepted _ _ _ _ _ _ _ Hok)
      as (texts & metadatas & dm & Hw & Ht & Hm & Hn & Hid & Hcount & Hname
          & Htag & Hnd).
    rewrite Hw.
    assert (Hzip : zip_with Build_Document texts metadatas ≠ []).
    { destruct texts, metadatas; simpl in *; try done; lia. }
    assert (Hlen : length (zip_with Build_Document texts metadatas)
                   = ingest_api.chunk_count response).
    { rewrite length_zip_with. lia. }
    assert (Hdocs : map metadata (zip_with Build_Document texts metadatas)
                    = metadatas).
    { clear -Ht Hm. rewrite <- Hm in Ht. clear Hm.
      revert metadatas Ht. induction texts as [|t texts IH];
        intros [|m metadatas] Hl; simpl in *; try done.
      f_equal. apply IH. lia. }
    rewrite add_documents_batch by done. cbn [snd].
    assert (Hget : get_document (document_id dm)
                     (_save_store io
                        (set_document_metadata
                           (<[document_id dm:=dm]>
                              (_document_metadata (self w)))
                           (set_vector_store
                              (Some (faiss_append embed
                                       (zip_with Build_Document texts metadatas)
                                       (current (_vector_store (self w)))))
                              w))) = Some dm).
    { unfold get_document. rewrite self_save_store. simpl.
      apply lookup_insert_eq. }
    split_and!.
    + done.
    + exists dm. by rewrite <- Hid.
    + exists (new_entries embed (next_id (current (_vector_store (self w))))
                (zip_with Build_Document texts metadatas)).
      rewrite chunks_save_store. split_and!.
      * unfold chunks at 1. simpl. by rewrite <- chunks_current.
      * by rewrite length_new_entries.
      * apply Forall_forall. intros e [He _]%new_entries_elem.
        rewrite Forall_forall in Htag. by apply Htag.
      * rewrite <- (map_map entry_doc (fun d => meta_chunk_id (metadata d))).
        rewrite new_entries_docs.
        rewrite <- (map_map metadata meta_chunk_id). by rewrite Hdocs.
    + intros Hreach Hnew.
      assert (Hing : ingestion texts metadatas dm w).
      { split_and!; [by rewrite Hid | by rewrite Hid | by rewrite Hlen]. }
      pose proof (reachable_insert embed io texts metadatas dm w Hreach Hing)
        as Hreach'.
      rewrite add_documents_batch in Hreach' by done. cbn [snd] in Hreach'.
      split; [exact Hreach'|].
      destruct (reachable_store_inv embed _ Hreach') as (_ & _ & Hcnt).
      rewrite <- Hid, <- Hcount. symmetry. by apply Hcnt.
  - intros Hno. pose proof (ingest_rejected io settings file uuid_hex now w) as H.
    destruct (ingest io settings file uuid_hex now w).1 eqn:E; try done.
    by destruct (Hno a).
Qed.

(** *** The batch endpoint *)

Variable exn_message : Py.exn → string.

Local Abbreviation ingest_loop :=
  (ingest_api.ingest_loop embed get_file_extension compute_file_hash
     extract_text_from_txt extract_text_from_pdf extract_text_from_docx
     split_text exn_message).

Local Abbreviation ingest_batch :=
  (ingest_api.ingest_batch embed get_file_extension compute_file_hash
     extract_text_from_txt extract_text_from_pdf extract_text_from_docx
     split_text exn_message).

(** What an accepted upload adds to the store, and what it keeps. *)
Lemma ingest_accepted_store (io : IO) (settings : ingest_api.UploadSettings)
    (file : ingest_api.UploadFile) (uuid_hex now : string) (w : World)
    (response : ingest_api.DocumentUploadResponse) :
  (ingest io settings file uuid_hex now w).1 = documents_api.Ok response →
  let w' := (ingest io settings file uuid_hex now w).2 in
  (1 ≤ ingest_api.chunk_count response)%nat
  ∧ (∃ new, chunks w' = chunks w ++ new
            ∧ length new = ingest_api.chunk_count response)
  ∧ is_Some (get_document (ingest_api.document_id response) w')
  ∧ ∀ id, is_Some (get_document id w) → is_Some (get_document id w').
Proof.
  intros Hok w'. subst w'.
  destruct (ingest_accepted _ _ _ _ _ _ _ Hok)
    as (texts & metadatas & dm & Hw & Ht & Hm & Hn & Hid & _).
  rewrite Hw.
  assert (Hzip : zip_with Build_Document texts metadatas ≠ []).
  { destruct texts, metadatas; simpl in *; try done; lia. }
  rewrite add_documents_batch by done. cbn [snd].
  split_and!.
  - done.
  - exists (new_entries embed (next_id (current (_vector_store (self w))))
              (zip_with Build_Document texts metadatas)).
    rewrite chunks_save_store. split.
    + unfold chunks at 1. simpl. by rewrite <- chunks_current.
    + rewrite length_new_entries, length_zip_with. lia.
  - unfold get_document. rewrite self_save_store. simpl.
    rewrite <- Hid, lookup_insert_eq. eauto.
  - intros id. unfold get_document. rewrite self_save_store. simpl.
    destruct (decide (document_id dm = id)) as [->|Hne].
    + rewrite lookup_insert_eq. eauto.
    + by rewrite lookup_insert_ne.
Qed.

(** The loop of the batch endpoint, from any position and with any lists
    collected so far. *)
Lemma ingest_loop_spec (io : nat → IO) (settings : ingest_api.UploadSettings)
    (uuid_hex now : nat → string) (files : list ingest_api.UploadFile) :
  ∀ (i : nat) (results : list ingest_api.DocumentUploadResponse)
    (errors : list ingest_api.BatchError) (w : World),
  let answer := ingest_loop io settings uuid_hex now i files results errors w in
  ∃ rs es new,
    ingest_api.results answer.1 = results ++ rs
    ∧ ingest_api.errors answer.1 = errors ++ es
    ∧ ingest_api.success_count answer.1 = length (results ++ rs)
    ∧ ingest_api.error_count answer.1 = length (errors ++ es)
    ∧ (length rs + length es)%nat = length files
    ∧ map ingest_api.error_filename es
      `sublist_of` map ingest_api.upload_filename files
    ∧ chunks answer.2 = chunks w ++ new
    ∧ length new = sum_list (map ingest_api.chunk_count rs)
    ∧ Forall (fun r => (1 ≤ ingest_api.chunk_count r)%nat
                       ∧ is_Some (get_document (ingest_api.document_id r)
                                    answer.2)) rs
    ∧ (rs = [] → answer.2 = w)
    ∧ (∀ id, is_Some (get_document id w) →
             is_Some (get_document id answer.2)).
Proof.
  induction files as [|file files IH]; intros i results errors w answer.
  - exists [], [], []. subst answer. simpl. rewrite !app_nil_r.
    split_and!; try done.
  - subst answer. cbn [ingest_api.ingest_loop].
    pose proof (ingest_rejected (io i) settings file (uuid_hex i) (now i) w)
      as Hrej.
    destruct (ingest (io i) settings file (uuid_hex i) (now i) w)
      as [[response|status detail|e] w1] eqn:E; cbn [fst snd] in Hrej.
    + clear Hrej.
      assert (Hok : (ingest (io i) settings file (uuid_hex i) (now i) w).1
                    = documents_api.Ok response) by (by rewrite E).
      destruct (ingest_accepted_store _ _ _ _ _ _ _ Hok)
        as (Hn & (new1 & Hch1 & Hlen1) & Hrec & Hkeep).
      rewrite E in Hch1, Hrec, Hkeep. cbn [snd] in Hch1, Hrec, Hkeep.
      destruct (IH (S i) (results ++ [response]) errors w1)
        as (rs & es & new & Hr & He & Hsc & Hec & Hlen & Hsub & Hch & Hnew
            & Hall & _ & Hk).
      exists (response :: rs), es, (new1 ++ new).
      rewrite <- !app_assoc in Hr, Hsc. simpl in Hr, Hsc.
      split_and!; try done.
      * simpl. lia.
      * simpl. by apply sublist_cons.
      * by rewrite Hch, Hch1, app_assoc.
      * rewrite length_app. simpl. lia.
      * constructor; [|done]. split; [done|]. by apply Hk.
      * intros id Hid. by apply Hk, Hkeep.
    + subst w1.
      destruct (IH (S i) results
                  (errors ++ [ {| ingest_api.error_filename :=
                                    ingest_api.upload_filename file;
                                  ingest_api.error := detail |} ]) w)
        as (rs & es & new & Hr & He & Hsc & Hec & Hlen & Hsub & Hch & Hnew
            & Hall & Hnone & Hk).
      exists rs, ({| ingest_api.error_filename :=
                       ingest_api.upload_filename file;
                     ingest_api.error := detail |} :: es), new.
      rewrite <- !app_assoc in He, Hec. simpl in He, Hec.
      split_and!; try done.
      * simpl. lia.
      * simpl. by apply sublist_skip.
    + subst w1.
      destruct (IH (S i) results
                  (errors ++ [ {| ingest_api.error_filename :=
                                    ingest_api.upload_filename file;
                                  ingest_api.error := exn_message e |} ]) w)
        as (rs & es & new & Hr & He & Hsc & Hec & Hlen & Hsub & Hch & Hnew
            & Hall & Hnone & Hk).
      exists rs, ({| ingest_api.error_filename :=
                       ingest_api.upload_filename file;
                     ingest_api.error := exn_message e |} :: es), new.
      rewrite <- !app_assoc in He, Hec. simpl in He, Hec.
      split_and!; try done.
      * simpl. lia.
      * simpl. by apply sublist_skip.
Qed.

(** X27: the batch endpoint accounts for every file and never fails as a
    whole: the two counts are the lengths of the two lists and add up to
    the number of files, and the files in error are named in the order of
    the upload.  The chunks stored before stay, followed by as many new
    ones as the results count together, at least one for each; every
    result's document is recorded at the end, and so is every document
    recorded before; and when no file is accepted the store is as it
    was. *)
Theorem ingest_batch_outcome (io : nat → IO)
    (settings : ingest_api.UploadSettings)
    (files : list ingest_api.UploadFile) (uuid_hex now : nat → string)
    (w : World) :
  let answer := ingest_batch io settings files uuid_hex now w in
  let results := ingest_api.results answer.1 in
  let errors := ingest_api.errors answer.1 in
  ingest_api.success_count answer.1 = length results
  ∧ ingest_api.error_count answer.1 = length errors
  ∧ (length results + length errors)%nat = length files
  ∧ map ingest_api.error_filename errors
    `sublist_of` map ingest_api.upload_filename files
  ∧ (∃ new, chunks answer.2 = chunks w ++ new
            ∧ length new = sum_list (map ingest_api.chunk_count results)
            ∧ (length results ≤ length new)%nat)
  ∧ Forall (fun r => is_Some (get_document (ingest_api.document_id r)
                                answer.2)) results
  ∧ (∀ id, is_Some (get_document id w) → is_Some (get_document id answer.2))
  ∧ (results = [] → answer.2 = w).
Proof.
  intros answer results errors. subst answer results errors.
  unfold ingest_api.ingest_batch.
  destruct (ingest_loop_spec io settings uuid_hex now files 0%nat [] [] w)
    as (rs & es & new & Hr & He & Hsc & Hec & Hlen & Hsub & Hch & Hnew
        & Hall & Hnone & Hk).
  simpl in Hr, He, Hsc, Hec. rewrite Hr, He.
  split_and!; try done.
  - exists new. split_and!; [done|done|].
    rewrite Hnew. clear -Hall.
    induction Hall as [|r rs [Hr _] _ IH]; simpl; lia.
  - eapply Forall_impl; [exact Hall|]. by intros r [_ ?].
Qed.

End Ingestion.

(** ** The chat endpoint and its request *)

Section Chat.
Import conversation.
Variable embed : string → list Q.
Variable generate :
  string → option string → string → string → list Message → option string.



(** X26: the validators of [ChatRequest] accept exactly the values that
    are not blank, and return them stripped: the value returned is not
    empty, not longer than the one given, and is accepted unchanged when
    validated again. *)
Theorem chat_request_validators (v : string) :
  (chat_api.message_not_empty v = None ↔ Py.strip v = "")
  ∧ (∀ m, chat_api.message_not_empty v = Some m →
       m = Py.strip v ∧ m ≠ ""
       ∧ (String.length m ≤ String.length v)%nat
       ∧ chat_api.message_not_empty m = Some m)
  ∧ chat_api.session_id_valid v = chat_api.message_not_empty v.
Proof.
  unfold chat_api.message_not_empty, chat_api.session_id_valid.
  split_and!; [|intros m|done].
  - by destruct (Py.strip v).
  - pose proof (strip_idemp v) as Hid.
    destruct (Py.strip v) as [|c r] eqn:E; [done|].
    intros [= <-]. split_and!; try done.
    + rewrite <- E. unfold Py.strip.
      etrans; [apply length_rstrip | apply length_lstrip].
    + by rewrite Hid.
Qed.

(** *** The streaming endpoint *)

Variable generate_stream :
  string → option string → string → string → list Message
  → list string * option string.


End Chat.

(** ** The session endpoints *)

Section SessionEndpoints.
Import conversation.

Lemma list_sessions_endpoint (h : Histories) :
  (main_api.list_sessions h).1
  = {| main_api.sessions := (list_sessions h).1;
       main_api.count := length (list_sessions h).1 |}.
Proof. reflexivity. Qed.

(** X28: the endpoint clearing a session answers with success either way;
    its message says that the memory was cleared exactly when the session
    was listed.  Afterwards the session is not listed and the other
    sessions are as they were.  The endpoint clearing every session
    reports the count the listing endpoint gave, and leaves the listing
    empty. *)
Theorem session_endpoints_outcome (s : string) (h : Histories) :
  let answer := main_api.clear_session s h in
  main_api.success answer.1 = true
  ∧ main_api.session_id answer.1 = s
  ∧ (main_api.message answer.1 = "Session memory cleared successfully"
     ↔ s ∈ main_api.sessions (main_api.list_sessions h).1)
  ∧ (s ∉ main_api.sessions (main_api.list_sessions answer.2).1)
  ∧ (∀ s', s' ≠ s → answer.2 !! s' = h !! s')
  ∧ main_api.cleared_count (main_api.clear_all_sessions h).1
    = main_api.count (main_api.list_sessions h).1
  ∧ (main_api.list_sessions (main_api.clear_all_sessions h).2).1
    = {| main_api.sessions := []; main_api.count := 0 |}.
Proof.
  intros answer. subst answer.
  rewrite !list_sessions_endpoint.
  cbn [main_api.sessions main_api.count].
  unfold main_api.clear_session, clear_session.
  split_and!.
  - by case_bool_decide.
  - by case_bool_decide.
  - rewrite list_sessions_elem. case_bool_decide; simpl; by split.
  - rewrite list_sessions_elem. case_bool_decide; simpl; [|done].
    rewrite lookup_delete_eq. by intros [? ?].
  - intros s' Hne. case_bool_decide; simpl; [|done].
    by rewrite lookup_delete_ne.
  - unfold main_api.clear_all_sessions, clear_all, list_sessions. simpl.
    by rewrite length_map, length_map_to_list.
  - unfold main_api.clear_all_sessions, clear_all, list_sessions. simpl.
    by rewrite map_to_list_empty.
Qed.

(** X29: the chat request strips the session id while the request
    clearing a session takes it as it is sent.  So for an id sent with
    blanks around it, the turns of the chat are kept under the stripped
    id, and sending the same id to the endpoint clearing a session clears
    nothing: it answers that the session did not exist. *)
Theorem padded_session_id_is_another_session (v sid u a : string)
    (h : Histories) :
  chat_api.session_id_valid v = Some sid → sid ≠ v → h !! v = None →
  ∀ v', main_api.clear_session_request v = Some v' →
  main_api.clear_session v' (add_turn sid u a h)
  = ({| main_api.session_id := v;
        main_api.message := "Session did not exist (nothing to clear)";
        main_api.success := true |}, add_turn sid u a h).
Proof.
  intros _ Hne Hv v' Hreq.
  assert (v' = v) as ->.
  { unfold main_api.clear_session_request in Hreq.
    destruct (_ && _)%bool; congruence. }
  unfold main_api.clear_session, clear_session.
  rewrite bool_decide_eq_false_2; [done|].
  rewrite add_turn_lookup_ne by done. rewrite Hv. by intros [? ?].
Qed.

End SessionEndpoints.

(** ** The further properties at work *)

Example sanitize_filename_example :
  utils.sanitize_filename
    (" my" +:+ String (Ascii.ascii_of_nat 47) "report: v2?.pdf ")
  = "my_report_ v2_.pdf".
Proof. reflexivity. Qed.

Example generate_chunk_id_example :
  utils.generate_chunk_id "doc_a" 7 = "doc_a_chunk_0007"
  ∧ utils.generate_chunk_id "doc_a" 123 = "doc_a_chunk_0123".
Proof. split; reflexivity. Qed.

Lemma clear_session_forgets_witness :
  fst (conversation.clear_session "s"
         (conversation.add_turn "s" "q" "a" conversation.init)) = true.
Proof.
  apply (clear_session_forgets "s"
           (conversation.add_turn "s" "q" "a" conversation.init)).
  vm_compute. left.
Defined.

Lemma sanitize_filename_safe_witness :
  ¬ occurs (Ascii.ascii_of_nat 47)
      (utils.sanitize_filename ("a" +:+ String (Ascii.ascii_of_nat 47) "b")).
Proof.
  apply (sanitize_filename_safe ("a" +:+ String (Ascii.ascii_of_nat 47) "b")).
  vm_compute. do 4 right. left.
Defined.

Lemma generate_chunk_id_distinct_witness :
  NoDup [utils.generate_chunk_id "doc_a" 0; utils.generate_chunk_id "doc_a" 1;
         utils.generate_chunk_id "doc_a" 2].
Proof. exact (proj2 (generate_chunk_id_distinct "doc_a") 3%nat). Defined.

Lemma store_invariants_witness :
  vector_store.get_all_documents
    (run_calls sample.embed [threads.Clear vector_store.io_ok]
       vector_store.init) = [].
Proof.
  apply (store_invariants sample.embed [threads.Clear vector_store.io_ok]).
  reflexivity.
Defined.

Lemma retrieval_result_shape_witness :
  (0 < retriever.top_score
         (retriever.retrieve sample.embed config.default_settings "sky" None
            None sample.one_document))%Q.
Proof.
  apply (retrieval_result_shape sample.embed config.default_settings "sky" ""
           None None sample.one_document).
  reflexivity.
Defined.

Lemma ingest_document_outcome_witness :
  (ingest_api.ingest_document sample.embed sample.file_extension
     sample.file_hash sample.decode_txt sample.no_decoder sample.no_decoder
     sample.split_words vector_store.io_ok sample.upload_settings
     sample.nameless_upload "00112233445566778899aabbccddeeff"
     "2024-01-01T00:00:00" sample.one_document).2
  = sample.one_document.
Proof.
  apply (ingest_document_outcome sample.embed sample.file_extension
           sample.file_hash sample.decode_txt sample.no_decoder
           sample.no_decoder sample.split_words vector_store.io_ok
           sample.upload_settings sample.nameless_upload
           "00112233445566778899aabbccddeeff" "2024-01-01T00:00:00"
           sample.one_document).
  intros response. discriminate.
Defined.

Example ingest_document_example :
  let answer :=
    ingest_api.ingest_document sample.embed sample.file_extension
      sample.file_hash sample.decode_txt sample.no_decoder sample.no_decoder
      sample.split_words vector_store.io_ok sample.upload_settings
      sample.upload "00112233445566778899aabbccddeeff" "2024-01-01T00:00:00"
      vector_store.init in
  answer.1
  = documents_api.Ok
      {| ingest_api.document_id := "doc_01234567_00112233";
         ingest_api.filename := "notes.txt";
         ingest_api.chunk_count := 2;
         ingest_api.message :=
           "Document 'notes.txt' uploaded and indexed successfully with 2 chunks";
         ingest_api.success := true |}
  ∧ map (fun e => vector_store.meta_chunk_id
                    (vector_store.metadata (vector_store.entry_doc e)))
        (vector_store.chunks answer.2)
    = [Some "doc_01234567_00112233_chunk_0000";
       Some "doc_01234567_00112233_chunk_0001"].
Proof. split; reflexivity. Qed.

Example ingest_batch_example :
  let answer :=
    ingest_api.ingest_batch sample.embed sample.file_extension
      sample.file_hash sample.decode_txt sample.no_decoder sample.no_decoder
      sample.split_words sample.exn_text (fun _ => vector_store.io_ok)
      sample.upload_settings [sample.nameless_upload; sample.upload]
      (fun _ => "00112233445566778899aabbccddeeff")
      (fun _ => "2024-01-01T00:00:00") vector_store.init in
  ingest_api.success_count answer.1 = 1%nat
  ∧ ingest_api.errors answer.1
    = [ {| ingest_api.error_filename := None;
           ingest_api.error := "No filename provided" |} ]
  ∧ length (vector_store.chunks answer.2) = 2%nat.
Proof. split_and!; reflexivity. Qed.

Lemma padded_session_id_is_another_session_witness :
  main_api.clear_session " s"
    (conversation.add_turn "s" "q" "a" conversation.init)
  = ({| main_api.session_id := " s";
        main_api.message := "Session did not exist (nothing to clear)";
        main_api.success := true |},
     conversation.add_turn "s" "q" "a" conversation.init).
Proof.
  apply (padded_session_id_is_another_session " s" "s" "q" "a"
           conversation.init); [reflexivity|congruence|reflexivity|reflexivity].
Defined.

Lemma ingest_batch_outcome_witness :
  (ingest_api.ingest_batch sample.embed sample.file_extension
     sample.file_hash sample.decode_txt sample.no_decoder sample.no_decoder
     sample.split_words sample.exn_text (fun _ => vector_store.io_ok)
     sample.upload_settings [sample.nameless_upload]
     (fun _ => "00112233445566778899aabbccddeeff")
     (fun _ => "2024-01-01T00:00:00") vector_store.init).2
  = vector_store.init.
Proof.
  apply (ingest_batch_outcome sample.embed sample.file_extension
           sample.file_hash sample.decode_txt sample.no_decoder
           sample.no_decoder sample.split_words sample.exn_text
           (fun _ => vector_store.io_ok) sample.upload_settings
           [sample.nameless_upload]
           (fun _ => "00112233445566778899aabbccddeeff")
           (fun _ => "2024-01-01T00:00:00") vector_store.init).
  reflexivity.
Defined.

Lemma session_endpoints_outcome_witness :
  (main_api.clear_session "a"
     (conversation.add_turn "b" "q" "a" conversation.init)).2 !! "b"
  = conversation.add_turn "b" "q" "a" conversation.init !! "b".
Proof.
  apply (session_endpoints_outcome "a"
           (conversation.add_turn "b" "q" "a" conversation.init)).
  congruence.
Defined.



Example chat_sync_example :
  let answer :=
    chat_api.chat_sync sample.embed sample.echo config.default_settings
      "openai" sample.chat_request sample.one_document conversation.init in
  chat_api.answer <$> answer.1 = Some "sky"
  ∧ chat_api.confidence <$> answer.1 = Some 1%Q
  ∧ answer.2 !! "s"
    = Some [ {| conversation.role := conversation.user;
                conversation.content := "sky" |};
             {| conversation.role := conversation.assistant;
                conversation.content := "sky" |} ].
Proof. split_and!; reflexivity. Qed.

Example generate_sse_response_example :
  let answer :=
    chat_api.generate_sse_response sample.embed sample.echo_stream
      config.default_settings "openai" sample.chat_request
      sample.one_document conversation.init in
  match answer.1 with
  | [chat_api.token "sky"; chat_api.sources_chunk [_];
     chat_api.done_chunk confidence] => confidence = 1%Q
  | _ => False
  end
  ∧ answer.2 !! "s"
    = Some [ {| conversation.role := conversation.user;
                conversation.content := "sky" |};
             {| conversation.role := conversation.assistant;
                conversation.content := "sky" |} ].
Proof. split; reflexivity. Qed.

Lemma chat_request_validators_witness :
  chat_api.message_not_empty "hello" = Some "hello".
Proof.
  apply (proj2 (proj2 (proj2
           (proj1 (proj2 (chat_request_validators " hello ")) "hello"
              eq_refl)))).
Defined.
